(** * mgc-sdk-go: compute image services and the object-storage presigner

    A shallow embedding of
      - compute/client.go, compute/images.go, compute/custom_images.go
      - objectstorage/presigned.go, objectstorage/errors.go and the presign
        operations of objectstorage/minio_interface.go
    followed by the properties of the pagination loop, of the query
    encoding, of the error paths and of the presigner.

    Go's [int] is a 64-bit two's complement integer and is modelled as [Z]
    with the wrap-around of [+] written out; a Go [string] is a [string]
    of bytes; a nilable pointer is an [option]; a slice is a [list] (the nil
    slice and the empty slice are both [[]]). *)

From Stdlib Require Import ZArith List String Ascii Bool Lia.
From Stdlib Require Import DecimalString DecimalPos DecimalZ.
Import ListNotations.
Open Scope string_scope.
Open Scope list_scope.
Open Scope Z_scope.

(* ===================================================================== *)
(** * Go runtime and standard library used by the services *)
(* ===================================================================== *)

Module GoInt.

Definition minInt : Z := - 2 ^ 63.
Definition maxInt : Z := 2 ^ 63 - 1.

(** Two's complement wrap-around of a 64-bit signed integer. *)
Definition wrap (z : Z) : Z := (z + 2 ^ 63) mod 2 ^ 64 - 2 ^ 63.

(** [a + b] on Go's [int]. *)
Definition add (a b : Z) : Z := wrap (a + b).

(** [len(xs)] as an [int]. *)
Definition len {A : Type} (xs : list A) : Z := Z.of_nat (List.length xs).

End GoInt.

Module strconv.

(** [strconv.Itoa]: the decimal representation, with a leading ['-'] for
    negative numbers and no leading zeros. *)
Definition Itoa (i : Z) : string := NilZero.string_of_int (Z.to_int i).

End strconv.

Module strings.

(** [strings.Cut(s, sep)] for a one-byte separator. *)
Fixpoint Cut (s : string) (sep : ascii) : string * string * bool :=
  match s with
  | EmptyString => (EmptyString, EmptyString, false)
  | String c rest =>
      if Ascii.eqb c sep then (EmptyString, rest, true)
      else let '(before, after, found) := Cut rest sep in
           (String c before, after, found)
  end.

(** [strings.Contains(s, sep)] for a one-byte [sep]. *)
Fixpoint ContainsByte (s : string) (c : ascii) : bool :=
  match s with
  | EmptyString => false
  | String d rest => Ascii.eqb d c || ContainsByte rest c
  end.

(** Whether every byte of [s] satisfies [p]. *)
Fixpoint all_bytes (p : ascii -> bool) (s : string) : bool :=
  match s with
  | EmptyString => true
  | String c rest => p c && all_bytes p rest
  end.

(** The pieces of [s] between occurrences of [sep], in order. *)
Fixpoint Split (s : string) (sep : ascii) : list string :=
  match s with
  | EmptyString => [EmptyString]
  | String c rest =>
      if Ascii.eqb c sep then EmptyString :: Split rest sep
      else match Split rest sep with
           | [] => [String c EmptyString]
           | piece :: pieces => String c piece :: pieces
           end
  end.

End strings.

Module url.

Definition byte_in (lo hi c : ascii) : bool :=
  (nat_of_ascii lo <=? nat_of_ascii c)%nat && (nat_of_ascii c <=? nat_of_ascii hi)%nat.

(** [shouldEscape(c, encodeQueryComponent)]: everything but the unreserved
    characters of RFC 3986 section 2.3 is escaped. *)
Definition shouldEscape (c : ascii) : bool :=
  if byte_in "a" "z" c || byte_in "A" "Z" c || byte_in "0" "9" c then false
  else if Ascii.eqb c "-" || Ascii.eqb c "_" || Ascii.eqb c "." || Ascii.eqb c "~"
       then false
       else true.

Definition upperhex (n : nat) : ascii :=
  match String.get n "0123456789ABCDEF" with
  | Some c => c
  | None => "0"%char
  end.

(** The texts that [QueryEscape] leaves as they are. *)
Definition unreserved (s : string) : bool :=
  strings.all_bytes (fun c => negb (shouldEscape c)) s.

(** [url.QueryEscape]. *)
Fixpoint QueryEscape (s : string) : string :=
  match s with
  | EmptyString => EmptyString
  | String c rest =>
      if shouldEscape c then
        if Ascii.eqb c " " then String "+" (QueryEscape rest)
        else String "%" (String (upperhex (nat_of_ascii c / 16))
                           (String (upperhex (nat_of_ascii c mod 16))
                              (QueryEscape rest)))
      else String c (QueryEscape rest)
  end.

Definition ishex (c : ascii) : bool :=
  byte_in "0" "9" c || byte_in "a" "f" c || byte_in "A" "F" c.

Definition unhex (c : ascii) : nat :=
  if byte_in "0" "9" c then nat_of_ascii c - nat_of_ascii "0"
  else if byte_in "a" "f" c then nat_of_ascii c - nat_of_ascii "a" + 10
  else if byte_in "A" "F" c then nat_of_ascii c - nat_of_ascii "A" + 10
  else 0.

(** [url.QueryUnescape]; [None] is the [EscapeError] of a malformed
    percent escape. *)
Fixpoint QueryUnescape (s : string) : option string :=
  match s with
  | EmptyString => Some EmptyString
  | String c rest =>
      if Ascii.eqb c "%" then
        match rest with
        | String h (String l rest') =>
            if ishex h && ishex l then
              option_map (String (ascii_of_nat (unhex h * 16 + unhex l)))
                (QueryUnescape rest')
            else None
        | _ => None
        end
      else if Ascii.eqb c "+" then option_map (String " ") (QueryUnescape rest)
      else option_map (String c) (QueryUnescape rest)
  end.

(** [url.Values] is a [map[string][]string]; it is kept as an association
    list with one entry per key, since [Encode] orders the keys. *)
Definition Values : Type := list (string * list string).

Fixpoint lookup (v : Values) (key : string) : list string :=
  match v with
  | [] => []
  | (k, vs) :: rest => if String.eqb k key then vs else lookup rest key
  end.

(** [v.Add(key, value)]: [v[key] = append(v[key], value)]. *)
Fixpoint Add (v : Values) (key value : string) : Values :=
  match v with
  | [] => [(key, [value])]
  | (k, vs) :: rest =>
      if String.eqb k key then (k, vs ++ [value]) :: rest
      else (k, vs) :: Add rest key value
  end.

(** [v.Get(key)]: the first value of the key, or the empty string. *)
Definition Get (v : Values) (key : string) : string :=
  match lookup v key with
  | [] => EmptyString
  | first :: _ => first
  end.

Fixpoint insert_sorted (k : string) (keys : list string) : list string :=
  match keys with
  | [] => [k]
  | k' :: rest => if String.leb k k' then k :: keys else k' :: insert_sorted k rest
  end.

(** [slices.Sort(keys)]: ascending byte-wise order. *)
Definition sort_keys (keys : list string) : list string :=
  fold_right insert_sorted [] keys.

(** The inner loop of [Encode] over the values of one key: a ['&'] is
    written before every pair but the first of the buffer. *)
Fixpoint encode_key (buf keyEscaped : string) (vs : list string) : string :=
  match vs with
  | [] => buf
  | value :: rest =>
      let buf := if (0 <? String.length buf)%nat then (buf ++ "&")%string else buf in
      encode_key (buf ++ keyEscaped ++ "=" ++ QueryEscape value)%string keyEscaped rest
  end.

(** [v.Encode()]: the pairs in the order of the sorted keys. *)
Definition Encode (v : Values) : string :=
  fold_left (fun buf k => encode_key buf (QueryEscape k) (lookup v k))
            (sort_keys (map fst v)) EmptyString.

(** One step of the loop of [parseQuery]; a piece that is empty, holds a
    semicolon or a malformed escape is skipped (its error is the one
    [URL.Query] drops). *)
Definition parse_piece (m : Values) (piece : string) : Values :=
  if strings.ContainsByte piece ";" then m
  else if String.eqb piece EmptyString then m
  else let '(key, value, _) := strings.Cut piece "=" in
       match QueryUnescape key, QueryUnescape value with
       | Some key, Some value => Add m key value
       | _, _ => m
       end.

(** [u.Query()]: [ParseQuery(u.RawQuery)] with its error dropped. *)
Definition ParseQuery (query : string) : Values :=
  fold_left parse_piece (strings.Split query "&") [].

(** The parts of [url.URL] the services read or write. *)
Record URL : Type := {
  Scheme : string;
  Host : string;
  Path : string;
  RawQuery : string
}.

(** [u.Query()]. *)
Definition Query (u : URL) : Values := ParseQuery (RawQuery u).

(** The assignment [u.RawQuery = q]. *)
Definition set_RawQuery (u : URL) (q : string) : URL :=
  {| Scheme := Scheme u; Host := Host u; Path := Path u; RawQuery := q |}.

End url.

Module http.

Definition MethodGet : string := "GET".
Definition MethodHead : string := "HEAD".
Definition MethodPost : string := "POST".
Definition MethodPut : string := "PUT".
Definition MethodDelete : string := "DELETE".

Definition StatusOK : Z := 200.

(** The parts of [http.Request] the services read or write.  The body is
    kept as the value of type [B] that the request builder was given, nil
    being [None]; its JSON text on the wire is not modelled. *)
Record Request (B : Type) : Type := {
  Method : string;
  URL : url.URL;
  Header : list (string * string);
  Body : option B
}.

Arguments Method {B} _.
Arguments URL {B} _.
Arguments Header {B} _.
Arguments Body {B} _.

(** The assignment [req.URL.RawQuery = q]. *)
Definition set_RawQuery {B : Type} (req : Request B) (q : string) : Request B :=
  {| Method := Method req; URL := url.set_RawQuery (URL req) q;
     Header := Header req; Body := Body req |}.

(** A response as the transport hands it over: the status code and the
    body, [None] when there is none. *)
Record Response : Type := {
  StatusCode : Z;
  ResponseBody : option string
}.

End http.

(* ===================================================================== *)
(** * Packages client and internal/http *)
(* ===================================================================== *)

Module client.

(** Modelled from the spec: the kinds of typed error that a status code
    selects (package client is not under src; taxonomy of the error
    handling design). *)
Inductive Kind : Type :=
| ValidationError
| NotFoundError
| ConflictError
| ServerError.

(** Modelled from the spec: the status code families, 400 to validation,
    404 to not-found, 409 to conflict and 5xx to server, validation being
    the whole 400 class; the spec names no kind for the other codes. *)
Definition kind_of_status (status : Z) : option Kind :=
  if status =? 404 then Some NotFoundError
  else if status =? 409 then Some ConflictError
  else if (400 <=? status) && (status <? 500) then Some ValidationError
  else if (500 <=? status) && (status <? 600) then Some ServerError
  else None.

(** Modelled from the spec: the typed error record (package client is not
    under src).  [HTTPError] is the error of a response outside 2xx and
    keeps the raw body; [OtherError] stands for any further value of Go's
    open [error] interface. *)
Inductive Error : Type :=
| HTTPError (status : Z) (raw : string)
| DecodingError
| TransportError (cause : string)
| OtherError (message : string).

(** Modelled from the spec: the kind of a typed error, selected by the
    status code of the response. *)
Definition kind (e : Error) : option Kind :=
  match e with
  | HTTPError status _ => kind_of_status status
  | _ => None
  end.

(** A Go result pair [(value, error)] of which exactly one side is set. *)
Inductive Result (T : Type) : Type :=
| Ok (value : T)
| Err (err : Error).

Arguments Ok {T} value.
Arguments Err {T} err.

End client.

Module mgc_http.

Import client.

(** The JSON decoding of a response body into the target type [T]. *)
Class Decodable (T : Type) : Type := decode : string -> option T.

(** Modelled from the spec: the response decoder and error normalizer
    [mgc_http.Do], second half (internal/http is not under src).  An empty
    or absent body fails with a [DecodingError] regardless of the status
    code; a status in [200,300) decodes the body as the target type, a
    decode failure being a [DecodingError]; any other status fails with the
    typed error of its code, which keeps the raw body. *)
Definition decodeResponse {T : Type} {decoder : Decodable T} (resp : http.Response)
  : Result T :=
  match http.ResponseBody resp with
  | None => Err DecodingError
  | Some body =>
      if String.eqb body EmptyString then Err DecodingError
      else if (200 <=? http.StatusCode resp) && (http.StatusCode resp <? 300) then
             match decode body with
             | Some value => Ok value
             | None => Err DecodingError
             end
           else Err (HTTPError (http.StatusCode resp) body)
  end.

Section Transport.

(** The state of the remote service and of the network, the cancellation
    token and the client configuration. *)
Context {S context Config B : Type}.

(** The injected HTTP transport: one round trip, which either fails (the
    cause on the left) or yields a response. *)
Variable roundTrip : Config -> context -> http.Request B -> S -> (string + http.Response) * S.

(** Modelled from the spec: [mgc_http.Do] (internal/http is not under
    src): executes the pending request once through the injected transport
    (no retry loop) and decodes or normalizes the response; a transport
    failure is a [TransportError]. *)
Definition Do {T : Type} {decoder : Decodable T}
  (cfg : Config) (ctx : context) (req : http.Request B) (s : S) : Result T * S :=
  match roundTrip cfg ctx req s with
  | (inl cause, s) => (Err (TransportError cause), s)
  | (inr resp, s) => (decodeResponse resp, s)
  end.

(** Modelled from the spec: [mgc_http.ExecuteSimpleRequestWithRespBody]
    (internal/http is not under src): one operation is one HTTP call, the
    request builder followed by the response decoder; the query parameters
    argument, nil at its call in src, is left out. *)
Definition ExecuteSimpleRequestWithRespBody {T : Type} {decoder : Decodable T}
  (ctx : context)
  (newRequest : context -> string -> string -> B -> Result (http.Request B))
  (cfg : Config) (method path : string) (body : B) (s : S) : Result T * S :=
  match newRequest ctx method path body with
  | Err err => (Err err, s)
  | Ok req => Do cfg ctx req s
  end.

End Transport.

End mgc_http.

(* ===================================================================== *)
(** * Package compute *)
(* ===================================================================== *)

Module compute.

Import client.

(** client.go *)
Definition DefaultBasePath : string := "/compute".

(** custom_images.go: [type Platform string] and its constants. *)
Definition Platform : Type := string.
Definition PlatformLinux : Platform := "linux".
Definition PlatformWindows : Platform := "windows".

Definition Architecture : Type := string.
Definition ArchitectureX86_64 : Architecture := "x86/64".

Definition License : Type := string.
Definition LicenseLicensed : License := "licensed".
Definition LicenseUnlicensed : License := "unlicensed".

(** images.go *)
Record MinimumRequirements : Type := {
  VCPU : Z;
  RAM : Z;
  Disk : Z
}.

Definition ImageStatus : Type := string.
Definition ImageStatusActive : ImageStatus := "active".
Definition ImageStatusDeprecated : ImageStatus := "deprecated".
Definition ImageStatusDeleted : ImageStatus := "deleted".
Definition ImageStatusPending : ImageStatus := "pending".
Definition ImageStatusCreating : ImageStatus := "creating".
Definition ImageStatusImporting : ImageStatus := "importing".
Definition ImageStatusError : ImageStatus := "error".
Definition ImageStatusDeletingError : ImageStatus := "deleting_error".

Record Image : Type := {
  ID : string;
  Name : string;
  Status : ImageStatus;
  Version : option string;
  ImagePlatform : option string;
  ReleaseAt : option string;
  EndStandardSupportAt : option string;
  EndLifeAt : option string;
  ImageMinimumRequirements : MinimumRequirements;
  Labels : option (list string);
  AvailabilityZones : option (list string)
}.

(** Modelled from the spec: the pagination block of the list response
    envelope, [{"meta":{"page":{offset,limit,count,total}}}] (the
    declaration of [Meta] is not under src). *)
Record MetaPage : Type := {
  PageOffset : Z;
  PageLimit : Z;
  Count : Z;
  Total : Z
}.

(** Modelled from the spec: the [meta] member of the envelope (the
    declaration of [Meta] is not under src). *)
Record Meta : Type := {
  Page : MetaPage
}.

Record ImageList : Type := {
  ListMeta : Meta;
  Images : list Image
}.

Record ImageListOptions : Type := {
  Limit : option Z;
  Offset : option Z;
  Sort : option string;
  AvailabilityZone : option string
}.

(** The filtering options of [ListAll] (without pagination). *)
Record ImageFilterOptions : Type := {
  FilterSort : option string;
  FilterAvailabilityZone : option string
}.

(** custom_images.go *)
Record CreateCustomImageRequest : Type := {
  ReqName : string;
  ReqPlatform : Platform;
  ReqArchitecture : Architecture;
  ReqLicense : License;
  ReqURL : string;
  ReqRequirements : option MinimumRequirements;
  ReqVersion : option string;
  ReqDescription : option string;
  ReqUEFI : option bool
}.

(** The response type of [Create], [struct{ ID string }]. *)
Record CreateResponse : Type := {
  ResponseID : string
}.

(** The values that the services pass as the [body any] of a request. *)
Inductive body : Type :=
| nil_body
| create_body (createReq : CreateCustomImageRequest).

Section Services.

Context {S context Config : Type}.

(** [mgc_http.NewRequest], [mgc_http.Do] at [ImageList] and
    [mgc_http.ExecuteSimpleRequestWithRespBody] at [struct{ ID string }]:
    package internal/http is not under src, the services are embedded over
    any behaviour of the three. *)
Variable NewRequest :
  Config -> context -> string -> string -> body -> Result (http.Request body).
Variable Do : Config -> context -> http.Request body -> S -> Result ImageList * S.
Variable ExecuteSimpleRequestWithRespBody :
  context -> (context -> string -> string -> body -> Result (http.Request body)) ->
  Config -> string -> string -> body -> S -> Result CreateResponse * S.

(** The embedded [*client.CoreClient], through the configuration that its
    [GetConfig] returns. *)
Record VirtualMachineClient : Type := {
  GetConfig : Config
}.

(** [(c *VirtualMachineClient) newRequest] *)
Definition newRequest (c : VirtualMachineClient)
  (ctx : context) (method path : string) (b : body) : Result (http.Request body) :=
  NewRequest (GetConfig c) ctx method (DefaultBasePath ++ path)%string b.

Record imageService : Type := {
  imageService_client : VirtualMachineClient
}.

Record customImageService : Type := {
  customImageService_client : VirtualMachineClient
}.

(** [Images()] and [CustomImages()] *)
Definition VirtualMachineClient_Images (c : VirtualMachineClient) : imageService :=
  {| imageService_client := c |}.

Definition VirtualMachineClient_CustomImages (c : VirtualMachineClient) : customImageService :=
  {| customImageService_client := c |}.

(** images.go, lines 94 to 106: the four optional parameters added to the
    query values of the request. *)
Definition List_query (q : url.Values) (opts : ImageListOptions) : url.Values :=
  let q := match Limit opts with
           | Some limit => url.Add q "_limit" (strconv.Itoa limit)
           | None => q
           end in
  let q := match Offset opts with
           | Some offset => url.Add q "_offset" (strconv.Itoa offset)
           | None => q
           end in
  let q := match Sort opts with
           | Some sort => url.Add q "_sort" sort
           | None => q
           end in
  let q := match AvailabilityZone opts with
           | Some zone => url.Add q "availability-zone" zone
           | None => q
           end in
  q.

(** images.go, lines 89 to 107: the request that [List] builds. *)
Definition List_request (s : imageService) (ctx : context) (opts : ImageListOptions)
  : Result (http.Request body) :=
  match newRequest (imageService_client s) ctx http.MethodGet "/v1/images" nil_body with
  | Err err => Err err
  | Ok req =>
      let q := url.Query (http.URL req) in
      let q := List_query q opts in
      Ok (http.set_RawQuery req (url.Encode q))
  end.

(** [(s *imageService) List]: [(nil, err)] is [Err err] and
    [(response, nil)] is [Ok response]. *)
Definition List (s : imageService) (ctx : context) (opts : ImageListOptions) (w : S)
  : Result ImageList * S :=
  match List_request s ctx opts with
  | Err err => (Err err, w)
  | Ok req =>
      match Do (GetConfig (imageService_client s)) ctx req w with
      | (Err err, w) => (Err err, w)
      | (Ok response, w) => (Ok response, w)
      end
  end.

(** The page size of [ListAll]. *)
Definition limit : Z := 50.

(** The options of one iteration of [ListAll]. *)
Definition listOpts (opts : ImageFilterOptions) (currentOffset currentLimit : Z)
  : ImageListOptions :=
  {| Limit := Some currentLimit;
     Offset := Some currentOffset;
     Sort := FilterSort opts;
     AvailabilityZone := FilterAvailabilityZone opts |}.

(** The [for] loop of [ListAll].  The loop has no bound of its own: [fuel]
    bounds the number of iterations and [None] means that it ran out.  The
    result is Go's pair [(allImages, err)]. *)
Fixpoint ListAll_loop (fuel : nat) (s : imageService) (ctx : context)
  (opts : ImageFilterOptions) (offset : Z) (allImages : list Image) (w : S)
  : option ((list Image * option Error) * S) :=
  match fuel with
  | O => None
  | Datatypes.S fuel =>
      match List s ctx (listOpts opts offset limit) w with
      | (Err err, w) => Some (([], Some err), w)
      | (Ok response, w) =>
          let allImages := allImages ++ Images response in
          if GoInt.len (Images response) <? limit
          then Some ((allImages, None), w)
          else ListAll_loop fuel s ctx opts (GoInt.add offset limit) allImages w
      end
  end.

(** [(s *imageService) ListAll] *)
Definition ListAll (fuel : nat) (s : imageService) (ctx : context)
  (opts : ImageFilterOptions) (w : S) : option ((list Image * option Error) * S) :=
  ListAll_loop fuel s ctx opts 0 [] w.

(** [(s *customImageService) Create]; the result is Go's pair [(id, err)]. *)
Definition Create (s : customImageService) (ctx : context)
  (createReq : CreateCustomImageRequest) (w : S) : (string * option Error) * S :=
  match ExecuteSimpleRequestWithRespBody ctx
          (newRequest (customImageService_client s))
          (GetConfig (customImageService_client s))
          http.MethodPost "/v1/images/custom" (create_body createReq) w with
  | (Err err, w) => ((EmptyString, Some err), w)
  | (Ok res, w) => ((ResponseID res, None), w)
  end.

End Services.

End compute.

(* ===================================================================== *)
(** * Package objectstorage *)
(* ===================================================================== *)

Module objectstorage.

(** errors.go: the error types of the package; [ClientError] stands for an
    error value that the storage client returns. *)
Inductive Error : Type :=
| InvalidBucketNameError (Name : string)
| InvalidObjectKeyError (Key : string)
| InvalidObjectDataError (Message : string)
| InvalidPolicyError (Message : string)
| BucketError (Operation Bucket Message : string)
| ObjectError (Operation Bucket Key Message : string)
| InvalidHTTPMethodError (Method : string)
| ClientError (message : string).

(** The [Error()] methods of errors.go. *)
Definition Error_string (e : Error) : string :=
  match e with
  | InvalidBucketNameError Name => "invalid bucket name: " ++ Name
  | InvalidObjectKeyError Key => "invalid object key: " ++ Key
  | InvalidObjectDataError Message => "invalid object data: " ++ Message
  | InvalidPolicyError Message => "invalid policy: " ++ Message
  | BucketError Operation Bucket Message =>
      "bucket operation " ++ Operation ++ " on " ++ Bucket ++ " failed: " ++ Message
  | ObjectError Operation Bucket Key Message =>
      "object operation " ++ Operation ++ " on " ++ Bucket ++ "/" ++ Key
        ++ " failed: " ++ Message
  | InvalidHTTPMethodError Method => "invalid HTTP method: " ++ Method
  | ClientError message => message
  end%string.

(** [time.Duration], a number of nanoseconds. *)
Definition Duration : Type := Z.

(** The result pair of a presign operation: the URL or nil, and the error or nil. *)
Definition URLResult : Type := (option url.URL * option Error)%type.

(** minio_interface.go: the presigned operations of
    [minioClientInterface].  A client is a stateful object: every operation
    takes the state [M] of the client and returns the state it leaves. *)
Class minioClientInterface (M context : Type) : Type := {
  PresignedGetObject :
    context -> string -> string -> Duration -> url.Values -> M -> URLResult * M;
  PresignedHeadObject :
    context -> string -> string -> Duration -> url.Values -> M -> URLResult * M;
  PresignedPutObject :
    context -> string -> string -> Duration -> M -> URLResult * M
}.

Section Presigner.

Context {M context : Type} {minio : minioClientInterface M context}.

(** The fields of [ObjectStorageClient] that the presigner reaches. *)
Record ObjectStorageClient : Type := {
  minioClient : M;
  endpoint : string
}.

Record presignedService : Type := {
  presignedService_client : ObjectStorageClient
}.

(** [Presigner()] *)
Definition Presigner (c : ObjectStorageClient) : presignedService :=
  {| presignedService_client := c |}.

(** The service after the storage client moved to the state [m]. *)
Definition with_minioClient (p : presignedService) (m : M) : presignedService :=
  {| presignedService_client :=
       {| minioClient := m; endpoint := endpoint (presignedService_client p) |} |}.

(** [(p *presignedService) GeneratePresignedURL] *)
Definition GeneratePresignedURL (p : presignedService) (ctx : context)
  (method bucketName objectKey : string) (expiry : Duration) (reqParams : url.Values)
  : URLResult * presignedService :=
  let m := minioClient (presignedService_client p) in
  if String.eqb method http.MethodGet then
    let '(r, m) := PresignedGetObject ctx bucketName objectKey expiry reqParams m in
    (r, with_minioClient p m)
  else if String.eqb method http.MethodHead then
    let '(r, m) := PresignedHeadObject ctx bucketName objectKey expiry reqParams m in
    (r, with_minioClient p m)
  else if String.eqb method http.MethodPut then
    let '(r, m) := PresignedPutObject ctx bucketName objectKey expiry m in
    (r, with_minioClient p m)
  else ((None, Some (InvalidHTTPMethodError method)), p).

End Presigner.

End objectstorage.

(* ===================================================================== *)
(** * The pagination protocol of ListAll *)
(* ===================================================================== *)

Module pagination.

Import client compute.

(** The value of [offset] at the start of iteration [n] of the loop of
    [ListAll]: [offset := 0] followed by [n] times [offset += limit]. *)
Fixpoint page_offset (n : nat) : Z :=
  match n with
  | O => 0
  | Datatypes.S n => GoInt.add (page_offset n) limit
  end.

(** [len(response.Images) < limit], the test that ends the loop. *)
Definition short (response : ImageList) : bool :=
  GoInt.len (Images response) <? limit.

(** What the loop does with the outcome of a single-page call: it goes on
    after a page that is not short and stops after a short page or a
    failure. *)
Definition stops (r : Result ImageList) : bool :=
  match r with
  | Ok response => short response
  | Err _ => true
  end.

(** The records of the outcome of a single-page call. *)
Definition records (r : Result ImageList) : list Image :=
  match r with
  | Ok response => Images response
  | Err _ => []
  end.

(** Two outcomes that differ at most in the pagination block of the
    envelope (offset, limit, count and total). *)
Definition same_records (r1 r2 : Result ImageList) : Prop :=
  match r1, r2 with
  | Ok response1, Ok response2 => Images response1 = Images response2
  | Err err1, Err err2 => err1 = err2
  | _, _ => False
  end.

Section Protocol.

Context {S context Config : Type}.
Variable NewRequest :
  Config -> context -> string -> string -> body -> Result (http.Request body).
Variable Do : Config -> context -> http.Request body -> S -> Result ImageList * S.
Variable s : imageService (Config := Config).
Variable ctx : context.
Variable opts : ImageFilterOptions.

(** The single-page call of iteration [n]. *)
Definition call (n : nat) (w : S) : Result ImageList * S :=
  List NewRequest Do s ctx (listOpts opts (page_offset n) limit) w.

(** The state of the service before the call of iteration [n], when the
    iterations before it have all been made, starting in [w]. *)
Fixpoint world_before (n : nat) (w : S) : S :=
  match n with
  | O => w
  | Datatypes.S m => snd (call m (world_before m w))
  end.

(** The outcome of the call of iteration [n]: page [n] of the listing. *)
Definition page (n : nat) (w : S) : Result ImageList :=
  fst (call n (world_before n w)).

(** The records of the pages before page [n], in page order. *)
Fixpoint records_before (n : nat) (w : S) : list Image :=
  match n with
  | O => []
  | Datatypes.S m => records_before m w ++ records (page m w)
  end.

End Protocol.

End pagination.

(* ===================================================================== *)
(** * JSON texts *)
(* ===================================================================== *)

(** A reader of JSON texts (RFC 8259) for the response bodies of the test
    servers.  The bytes of a string are kept as they are; an escape
    [\uXXXX] is written in UTF-8, a surrogate pair as one code point and a
    lone surrogate as U+FFFD. *)
Module json.

#[local] Set Warnings "-register-all".

Inductive value : Type :=
| Null
| Bool (b : bool)
| Number (literal : string)
| Str (s : string)
| Array (items : list value)
| Object (members : list (string * value)).

Definition is_space (c : ascii) : bool :=
  Ascii.eqb c " " || Ascii.eqb c "009" || Ascii.eqb c "010" || Ascii.eqb c "013".

Fixpoint skip_space (s : string) : string :=
  match s with
  | String c rest => if is_space c then skip_space rest else s
  | EmptyString => EmptyString
  end.

Definition is_digit (c : ascii) : bool := url.byte_in "0" "9" c.

Definition hex4 (a b c d : ascii) : option N :=
  let digit x := N.of_nat (url.unhex x) in
  if url.ishex a && url.ishex b && url.ishex c && url.ishex d
  then Some (((digit a * 16 + digit b) * 16 + digit c) * 16 + digit d)%N
  else None.

(** The UTF-8 encoding of a code point. *)
Definition utf8 (cp : N) : string :=
  (if cp <? 128 then String (ascii_of_N cp) EmptyString
   else if cp <? 2048 then
     String (ascii_of_N (192 + cp / 64))
       (String (ascii_of_N (128 + cp mod 64)) EmptyString)
   else if cp <? 65536 then
     String (ascii_of_N (224 + cp / 4096))
       (String (ascii_of_N (128 + (cp / 64) mod 64))
          (String (ascii_of_N (128 + cp mod 64)) EmptyString))
   else
     String (ascii_of_N (240 + cp / 262144))
       (String (ascii_of_N (128 + (cp / 4096) mod 64))
          (String (ascii_of_N (128 + (cp / 64) mod 64))
             (String (ascii_of_N (128 + cp mod 64)) EmptyString))))%N.

Definition replacement : string := utf8 65533.

Definition is_high_surrogate (cp : N) : bool := ((55296 <=? cp) && (cp <? 56320))%N.
Definition is_low_surrogate (cp : N) : bool := ((56320 <=? cp) && (cp <? 57344))%N.

Definition simple_escape (c : ascii) : option ascii :=
  if Ascii.eqb c "034" then Some "034"%char
  else if Ascii.eqb c "\" then Some "\"%char
  else if Ascii.eqb c "/" then Some "/"%char
  else if Ascii.eqb c "b" then Some "008"%char
  else if Ascii.eqb c "f" then Some "012"%char
  else if Ascii.eqb c "n" then Some "010"%char
  else if Ascii.eqb c "r" then Some "013"%char
  else if Ascii.eqb c "t" then Some "009"%char
  else None.

Definition prepend (prefix : string) (r : option (string * string)) : option (string * string) :=
  match r with
  | Some (s, rest) => Some ((prefix ++ s)%string, rest)
  | None => None
  end.

(** The characters of a string up to its closing quote, and the text after
    the quote. *)
Fixpoint read_string (s : string) : option (string * string) :=
  match s with
  | EmptyString => None
  | String c rest =>
      if Ascii.eqb c "034" then Some (EmptyString, rest)
      else if Ascii.eqb c "\" then
        match rest with
        | EmptyString => None
        | String e rest1 =>
            match simple_escape e with
            | Some ch => prepend (String ch EmptyString) (read_string rest1)
            | None =>
                if Ascii.eqb e "u" then
                  match rest1 with
                  | String h1 (String h2 (String h3 (String h4 rest2))) =>
                      match hex4 h1 h2 h3 h4 with
                      | None => None
                      | Some cp =>
                          if is_high_surrogate cp then
                            match rest2 with
                            | String "\" (String "u"
                                (String l1 (String l2 (String l3 (String l4 rest3))))) =>
                                match hex4 l1 l2 l3 l4 with
                                | Some lo =>
                                    if is_low_surrogate lo
                                    then prepend
                                           (utf8 (65536 + (cp - 55296) * 1024 + (lo - 56320))%N)
                                           (read_string rest3)
                                    else prepend replacement (read_string rest2)
                                | None => prepend replacement (read_string rest2)
                                end
                            | _ => prepend replacement (read_string rest2)
                            end
                          else if is_low_surrogate cp
                               then prepend replacement (read_string rest2)
                               else prepend (utf8 cp) (read_string rest2)
                      end
                  | _ => None
                  end
                else None
            end
        end
      else if (nat_of_ascii c <? 32)%nat then None
      else prepend (String c EmptyString) (read_string rest)
  end.

(** The states of the number grammar: an optional minus, an integer part
    without a leading zero, an optional fraction and an optional exponent. *)
Inductive number_state : Type :=
| NumStart | NumMinus | NumZero | NumInt | NumDot | NumFrac | NumE | NumESign | NumExp.

Definition number_accepts (st : number_state) : bool :=
  match st with
  | NumZero | NumInt | NumFrac | NumExp => true
  | _ => false
  end.

Definition number_next (st : number_state) (c : ascii) : option number_state :=
  let is_e := Ascii.eqb c "e" || Ascii.eqb c "E" in
  match st with
  | NumStart =>
      if Ascii.eqb c "-" then Some NumMinus
      else if Ascii.eqb c "0" then Some NumZero
      else if is_digit c then Some NumInt else None
  | NumMinus =>
      if Ascii.eqb c "0" then Some NumZero
      else if is_digit c then Some NumInt else None
  | NumZero =>
      if Ascii.eqb c "." then Some NumDot else if is_e then Some NumE else None
  | NumInt =>
      if is_digit c then Some NumInt
      else if Ascii.eqb c "." then Some NumDot else if is_e then Some NumE else None
  | NumDot => if is_digit c then Some NumFrac else None
  | NumFrac => if is_digit c then Some NumFrac else if is_e then Some NumE else None
  | NumE =>
      if Ascii.eqb c "+" || Ascii.eqb c "-" then Some NumESign
      else if is_digit c then Some NumExp else None
  | NumESign => if is_digit c then Some NumExp else None
  | NumExp => if is_digit c then Some NumExp else None
  end.

(** The longest number literal at the head of the text. *)
Fixpoint read_number (st : number_state) (s : string) : option (string * string) :=
  match s with
  | EmptyString => if number_accepts st then Some (EmptyString, EmptyString) else None
  | String c rest =>
      match number_next st c with
      | Some st' => prepend (String c EmptyString) (read_number st' rest)
      | None => if number_accepts st then Some (EmptyString, s) else None
      end
  end.

(** [Some rest] when the text starts with the word. *)
Fixpoint read_word (word s : string) : option string :=
  match word, s with
  | EmptyString, _ => Some s
  | String w word', String c rest => if Ascii.eqb w c then read_word word' rest else None
  | String _ _, EmptyString => None
  end.

(** The elements of an array after the first bracket, [n] bounding their
    number. *)
Fixpoint read_elements (n : nat) (read : string -> option (value * string))
  (s : string) (acc : list value) : option (list value * string) :=
  match n with
  | O => None
  | S n =>
      match read s with
      | None => None
      | Some (v, rest) =>
          match skip_space rest with
          | String "," rest' => read_elements n read rest' (v :: acc)
          | String "]" rest' => Some (rev (v :: acc), rest')
          | _ => None
          end
      end
  end.

(** The members of an object after the first brace. *)
Fixpoint read_members (n : nat) (read : string -> option (value * string))
  (s : string) (acc : list (string * value)) : option (list (string * value) * string) :=
  match n with
  | O => None
  | S n =>
      match skip_space s with
      | String "034" rest =>
          match read_string rest with
          | None => None
          | Some (key, rest1) =>
              match skip_space rest1 with
              | String ":" rest2 =>
                  match read rest2 with
                  | None => None
                  | Some (v, rest3) =>
                      match skip_space rest3 with
                      | String "," rest' => read_members n read rest' ((key, v) :: acc)
                      | String "}" rest' => Some (rev ((key, v) :: acc), rest')
                      | _ => None
                      end
                  end
              | _ => None
              end
          end
      | _ => None
      end
  end.

(** One value at the head of the text, [fuel] bounding the nesting and the
    number of elements of an array or object. *)
Fixpoint read_value (fuel : nat) (s : string) : option (value * string) :=
  match fuel with
  | O => None
  | S fuel =>
      match skip_space s with
      | EmptyString => None
      | String c rest =>
          if Ascii.eqb c "{" then
            match skip_space rest with
            | String "}" rest' => Some (Object [], rest')
            | _ => match read_members fuel (read_value fuel) rest [] with
                   | Some (members, rest') => Some (Object members, rest')
                   | None => None
                   end
            end
          else if Ascii.eqb c "[" then
            match skip_space rest with
            | String "]" rest' => Some (Array [], rest')
            | _ => match read_elements fuel (read_value fuel) rest [] with
                   | Some (items, rest') => Some (Array items, rest')
                   | None => None
                   end
            end
          else if Ascii.eqb c "034" then
            match read_string rest with
            | Some (str, rest') => Some (Str str, rest')
            | None => None
            end
          else if Ascii.eqb c "t" then option_map (pair (Bool true)) (read_word "rue" rest)
          else if Ascii.eqb c "f" then option_map (pair (Bool false)) (read_word "alse" rest)
          else if Ascii.eqb c "n" then option_map (pair Null) (read_word "ull" rest)
          else match read_number NumStart (String c rest) with
               | Some (literal, rest') => Some (Number literal, rest')
               | None => None
               end
      end
  end.

(** The value of a text that holds one JSON value and nothing else. *)
Definition parse (text : string) : option value :=
  match read_value (S (String.length text)) text with
  | Some (v, rest) =>
      match skip_space rest with
      | EmptyString => Some v
      | String _ _ => None
      end
  | None => None
  end.

(** Decoding into Go values, in the manner of encoding/json: a member is
    matched to a field by its name without regard to case, the members are
    assigned in their order, [null] leaves the field as it is, a value of
    another type than the field is an error, and an unknown member is
    skipped. *)

Definition lower (c : ascii) : ascii :=
  if url.byte_in "A" "Z" c then ascii_of_nat (nat_of_ascii c + 32) else c.

Fixpoint lower_string (s : string) : string :=
  match s with
  | EmptyString => EmptyString
  | String c rest => String (lower c) (lower_string rest)
  end.

Definition names (key field : string) : bool :=
  String.eqb (lower_string key) (lower_string field).

(** Assignment of the members of an object to a struct, [assign] being the
    assignment of one member. *)
Definition into_struct {T : Type} (assign : string -> value -> T -> option T)
  (v : value) (zero : T) : option T :=
  match v with
  | Null => Some zero
  | Object members =>
      fold_left (fun acc member =>
                   match acc with
                   | Some t => assign (fst member) (snd member) t
                   | None => None
                   end) members (Some zero)
  | _ => None
  end.

Definition into_string (v : value) (old : string) : option string :=
  match v with
  | Null => Some old
  | Str s => Some s
  | _ => None
  end.

Definition into_string_pointer (v : value) : option (option string) :=
  match v with
  | Null => Some None
  | Str s => Some (Some s)
  | _ => None
  end.

(** An [int] field takes an integer literal that fits 64 bits. *)
Definition into_int (v : value) (old : Z) : option Z :=
  match v with
  | Null => Some old
  | Number literal =>
      match NilZero.int_of_string literal with
      | Some d =>
          let i := Z.of_int d in
          if (GoInt.minInt <=? i) && (i <=? GoInt.maxInt) then Some i else None
      | None => None
      end
  | _ => None
  end.

Definition into_list {T : Type} (element : value -> option T) (v : value)
  : option (list T) :=
  match v with
  | Null => Some []
  | Array items =>
      fold_right (fun item acc =>
                    match element item, acc with
                    | Some t, Some ts => Some (t :: ts)
                    | _, _ => None
                    end) (Some []) items
  | _ => None
  end.

End json.

(** The decoders of the response types of package compute, by the JSON
    names of their fields. *)
Module compute_json.

Import compute.

(** [struct{ ID string }]: the field has no tag, its JSON name is [ID]. *)
Definition decodeCreateResponse (v : json.value) : option CreateResponse :=
  json.into_struct
    (fun key member res =>
       if json.names key "ID"
       then option_map (fun id => {| ResponseID := id |})
              (json.into_string member (ResponseID res))
       else Some res)
    v {| ResponseID := EmptyString |}.

Definition zeroRequirements : MinimumRequirements := {| VCPU := 0; RAM := 0; Disk := 0 |}.

Definition decodeMinimumRequirements (v : json.value) (old : MinimumRequirements)
  : option MinimumRequirements :=
  json.into_struct
    (fun key member r =>
       if json.names key "vcpu"
       then option_map (fun i => {| VCPU := i; RAM := RAM r; Disk := Disk r |})
              (json.into_int member (VCPU r))
       else if json.names key "ram"
       then option_map (fun i => {| VCPU := VCPU r; RAM := i; Disk := Disk r |})
              (json.into_int member (RAM r))
       else if json.names key "disk"
       then option_map (fun i => {| VCPU := VCPU r; RAM := RAM r; Disk := i |})
              (json.into_int member (Disk r))
       else Some r)
    v old.

Definition into_strings_pointer (v : json.value) : option (option (list string)) :=
  match v with
  | json.Null => Some None
  | _ => option_map Some (json.into_list (fun item => json.into_string item EmptyString) v)
  end.

Definition zeroImage : Image :=
  {| ID := EmptyString; Name := EmptyString; Status := EmptyString;
     Version := None; ImagePlatform := None; ReleaseAt := None;
     EndStandardSupportAt := None; EndLifeAt := None;
     ImageMinimumRequirements := zeroRequirements;
     Labels := None; AvailabilityZones := None |}.

Definition decodeImage (v : json.value) : option Image :=
  json.into_struct
    (fun key member i =>
       let set id name status version platform release endStandard endLife reqs labels zones :=
         {| ID := id; Name := name; Status := status; Version := version;
            ImagePlatform := platform; ReleaseAt := release;
            EndStandardSupportAt := endStandard; EndLifeAt := endLife;
            ImageMinimumRequirements := reqs; Labels := labels;
            AvailabilityZones := zones |} in
       if json.names key "id" then
         option_map (fun x => set x (Name i) (Status i) (Version i) (ImagePlatform i)
                                (ReleaseAt i) (EndStandardSupportAt i) (EndLifeAt i)
                                (ImageMinimumRequirements i) (Labels i) (AvailabilityZones i))
           (json.into_string member (ID i))
       else if json.names key "name" then
         option_map (fun x => set (ID i) x (Status i) (Version i) (ImagePlatform i)
                                (ReleaseAt i) (EndStandardSupportAt i) (EndLifeAt i)
                                (ImageMinimumRequirements i) (Labels i) (AvailabilityZones i))
           (json.into_string member (Name i))
       else if json.names key "status" then
         option_map (fun x => set (ID i) (Name i) x (Version i) (ImagePlatform i)
                                (ReleaseAt i) (EndStandardSupportAt i) (EndLifeAt i)
                                (ImageMinimumRequirements i) (Labels i) (AvailabilityZones i))
           (json.into_string member (Status i))
       else if json.names key "version" then
         option_map (fun x => set (ID i) (Name i) (Status i) x (ImagePlatform i)
                                (ReleaseAt i) (EndStandardSupportAt i) (EndLifeAt i)
                                (ImageMinimumRequirements i) (Labels i) (AvailabilityZones i))
           (json.into_string_pointer member)
       else if json.names key "platform" then
         option_map (fun x => set (ID i) (Name i) (Status i) (Version i) x
                                (ReleaseAt i) (EndStandardSupportAt i) (EndLifeAt i)
                                (ImageMinimumRequirements i) (Labels i) (AvailabilityZones i))
           (json.into_string_pointer member)
       else if json.names key "release_at" then
         option_map (fun x => set (ID i) (Name i) (Status i) (Version i) (ImagePlatform i)
                                x (EndStandardSupportAt i) (EndLifeAt i)
                                (ImageMinimumRequirements i) (Labels i) (AvailabilityZones i))
           (json.into_string_pointer member)
       else if json.names key "end_standard_support_at" then
         option_map (fun x => set (ID i) (Name i) (Status i) (Version i) (ImagePlatform i)
                                (ReleaseAt i) x (EndLifeAt i)
                                (ImageMinimumRequirements i) (Labels i) (AvailabilityZones i))
           (json.into_string_pointer member)
       else if json.names key "end_life_at" then
         option_map (fun x => set (ID i) (Name i) (Status i) (Version i) (ImagePlatform i)
                                (ReleaseAt i) (EndStandardSupportAt i) x
                                (ImageMinimumRequirements i) (Labels i) (AvailabilityZones i))
           (json.into_string_pointer member)
       else if json.names key "minimum_requirements" then
         option_map (fun x => set (ID i) (Name i) (Status i) (Version i) (ImagePlatform i)
                                (ReleaseAt i) (EndStandardSupportAt i) (EndLifeAt i)
                                x (Labels i) (AvailabilityZones i))
           (decodeMinimumRequirements member (ImageMinimumRequirements i))
       else if json.names key "labels" then
         option_map (fun x => set (ID i) (Name i) (Status i) (Version i) (ImagePlatform i)
                                (ReleaseAt i) (EndStandardSupportAt i) (EndLifeAt i)
                                (ImageMinimumRequirements i) x (AvailabilityZones i))
           (into_strings_pointer member)
       else if json.names key "availability_zones" then
         option_map (fun x => set (ID i) (Name i) (Status i) (Version i) (ImagePlatform i)
                                (ReleaseAt i) (EndStandardSupportAt i) (EndLifeAt i)
                                (ImageMinimumRequirements i) (Labels i) x)
           (into_strings_pointer member)
       else Some i)
    v zeroImage.

Definition zeroPage : MetaPage :=
  {| PageOffset := 0; PageLimit := 0; Count := 0; Total := 0 |}.

Definition decodeMetaPage (v : json.value) (old : MetaPage) : option MetaPage :=
  json.into_struct
    (fun key member p =>
       if json.names key "offset" then
         option_map (fun i => {| PageOffset := i; PageLimit := PageLimit p;
                                 Count := Count p; Total := Total p |})
           (json.into_int member (PageOffset p))
       else if json.names key "limit" then
         option_map (fun i => {| PageOffset := PageOffset p; PageLimit := i;
                                 Count := Count p; Total := Total p |})
           (json.into_int member (PageLimit p))
       else if json.names key "count" then
         option_map (fun i => {| PageOffset := PageOffset p; PageLimit := PageLimit p;
                                 Count := i; Total := Total p |})
           (json.into_int member (Count p))
       else if json.names key "total" then
         option_map (fun i => {| PageOffset := PageOffset p; PageLimit := PageLimit p;
                                 Count := Count p; Total := i |})
           (json.into_int member (Total p))
       else Some p)
    v old.

Definition decodeMeta (v : json.value) (old : Meta) : option Meta :=
  json.into_struct
    (fun key member m =>
       if json.names key "page"
       then option_map (fun p => {| Page := p |}) (decodeMetaPage member (Page m))
       else Some m)
    v old.

Definition decodeImageList (v : json.value) : option ImageList :=
  json.into_struct
    (fun key member l =>
       if json.names key "meta" then
         option_map (fun m => {| ListMeta := m; Images := Images l |})
           (decodeMeta member (ListMeta l))
       else if json.names key "images" then
         option_map (fun images => {| ListMeta := ListMeta l; Images := images |})
           (json.into_list decodeImage member)
       else Some l)
    v {| ListMeta := {| Page := zeroPage |}; Images := [] |}.

(** The decoding of a response body: the text is read as JSON, then
    decoded into the target type. *)
#[export] Instance Decodable_CreateResponse : mgc_http.Decodable CreateResponse :=
  fun body => match json.parse body with
              | Some v => decodeCreateResponse v
              | None => None
              end.

#[export] Instance Decodable_ImageList : mgc_http.Decodable ImageList :=
  fun body => match json.parse body with
              | Some v => decodeImageList v
              | None => None
              end.

End compute_json.

(* ===================================================================== *)
(** * Test doubles *)
(* ===================================================================== *)

Module doubles.

Import client compute.

(** A request builder in the manner of [testClient(server.URL)]: the URL is
    the base URL of the test server followed by the path, without a query. *)
Definition testNewRequest (cfg : string) (ctx : unit) (method path : string) (b : body)
  : Result (http.Request body) :=
  Ok {| http.Method := method;
        http.URL := {| url.Scheme := "http"; url.Host := cfg;
                       url.Path := path; url.RawQuery := EmptyString |};
        http.Header := [("Content-Type", "application/json")];
        http.Body := match b with
                     | nil_body => None
                     | create_body _ => Some b
                     end |}.

Definition testClient (serverURL : string) : VirtualMachineClient :=
  {| GetConfig := serverURL |}.

(** A server in the manner of the handler of [TestImageService_ListAll]: it
    answers the calls with the outcomes of a script (a page or a failure),
    one a call in the order of the script, and with an empty page once the
    script is used up; it keeps the requests that it received. *)
Record Script : Type := {
  pending : list (Result ImageList);
  received : list (http.Request body)
}.

Definition emptyPage : ImageList :=
  {| ListMeta := {| Page := {| PageOffset := 0; PageLimit := 50; Count := 0; Total := 0 |} |};
     Images := [] |}.

Definition scriptedDo {context Config : Type}
  (cfg : Config) (ctx : context) (req : http.Request body) (st : Script)
  : Result ImageList * Script :=
  match pending st with
  | [] => (Ok emptyPage, {| pending := []; received := received st ++ [req] |})
  | outcome :: rest => (outcome, {| pending := rest; received := received st ++ [req] |})
  end.

(** A server that cannot be reached: every round trip fails. *)
Definition failingDo {context Config : Type}
  (cfg : Config) (ctx : context) (req : http.Request body) (w : unit)
  : Result ImageList * unit :=
  (Err (TransportError "connection refused"), w).

(** The text [s] with a double quote for every apostrophe: the bodies of
    the test servers are written with apostrophes. *)
Fixpoint quoted (s : string) : string :=
  match s with
  | EmptyString => EmptyString
  | String c rest => String (if Ascii.eqb c "'" then "034"%char else c) (quoted rest)
  end.

(** A test server in the manner of the handlers of the tests: it answers
    every request with one status code and one body. *)
Definition fixedServer {context Config B : Type} (statusCode : Z) (response : option string)
  (cfg : Config) (ctx : context) (req : http.Request B) (w : unit)
  : (string + http.Response) * unit :=
  (inr {| http.StatusCode := statusCode; http.ResponseBody := response |}, w).

(** An image record and a page of [n] of them, in the manner of
    [generateImageListJSON]. *)
Definition testImage (name : string) : Image :=
  {| ID := name; Name := name; Status := ImageStatusActive;
     Version := None; ImagePlatform := None; ReleaseAt := None;
     EndStandardSupportAt := None; EndLifeAt := None;
     ImageMinimumRequirements := {| VCPU := 0; RAM := 0; Disk := 0 |};
     Labels := None; AvailabilityZones := None |}.

Definition testPage (offset : Z) (n : nat) (total : Z) : ImageList :=
  {| ListMeta := {| Page := {| PageOffset := offset; PageLimit := 50;
                               Count := Z.of_nat n; Total := total |} |};
     Images := map (fun i => testImage ("img" ++ strconv.Itoa (offset + Z.of_nat i))%string)
                   (seq 0 n) |}.

(** A deterministic double of the storage client.  Its state is the list of
    the presign calls that it received, with their arguments; every call
    answers with a URL of the object whose query holds the expiry in seconds
    and the request parameters that the call was given. *)
Inductive PresignCall : Type :=
| GetCall (bucketName objectName : string) (expiry : objectstorage.Duration)
    (reqParams : url.Values)
| HeadCall (bucketName objectName : string) (expiry : objectstorage.Duration)
    (reqParams : url.Values)
| PutCall (bucketName objectName : string) (expiry : objectstorage.Duration).

Definition presignedURL (bucketName objectName : string)
  (expiry : objectstorage.Duration) (reqParams : url.Values) : url.URL :=
  {| url.Scheme := "https";
     url.Host := "br-se1.magaluobjects.com";
     url.Path := (bucketName ++ "/" ++ objectName)%string;
     url.RawQuery :=
       url.Encode (url.Add reqParams "X-Amz-Expires" (strconv.Itoa (expiry / 1000000000))) |}.

#[export] Instance recordingClient : objectstorage.minioClientInterface (list PresignCall) unit := {|
  objectstorage.PresignedGetObject ctx bucketName objectName expiry reqParams calls :=
    ((Some (presignedURL bucketName objectName expiry reqParams), None),
     calls ++ [GetCall bucketName objectName expiry reqParams]);
  objectstorage.PresignedHeadObject ctx bucketName objectName expiry reqParams calls :=
    ((Some (presignedURL bucketName objectName expiry reqParams), None),
     calls ++ [HeadCall bucketName objectName expiry reqParams]);
  objectstorage.PresignedPutObject ctx bucketName objectName expiry calls :=
    ((Some (presignedURL bucketName objectName expiry []), None),
     calls ++ [PutCall bucketName objectName expiry])
|}.

(** The presigner of a client that has received no call yet. *)
Definition testPresigner : objectstorage.presignedService (M := list PresignCall) :=
  objectstorage.Presigner
    {| objectstorage.minioClient := []; objectstorage.endpoint := "br-se1.magaluobjects.com" |}.

(** [time.Minute] *)
Definition Minute : objectstorage.Duration := 60 * 1000000000.

End doubles.

(* ===================================================================== *)
(** * The parameters of List and further servers *)
(* ===================================================================== *)

Module images_query.

Import compute.

(** The parameters that [List] adds for its options (images.go, lines 95 to
    106): one pair for each option that is present, in the order of the
    four tests. *)
Definition parameters (opts : ImageListOptions) : list (string * string) :=
  match Limit opts with Some limit => [("_limit", strconv.Itoa limit)] | None => [] end
  ++ match Offset opts with Some offset => [("_offset", strconv.Itoa offset)] | None => [] end
  ++ match Sort opts with Some sort => [("_sort", sort)] | None => [] end
  ++ match AvailabilityZone opts with
     | Some zone => [("availability-zone", zone)]
     | None => []
     end.

(** [q.Add] for each of the pairs, in order. *)
Definition add_all (q : url.Values) (pairs : list (string * string)) : url.Values :=
  fold_left (fun q pair => url.Add q (fst pair) (snd pair)) pairs q.

(** The text [key=value] of a pair, the value escaped. *)
Definition pair_text (pair : string * string) : string :=
  (fst pair ++ String "=" (url.QueryEscape (snd pair)))%string.

(** The texts joined by ['&']. *)
Fixpoint join (pieces : list string) : string :=
  match pieces with
  | [] => EmptyString
  | [piece] => piece
  | piece :: rest => (piece ++ String "&" (join rest))%string
  end.

End images_query.

Module servers.

Import client compute.

(** A server that answers every call with the same page, whatever the
    offset of the request, in the manner of the handler of
    [TestImageService_Concurrent]; its state counts the calls. *)
Definition constantDo {context Config : Type} (response : ImageList)
  (cfg : Config) (ctx : context) (req : http.Request body) (calls : nat)
  : Result ImageList * nat :=
  (Ok response, Datatypes.S calls).

End servers.

(* ===================================================================== *)
(** * Package objectstorage: the construction of the client *)
(* ===================================================================== *)

Module objectstorage_client.

(** [Some rest] when [s] is [prefix] followed by [rest]. *)
Fixpoint CutPrefix (s prefix : string) : option string :=
  match prefix, s with
  | EmptyString, _ => Some s
  | String p prefix', String c rest =>
      if Ascii.eqb p c then CutPrefix rest prefix' else None
  | String _ _, EmptyString => None
  end.

(** [strings.TrimPrefix] *)
Definition TrimPrefix (s prefix : string) : string :=
  match CutPrefix s prefix with
  | Some rest => rest
  | None => s
  end.

(** The two shapes of error that [New] returns: a [client.ValidationError]
    with its two fields, or the error of [minio.New] as it is. *)
Inductive Error (MinioError : Type) : Type :=
| ValidationError (Field Message : string)
| FromMinio (err : MinioError).

Arguments ValidationError {MinioError} Field Message.
Arguments FromMinio {MinioError} err.

Section Construction.

(** The state of a storage client, the core client, the endpoints and the
    errors of [minio.New]. *)
Context {M CoreClient Endpoint MinioError : Type}.

(** [core.GetConfig().UserAgent] *)
Variable UserAgent : CoreClient -> string.

(** The endpoints of the package, declared outside src: the default
    endpoint, the text of an endpoint and [ValidateEndpoint], which yields
    the message of its error or [None]. *)
Variable BrSe1 : Endpoint.
Variable Endpoint_String : Endpoint -> string.
Variable ValidateEndpoint : Endpoint -> option string.

(** [minio.New] of the storage library, for a host and static credentials
    (the options [Secure] and [Transport] are constants of the call). *)
Variable minio_New : string -> string -> string -> M + MinioError.

(** [SetAppInfo] of [minioClientInterface]. *)
Variable SetAppInfo : string -> string -> M -> M.

Record ObjectStorageClient : Type := {
  CoreClient_ : CoreClient;
  minioClient : option M;
  endpoint : Endpoint
}.

(** [ClientOption], a function on the client under construction, as the
    client that the function leaves. *)
Definition ClientOption : Type := ObjectStorageClient -> ObjectStorageClient.

Definition WithEndpoint (e : Endpoint) : ClientOption :=
  fun c => {| CoreClient_ := CoreClient_ c; minioClient := minioClient c; endpoint := e |}.

(** [WithMinioClient], for a client that is not nil. *)
Definition WithMinioClient (m : M) : ClientOption :=
  fun c => {| CoreClient_ := CoreClient_ c; minioClient := Some m; endpoint := endpoint c |}.

(** [WithMinioClientInterface]; the interface value may be nil. *)
Definition WithMinioClientInterface (m : option M) : ClientOption :=
  fun c => {| CoreClient_ := CoreClient_ c; minioClient := m; endpoint := endpoint c |}.

(** [parseEndpoint] *)
Definition parseEndpoint (e : Endpoint) : string :=
  let endpointStr := Endpoint_String e in
  if String.eqb endpointStr EmptyString then EmptyString
  else
    let endpointStr := TrimPrefix endpointStr "https://" in
    let endpointStr := TrimPrefix endpointStr "http://" in
    endpointStr.

(** The options applied in order to the client under construction. *)
Definition apply_options (osClient : ObjectStorageClient) (opts : list ClientOption)
  : ObjectStorageClient :=
  fold_left (fun c opt => opt c) opts osClient.

(** The end of [New]: [SetAppInfo] on the client in use. *)
Definition named (core : CoreClient) (osClient : ObjectStorageClient) (m : M)
  : ObjectStorageClient :=
  {| CoreClient_ := CoreClient_ osClient;
     minioClient := Some (SetAppInfo "wrapper" (UserAgent core) m);
     endpoint := endpoint osClient |}.

(** [New]; the result is Go's pair of the client or nil and the error or
    nil. *)
Definition New (core : option CoreClient) (accessKey secretKey : string)
  (opts : list ClientOption)
  : option ObjectStorageClient * option (Error MinioError) :=
  match core with
  | None => (None, Some (ValidationError "core" "core client cannot be nil"))
  | Some core =>
      if String.eqb accessKey EmptyString then
        (None, Some (ValidationError "accessKey" "access key cannot be empty"))
      else if String.eqb secretKey EmptyString then
        (None, Some (ValidationError "secretKey" "secret key cannot be empty"))
      else
        let osClient :=
          apply_options {| CoreClient_ := core; minioClient := None; endpoint := BrSe1 |}
            opts in
        match ValidateEndpoint (endpoint osClient) with
        | Some message => (None, Some (ValidationError "endpoint" message))
        | None =>
            match minioClient osClient with
            | None =>
                let minioEndpoint := parseEndpoint (endpoint osClient) in
                match minio_New minioEndpoint accessKey secretKey with
                | inr err => (None, Some (FromMinio err))
                | inl m => (Some (named core osClient m), None)
                end
            | Some m => (Some (named core osClient m), None)
            end
        end
  end.

(** [NewWithEndpoint] *)
Definition NewWithEndpoint (core : option CoreClient) (e : Endpoint)
  (accessKey secretKey : string) (opts : list ClientOption)
  : option ObjectStorageClient * option (Error MinioError) :=
  New core accessKey secretKey (opts ++ [WithEndpoint e]).

End Construction.

(** A storage client that keeps the calls of [SetAppInfo], and endpoints as
    texts, valid when they are one of two known texts. *)
Definition recordAppInfo (appName appVersion : string) (calls : list (string * string))
  : list (string * string) :=
  calls ++ [(appName, appVersion)].

Definition knownEndpoint (e : string) : option string :=
  if String.eqb e "https://br-se1.magaluobjects.com"
     || String.eqb e "https://br-ne1.magaluobjects.com"
  then None
  else Some ("invalid endpoint: " ++ e)%string.

(** A [minio.New] that refuses the empty host. *)
Definition connect (host accessKey secretKey : string) : list (string * string) + string :=
  if String.eqb host EmptyString then inr "endpoint: no host" else inl [].

End objectstorage_client.

Module errors_go.

(** The error types of errors.go, by number. *)
Definition error_type (e : objectstorage.Error) : option nat :=
  match e with
  | objectstorage.InvalidBucketNameError _ => Some 1%nat
  | objectstorage.InvalidObjectKeyError _ => Some 2%nat
  | objectstorage.InvalidObjectDataError _ => Some 3%nat
  | objectstorage.InvalidPolicyError _ => Some 4%nat
  | objectstorage.BucketError _ _ _ => Some 5%nat
  | objectstorage.ObjectError _ _ _ _ => Some 6%nat
  | objectstorage.InvalidHTTPMethodError _ => Some 7%nat
  | objectstorage.ClientError _ => None
  end.

End errors_go.

(* ===================================================================== *)
(** * Properties *)
(* ===================================================================== *)

Import client compute pagination.

(** ** The standard library on examples *)

Example Itoa_examples :
  map strconv.Itoa [0; 1; -1; 50; 1050; -9223372036854775808]
  = ["0"; "1"; "-1"; "50"; "1050"; "-9223372036854775808"].
Proof. reflexivity. Qed.

Example Encode_example :
  url.Encode (url.Add (url.Add (url.Add [] "_sort" "platform:asc") "_limit" "1") "a b" "x/y")
  = "_limit=1&_sort=platform%3Aasc&a+b=x%2Fy".
Proof. reflexivity. Qed.

Example ParseQuery_example :
  url.ParseQuery "_limit=1&_sort=platform%3Aasc&&a+b=x%2Fy&_limit=2"
  = [("_limit", ["1"; "2"]); ("_sort", ["platform:asc"]); ("a b", ["x/y"])].
Proof. reflexivity. Qed.

(** ** Integers *)

Lemma wrap_in_range (z : Z) :
  GoInt.minInt <= z <= GoInt.maxInt -> GoInt.wrap z = z.
Proof.
  unfold GoInt.minInt, GoInt.maxInt, GoInt.wrap. intros Hz.
  rewrite Z.mod_small; lia.
Qed.

(** As long as it fits an [int], the offset of iteration [n] is [50 * n]. *)
Lemma page_offset_closed_form (n : nat) :
  50 * Z.of_nat n <= GoInt.maxInt -> page_offset n = 50 * Z.of_nat n.
Proof.
  induction n as [|n IH]; intros Hn.
  - reflexivity.
  - cbn [page_offset]. rewrite IH by lia.
    unfold GoInt.add, limit. rewrite wrap_in_range.
    + lia.
    + unfold GoInt.minInt, GoInt.maxInt in *. lia.
Qed.

(** ** The loop of ListAll, one iteration at a time *)

Section PaginationFacts.

Context {S context Config : Type}.
Variable NewRequest :
  Config -> context -> string -> string -> body -> Result (http.Request body).
Variable Do : Config -> context -> http.Request body -> S -> Result ImageList * S.
Variable s : imageService (Config := Config).
Variable ctx : context.
Variable opts : ImageFilterOptions.

Local Abbreviation loop := (ListAll_loop NewRequest Do).
Local Abbreviation page := (page NewRequest Do s ctx opts).
Local Abbreviation world_before := (world_before NewRequest Do s ctx opts).
Local Abbreviation records_before := (records_before NewRequest Do s ctx opts).

(** One iteration of the loop. *)
Lemma ListAll_loop_S (fuel : nat) (offset : Z) (acc : list Image) (w : S) :
  loop (Datatypes.S fuel) s ctx opts offset acc w =
  match List NewRequest Do s ctx (listOpts opts offset limit) w with
  | (Err err, w) => Some (([], Some err), w)
  | (Ok response, w) =>
      if GoInt.len (Images response) <? limit
      then Some ((acc ++ Images response, None), w)
      else loop fuel s ctx opts (GoInt.add offset limit) (acc ++ Images response) w
  end.
Proof. reflexivity. Qed.

(** Iteration [n] of the loop, in terms of page [n]. *)
Lemma loop_step (fuel n : nat) (acc : list Image) (w : S) :
  loop (Datatypes.S fuel) s ctx opts (page_offset n) acc (world_before n w) =
  match page n w with
  | Err err => Some (([], Some err), world_before (Datatypes.S n) w)
  | Ok response =>
      if short response
      then Some ((acc ++ Images response, None), world_before (Datatypes.S n) w)
      else loop fuel s ctx opts (page_offset (Datatypes.S n)) (acc ++ Images response)
             (world_before (Datatypes.S n) w)
  end.
Proof.
  unfold pagination.page. cbn [pagination.world_before ListAll_loop].
  unfold call, short.
  destruct (List NewRequest Do s ctx (listOpts opts (page_offset n) limit)
              (world_before n w)) as [[response|err] w']; reflexivity.
Qed.

(** After [n] pages that did not stop the loop, the loop is at iteration
    [n] with the records of these pages. *)
Lemma ListAll_advance (n fuel : nat) (w : S) :
  (forall i, (i < n)%nat -> stops (page i w) = false) ->
  ListAll NewRequest Do (n + fuel) s ctx opts w =
  loop fuel s ctx opts (page_offset n) (records_before n w) (world_before n w).
Proof.
  revert fuel. induction n as [|n IH]; intros fuel Hgo.
  - reflexivity.
  - replace (Datatypes.S n + fuel)%nat with (n + Datatypes.S fuel)%nat by lia.
    rewrite IH by (intros i Hi; apply Hgo; lia).
    rewrite loop_step. specialize (Hgo n (Nat.lt_succ_diag_r n)).
    cbn [pagination.records_before].
    destruct (page n w) as [response|err]; cbn [stops records] in *.
    + now rewrite Hgo.
    + discriminate.
Qed.

(** The loop returns as soon as a page stops it. *)
Lemma loop_returns_at_stop (d n : nat) (acc : list Image) (w : S) :
  stops (page (n + d) w) = true ->
  exists r, loop (Datatypes.S d) s ctx opts (page_offset n) acc (world_before n w) = Some r.
Proof.
  revert n acc. induction d as [|d IH]; intros n acc Hstop; rewrite loop_step.
  - rewrite Nat.add_0_r in Hstop.
    destruct (page n w) as [response|err]; cbn [stops] in Hstop.
    + rewrite Hstop. eauto.
    + eauto.
  - destruct (page n w) as [response|err]; [|eauto].
    destruct (short response); [eauto|].
    apply IH. now replace (Datatypes.S n + d)%nat with (n + Datatypes.S d)%nat by lia.
Qed.

(** Among the first [fuel] pages, either one stops the loop or none does. *)
Lemma stop_within (fuel : nat) (w : S) :
  (exists n, (n < fuel)%nat /\ stops (page n w) = true) \/
  (forall n, (n < fuel)%nat -> stops (page n w) = false).
Proof.
  induction fuel as [|fuel [[n [Hn Hstop]]|Hgo]].
  - right. intros n Hn. lia.
  - left. exists n. split; [lia|exact Hstop].
  - destruct (stops (page fuel w)) eqn:Hlast.
    + left. exists fuel. split; [lia|exact Hlast].
    + right. intros n Hn.
      destruct (Nat.eq_dec n fuel) as [->|Hne]; [exact Hlast|apply Hgo; lia].
Qed.

(** A run that returns has met a page that stops the loop. *)
Lemma ListAll_returns_only_at_stop (fuel : nat) (w : S) r :
  ListAll NewRequest Do fuel s ctx opts w = Some r ->
  exists n, (n < fuel)%nat /\ stops (page n w) = true.
Proof.
  intros Hrun. destruct (stop_within fuel w) as [Hstop|Hgo]; [exact Hstop|].
  pose proof (ListAll_advance fuel 0 w Hgo) as Hadv.
  rewrite Nat.add_0_r, Hrun in Hadv. discriminate.
Qed.

(** Against any service, [ListAll] returns at the first short page with the
    records of the pages up to it. *)
Lemma ListAll_returns_at_short_page (n fuel : nat) (w : S) (last : ImageList) :
  (forall i, (i < n)%nat -> stops (page i w) = false) ->
  page n w = Ok last ->
  short last = true ->
  (n < fuel)%nat ->
  ListAll NewRequest Do fuel s ctx opts w
  = Some ((records_before (Datatypes.S n) w, None), world_before (Datatypes.S n) w).
Proof.
  intros Hgo Hpage Hshort Hfuel.
  replace fuel with (n + Datatypes.S (fuel - n - 1))%nat by lia.
  rewrite ListAll_advance by exact Hgo.
  rewrite loop_step. cbn [pagination.records_before]. rewrite Hpage, Hshort.
  reflexivity.
Qed.

(** An error is never accompanied by records. *)
Lemma loop_error_without_records (fuel : nat) (offset : Z) (acc : list Image) (w : S)
  images err w' :
  loop fuel s ctx opts offset acc w = Some ((images, Some err), w') -> images = [].
Proof.
  revert offset acc w. induction fuel as [|fuel IH]; intros offset acc w; cbn [ListAll_loop].
  - discriminate.
  - destruct (List NewRequest Do s ctx (listOpts opts offset limit) w)
      as [[response|failure] w1].
    + destruct (GoInt.len (Images response) <? limit).
      * discriminate.
      * apply IH.
    + intros [= <- _ _]. reflexivity.
Qed.

End PaginationFacts.

(** ** ListAll against a scripted server *)

Section ScriptedServer.

Import doubles.

Context {context Config : Type}.
Variable NewRequest :
  Config -> context -> string -> string -> body -> Result (http.Request body).
Variable s : imageService (Config := Config).
Variable ctx : context.
Variable req0 : http.Request body.
Hypothesis builder_ok :
  newRequest NewRequest (imageService_client s) ctx http.MethodGet "/v1/images" nil_body
  = Ok req0.

(** The request of [List], given the request of the builder. *)
Lemma List_request_of_builder (o : ImageListOptions) :
  List_request NewRequest s ctx o =
  Ok (http.set_RawQuery req0 (url.Encode (List_query (url.Query (http.URL req0)) o))).
Proof. unfold List_request. rewrite builder_ok. reflexivity. Qed.

Lemma List_scripted (o : ImageListOptions) outcome rest log req :
  List_request NewRequest s ctx o = Ok req ->
  List NewRequest scriptedDo s ctx o {| pending := outcome :: rest; received := log |} =
  (outcome, {| pending := rest; received := log ++ [req] |}).
Proof.
  intros Hreq. unfold List. rewrite Hreq. cbn [scriptedDo pending received].
  destruct outcome; reflexivity.
Qed.

Lemma scripted_loop (opts : ImageFilterOptions) (full : list ImageList) (last : ImageList) :
  Forall (fun response => List.length (Images response) = 50%nat) full ->
  (List.length (Images last) < 50)%nat ->
  forall n acc log,
    ListAll_loop NewRequest scriptedDo (Datatypes.S (List.length full)) s ctx opts
      (page_offset n) acc {| pending := map Ok (full ++ [last]); received := log |} =
    Some ((acc ++ List.concat (map Images (full ++ [last])), None),
          {| pending := [];
             received :=
               log ++ map (fun i => http.set_RawQuery req0
                                      (url.Encode (List_query (url.Query (http.URL req0))
                                                     (listOpts opts (page_offset i) limit))))
                          (seq n (Datatypes.S (List.length full))) |}).
Proof.
  intros Hfull Hlast. induction Hfull as [|response full Hlen _ IH]; intros n acc log.
  - cbn [List.length app map]. rewrite ListAll_loop_S.
    rewrite (List_scripted _ _ _ _ _ (List_request_of_builder _)).
    replace (GoInt.len (Images last) <? limit) with true
      by (symmetry; apply Z.ltb_lt; unfold GoInt.len, limit; lia).
    cbn [List.concat seq map]. now rewrite app_nil_r.
  - cbn [List.length app map]. rewrite ListAll_loop_S.
    rewrite (List_scripted _ _ _ _ _ (List_request_of_builder _)).
    replace (GoInt.len (Images response) <? limit) with false
      by (symmetry; apply Z.ltb_ge; unfold GoInt.len, limit; lia).
    change (GoInt.add (page_offset n) limit) with (page_offset (Datatypes.S n)).
    rewrite IH. cbn [List.concat seq map].
    now rewrite <- !app_assoc.
Qed.

End ScriptedServer.

(** ** Fuel *)

(** More fuel does not change the result of a run that returns. *)
Lemma loop_fuel_mono {S context Config : Type}
  (NewRequest : Config -> context -> string -> string -> body -> Result (http.Request body))
  (Do : Config -> context -> http.Request body -> S -> Result ImageList * S)
  (s : imageService) (ctx : context) (opts : ImageFilterOptions)
  (fuel fuel' : nat) (offset : Z) (acc : list Image) (w : S) r :
  (fuel <= fuel')%nat ->
  ListAll_loop NewRequest Do fuel s ctx opts offset acc w = Some r ->
  ListAll_loop NewRequest Do fuel' s ctx opts offset acc w = Some r.
Proof.
  revert fuel' offset acc w.
  induction fuel as [|fuel IH]; intros fuel' offset acc w Hle Hrun.
  - discriminate.
  - destruct fuel' as [|fuel']; [lia|].
    rewrite ListAll_loop_S in *.
    destruct (List NewRequest Do s ctx (listOpts opts offset limit) w)
      as [[response|err] w1]; [|exact Hrun].
    destruct (GoInt.len (Images response) <? limit); [exact Hrun|].
    apply IH; [lia|exact Hrun].
Qed.

(** ** ListAll: the results *)

(** C1. Against a server that answers with the pages of a sequence whose
    pages are all full (exactly 50 records) but the last, which is short
    (fewer than 50 records), [ListAll] returns, for any fuel above the
    number of full pages, the concatenation of the records of all pages in
    page order and no error; its length is the sum of the record counts of
    the pages; and the requests that the server received are, in order, the
    requests that [List] builds for limit 50, the offset of the iteration
    and the sort and availability zone of the caller, one request a page.
    The offset of iteration [n] is [50 * n] as long as it fits an [int]. *)
Theorem ListAll_concatenates_pages :
  forall {context Config : Type}
    (NewRequest : Config -> context -> string -> string -> body -> Result (http.Request body))
    (s : imageService) (ctx : context) (opts : ImageFilterOptions)
    (req0 : http.Request body) (full : list ImageList) (last : ImageList) (fuel : nat),
    newRequest NewRequest (imageService_client s) ctx http.MethodGet "/v1/images" nil_body
      = Ok req0 ->
    Forall (fun response => List.length (Images response) = 50%nat) full ->
    (List.length (Images last) < 50)%nat ->
    (List.length full < fuel)%nat ->
    exists st,
      ListAll NewRequest doubles.scriptedDo fuel s ctx opts
        {| doubles.pending := map Ok (full ++ [last]); doubles.received := [] |}
      = Some ((List.concat (map Images (full ++ [last])), None), st)
      /\ List.length (List.concat (map Images (full ++ [last])))
         = list_sum (map (fun response => List.length (Images response)) (full ++ [last]))
      /\ map Ok (doubles.received st)
         = map (fun n => List_request NewRequest s ctx
                           {| Limit := Some 50;
                              Offset := Some (page_offset n);
                              Sort := FilterSort opts;
                              AvailabilityZone := FilterAvailabilityZone opts |})
               (seq 0 (Datatypes.S (List.length full)))
      /\ doubles.pending st = []
      /\ (forall n, 50 * Z.of_nat n <= GoInt.maxInt -> page_offset n = 50 * Z.of_nat n).
Proof.
  intros context Config NewRequest s ctx opts req0 full last fuel Hreq Hfull Hlast Hfuel.
  eexists. split; [|split; [|split; [|split]]].
  - unfold ListAll.
    apply (loop_fuel_mono _ _ _ _ _ (Datatypes.S (List.length full))); [lia|].
    change 0 with (page_offset 0).
    apply (scripted_loop NewRequest s ctx req0 Hreq opts full last Hfull Hlast 0 [] []).
  - rewrite length_concat, map_map. reflexivity.
  - cbn [doubles.received app]. rewrite map_map.
    apply map_ext. intros n. symmetry.
    apply (List_request_of_builder NewRequest s ctx req0 Hreq).
  - reflexivity.
  - exact page_offset_closed_form.
Qed.

(** C2, as amended. [ListAll] returns (for some fuel) exactly when some page
    of the listing is short (fewer than 50 records) or fails.  Whether and
    with what it returns depends on the records and the failures of the
    pages only: two services whose pages agree on them, whatever the
    pagination blocks of their envelopes (offset, limit, count, total) say,
    drive the loop to the same result for every fuel. *)
Theorem ListAll_terminates_iff_page_stops :
  forall {S context Config : Type}
    (NewRequest : Config -> context -> string -> string -> body -> Result (http.Request body))
    (Do : Config -> context -> http.Request body -> S -> Result ImageList * S)
    (s : imageService) (ctx : context) (opts : ImageFilterOptions) (w : S),
    ((exists fuel r, ListAll NewRequest Do fuel s ctx opts w = Some r) <->
     (exists n,
        (exists response, page NewRequest Do s ctx opts n w = Ok response
                          /\ GoInt.len (Images response) < 50)
        \/ (exists err, page NewRequest Do s ctx opts n w = Err err)))
    /\
    (forall (S' : Type)
       (Do' : Config -> context -> http.Request body -> S' -> Result ImageList * S') (w' : S'),
       (forall n, same_records (page NewRequest Do s ctx opts n w)
                               (page NewRequest Do' s ctx opts n w')) ->
       forall fuel,
         option_map fst (ListAll NewRequest Do fuel s ctx opts w)
         = option_map fst (ListAll NewRequest Do' fuel s ctx opts w')).
Proof.
  intros S context Config NewRequest Do s ctx opts w. split; [split|].
  - intros [fuel [r Hrun]].
    destruct (ListAll_returns_only_at_stop _ _ _ _ _ _ _ _ Hrun) as [n [_ Hstop]].
    exists n. destruct (page NewRequest Do s ctx opts n w) as [response|err].
    + left. exists response. split; [reflexivity|].
      cbn [stops] in Hstop. unfold short, limit in Hstop. now apply Z.ltb_lt.
    + right. eauto.
  - intros [n Hn].
    assert (Hstop : stops (page NewRequest Do s ctx opts n w) = true).
    { destruct Hn as [[response [-> Hshort]]|[err ->]]; [|reflexivity].
      cbn [stops]. unfold short, limit. now apply Z.ltb_lt. }
    destruct (loop_returns_at_stop NewRequest Do s ctx opts n 0 [] w Hstop) as [r Hr].
    exists (Datatypes.S n), r. exact Hr.
  - intros S' Do' w' Hsame fuel. unfold ListAll.
    change 0 with (page_offset 0).
    change w with (world_before NewRequest Do s ctx opts 0 w) at 1.
    change w' with (world_before NewRequest Do' s ctx opts 0 w') at 1.
    generalize (@nil Image) as acc. generalize 0%nat as n.
    induction fuel as [|fuel IH]; intros n acc; [reflexivity|].
    rewrite !loop_step. specialize (Hsame n).
    destruct (page NewRequest Do s ctx opts n w) as [response|err],
             (page NewRequest Do' s ctx opts n w') as [response'|err'];
      cbn [same_records] in Hsame; try contradiction.
    + unfold short. rewrite <- Hsame.
      destruct (GoInt.len (Images response) <? limit); [reflexivity|apply IH].
    + now subst.
Qed.

(** C3. When the single-page call of some page fails, the pages before it
    having been served in full, [ListAll] returns, for any fuel that reaches
    this page, the error of the call and the nil slice: the records of the
    pages before are not returned.  More generally no run of [ListAll]
    returns records together with an error. *)
Theorem ListAll_failed_page_discards_records :
  forall {S context Config : Type}
    (NewRequest : Config -> context -> string -> string -> body -> Result (http.Request body))
    (Do : Config -> context -> http.Request body -> S -> Result ImageList * S)
    (s : imageService) (ctx : context) (opts : ImageFilterOptions) (w : S)
    (n : nat) (err : Error),
    (forall i, (i < n)%nat ->
       exists response, page NewRequest Do s ctx opts i w = Ok response
                        /\ 50 <= GoInt.len (Images response)) ->
    page NewRequest Do s ctx opts n w = Err err ->
    (forall fuel, (n < fuel)%nat ->
       ListAll NewRequest Do fuel s ctx opts w
       = Some (([], Some err), world_before NewRequest Do s ctx opts (Datatypes.S n) w))
    /\ (forall fuel images e w',
          ListAll NewRequest Do fuel s ctx opts w = Some ((images, Some e), w') ->
          images = []).
Proof.
  intros S context Config NewRequest Do s ctx opts w n err Hfull Hfail. split.
  - intros fuel Hfuel.
    replace fuel with (n + Datatypes.S (fuel - n - 1))%nat by lia.
    rewrite ListAll_advance.
    + rewrite loop_step, Hfail. reflexivity.
    + intros i Hi. destruct (Hfull i Hi) as [response [-> Hlen]].
      cbn [stops]. unfold short, limit. now apply Z.ltb_ge.
  - intros fuel images e w'. unfold ListAll. apply loop_error_without_records.
Qed.

(** C2, as stated, fails: against a server that cannot be reached [ListAll]
    returns (the error of the first call) although no page with fewer than
    50 records is ever returned. *)
Lemma ListAll_returns_without_short_page :
  let s := VirtualMachineClient_Images (doubles.testClient "127.0.0.1:8080") in
  let opts := {| FilterSort := None; FilterAvailabilityZone := None |} in
  ~ ((exists fuel r,
        ListAll doubles.testNewRequest doubles.failingDo fuel s tt opts tt = Some r)
     <->
     (exists n response,
        page doubles.testNewRequest doubles.failingDo s tt opts n tt = Ok response
        /\ GoInt.len (Images response) < 50)).
Proof.
  intros s opts [Honly_if _].
  destruct Honly_if as [n [response [Hpage _]]].
  - exists 1%nat. eexists. reflexivity.
  - unfold page, call, List in Hpage.
    destruct (List_request doubles.testNewRequest s tt
                (listOpts opts (page_offset n) limit)); discriminate.
Qed.

Lemma ListAll_concatenates_pages_witness :
  let s := VirtualMachineClient_Images (doubles.testClient "127.0.0.1:8080") in
  let opts := {| FilterSort := Some "name:asc"; FilterAvailabilityZone := Some "zone1" |} in
  let full := [doubles.testPage 0 50 125; doubles.testPage 50 50 125] in
  let last := doubles.testPage 100 25 125 in
  exists st,
    ListAll doubles.testNewRequest doubles.scriptedDo 3 s tt opts
      {| doubles.pending := map Ok (full ++ [last]); doubles.received := [] |}
    = Some ((List.concat (map Images (full ++ [last])), None), st)
    /\ List.length (List.concat (map Images (full ++ [last]))) = 125%nat
    /\ map (fun req => url.RawQuery (http.URL req)) (doubles.received st)
       = ["_limit=50&_offset=0&_sort=name%3Aasc&availability-zone=zone1";
          "_limit=50&_offset=50&_sort=name%3Aasc&availability-zone=zone1";
          "_limit=50&_offset=100&_sort=name%3Aasc&availability-zone=zone1"].
Proof.
  intros s opts full last.
  destruct (ListAll_concatenates_pages doubles.testNewRequest s tt opts
              {| http.Method := "GET";
                 http.URL := {| url.Scheme := "http"; url.Host := "127.0.0.1:8080";
                                url.Path := "/compute/v1/images";
                                url.RawQuery := EmptyString |};
                 http.Header := [("Content-Type", "application/json")];
                 http.Body := None |}
              full last 3)
    as [st [Hrun [Hlen [Hreqs _]]]].
  - reflexivity.
  - repeat constructor.
  - simpl. lia.
  - simpl. lia.
  - exists st. split; [exact Hrun|]. split; [rewrite Hlen; reflexivity|].
    assert (Hlog : map (fun r => match r with
                                 | Ok req => url.RawQuery (http.URL req)
                                 | Err _ => EmptyString
                                 end) (map Ok (doubles.received st))
                   = map (fun req => url.RawQuery (http.URL req)) (doubles.received st))
      by (rewrite map_map; reflexivity).
    rewrite <- Hlog, Hreqs. reflexivity.
Defined.

Lemma ListAll_failed_page_discards_records_witness :
  let s := VirtualMachineClient_Images (doubles.testClient "127.0.0.1:8080") in
  let opts := {| FilterSort := None; FilterAvailabilityZone := None |} in
  let w := {| doubles.pending := [Ok (doubles.testPage 0 50 125);
                                  Err (HTTPError 500 "internal server error")];
              doubles.received := [] |} in
  exists w',
    ListAll doubles.testNewRequest doubles.scriptedDo 2 s tt opts w
    = Some (([], Some (HTTPError 500 "internal server error")), w').
Proof.
  intros s opts w.
  destruct (ListAll_failed_page_discards_records
              doubles.testNewRequest doubles.scriptedDo s tt opts w 1
              (HTTPError 500 "internal server error")) as [Hrun _].
  - intros i Hi. assert (i = 0%nat) as -> by lia.
    eexists. split; [reflexivity|]. vm_compute. discriminate.
  - reflexivity.
  - eexists. apply Hrun. lia.
Defined.

(** ** The query of List *)

Lemma string_app_assoc (a b c : string) : ((a ++ b) ++ c = a ++ (b ++ c))%string.
Proof. induction a as [|ch a IH]; cbn; [reflexivity|now rewrite IH]. Qed.

Lemma string_app_nil_r (a : string) : (a ++ "" = a)%string.
Proof. induction a as [|ch a IH]; cbn; [reflexivity|now rewrite IH]. Qed.

Lemma unreserved_uint (d : Decimal.uint) :
  url.unreserved (NilEmpty.string_of_uint d) = true.
Proof. induction d; cbn; auto. Qed.

(** A decimal representation holds digits and a sign only. *)
Lemma unreserved_Itoa (i : Z) : url.unreserved (strconv.Itoa i) = true.
Proof.
  unfold strconv.Itoa, NilZero.string_of_int, NilZero.string_of_uint.
  destruct (Z.to_int i) as [d|d]; destruct d; try reflexivity;
    try apply (unreserved_uint (_ _));
    change (url.unreserved (String "-" ?s)) with (url.unreserved s);
    apply (unreserved_uint (_ _)).
Qed.

Lemma QueryEscape_unreserved (s : string) :
  url.unreserved s = true -> url.QueryEscape s = s.
Proof.
  unfold url.unreserved. induction s as [|c s IH]; cbn; [reflexivity|].
  intros Hs. apply andb_true_iff in Hs. destruct Hs as [Hc Hs].
  apply negb_true_iff in Hc. now rewrite Hc, (IH Hs).
Qed.

(** Escaping leaves a decimal representation as it is. *)
Lemma QueryEscape_Itoa (i : Z) : url.QueryEscape (strconv.Itoa i) = strconv.Itoa i.
Proof. apply QueryEscape_unreserved, unreserved_Itoa. Qed.

(** [Itoa] writes the integer itself: reading the digits back gives it. *)
Lemma Itoa_reads_back (i : Z) :
  option_map Z.of_int (NilZero.int_of_string (strconv.Itoa i)) = Some i.
Proof.
  unfold strconv.Itoa. rewrite NilZero.isi.
  - cbn. now rewrite DecimalZ.of_to.
  - destruct i; cbn; try discriminate.
    intros [= Hnil]. now apply DecimalPos.Unsigned.to_uint_nonnil in Hnil.
  - destruct i; cbn; try discriminate.
    intros [= Hnil]. now apply DecimalPos.Unsigned.to_uint_nonnil in Hnil.
Qed.

(** [List] hands the request that it built to [Do]. *)
Lemma List_runs_request {S context Config : Type}
  (NewRequest : Config -> context -> string -> string -> body -> Result (http.Request body))
  (Do : Config -> context -> http.Request body -> S -> Result ImageList * S)
  (s : imageService) (ctx : context) (opts : ImageListOptions) (w : S) req :
  List_request NewRequest s ctx opts = Ok req ->
  List NewRequest Do s ctx opts w = Do (GetConfig (imageService_client s)) ctx req w.
Proof.
  intros Hreq. unfold List. rewrite Hreq.
  destruct (Do (GetConfig (imageService_client s)) ctx req w) as [[response|err] w'];
    reflexivity.
Qed.

(** Evaluation of the closed parts of [Encode]: the order of the keys and
    the escaped keys. *)
Ltac eval_sort_keys :=
  match goal with
  | |- context [url.sort_keys ?keys] =>
      let sorted := eval vm_compute in (url.sort_keys keys) in
      change (url.sort_keys keys) with sorted
  end.

Ltac eval_escaped_keys :=
  repeat match goal with
         | |- context [url.QueryEscape (String ?c ?rest)] =>
             let escaped := eval vm_compute in (url.QueryEscape (String c rest)) in
             change (url.QueryEscape (String c rest)) with escaped
         end.

(** The encoding of the parameters of [List] when the request of the
    builder has no query: the keys in byte order, each value escaped. *)
Lemma Encode_List_query (theLimit theOffset : string) (sort zone : option string) :
  url.QueryEscape theLimit = theLimit ->
  url.QueryEscape theOffset = theOffset ->
  let q := [] in
  let q := url.Add q "_limit" theLimit in
  let q := url.Add q "_offset" theOffset in
  let q := match sort with Some v => url.Add q "_sort" v | None => q end in
  let q := match zone with Some v => url.Add q "availability-zone" v | None => q end in
  url.Encode q =
  ("_limit=" ++ theLimit ++ "&_offset=" ++ theOffset
   ++ match sort with Some v => "&_sort=" ++ url.QueryEscape v | None => "" end
   ++ match zone with Some v => "&availability-zone=" ++ url.QueryEscape v | None => "" end)%string.
Proof.
  intros Hlimit Hoffset.
  destruct sort as [sort|], zone as [zone|];
    cbn [url.Add String.eqb Ascii.eqb Bool.eqb]; unfold url.Encode; cbn [map fst];
    eval_sort_keys; cbn [fold_left url.lookup String.eqb Ascii.eqb Bool.eqb];
    eval_escaped_keys;
    cbn [url.encode_key String.length Nat.ltb Nat.leb String.append];
    rewrite Hlimit, Hoffset;
    repeat (rewrite !string_app_assoc; cbn [String.append]);
    rewrite ?string_app_nil_r; reflexivity.
Qed.

(** ** Reading the query back *)

Lemma unreserved_app (a b : string) :
  url.unreserved (a ++ b) = url.unreserved a && url.unreserved b.
Proof.
  unfold url.unreserved. induction a as [|c a IH]; cbn; [reflexivity|].
  now rewrite IH, andb_assoc.
Qed.

Lemma unreserved_without (s : string) (c : ascii) :
  url.unreserved s = true -> url.shouldEscape c = true -> strings.ContainsByte s c = false.
Proof.
  unfold url.unreserved. intros Hs Hc. induction s as [|d s IH]; cbn in *; [reflexivity|].
  apply andb_true_iff in Hs. destruct Hs as [Hd Hs]. rewrite (IH Hs), orb_false_r.
  destruct (Ascii.eqb_spec d c) as [->|]; [|reflexivity].
  rewrite Hc in Hd. discriminate.
Qed.

Lemma QueryUnescape_unreserved (s : string) :
  url.unreserved s = true -> url.QueryUnescape s = Some s.
Proof.
  unfold url.unreserved. induction s as [|c s IH]; cbn; [reflexivity|].
  intros Hs. apply andb_true_iff in Hs. destruct Hs as [Hc Hs].
  destruct (Ascii.eqb_spec c "%") as [->|_]; [discriminate|].
  destruct (Ascii.eqb_spec c "+") as [->|_]; [discriminate|].
  now rewrite (IH Hs).
Qed.

Lemma Split_app (a b : string) (sep : ascii) :
  strings.ContainsByte a sep = false ->
  strings.Split (a ++ String sep b) sep = a :: strings.Split b sep.
Proof.
  induction a as [|c a IH]; cbn.
  - intros _. now rewrite Ascii.eqb_refl.
  - intros Hc. apply orb_false_iff in Hc. destruct Hc as [Hc Ha].
    rewrite Hc, (IH Ha). reflexivity.
Qed.

Lemma Split_whole (a : string) (sep : ascii) :
  strings.ContainsByte a sep = false -> strings.Split a sep = [a].
Proof.
  induction a as [|c a IH]; cbn; [reflexivity|].
  intros Hc. apply orb_false_iff in Hc. destruct Hc as [Hc Ha].
  rewrite Hc, (IH Ha). reflexivity.
Qed.

Lemma Cut_app (a b : string) (sep : ascii) :
  strings.ContainsByte a sep = false ->
  strings.Cut (a ++ String sep b) sep = (a, b, true).
Proof.
  induction a as [|c a IH]; cbn.
  - intros _. now rewrite Ascii.eqb_refl.
  - intros Hc. apply orb_false_iff in Hc. destruct Hc as [Hc Ha].
    rewrite Hc, (IH Ha). reflexivity.
Qed.

Lemma ContainsByte_app (a b : string) (c : ascii) :
  strings.ContainsByte (a ++ b) c = strings.ContainsByte a c || strings.ContainsByte b c.
Proof. induction a as [|d a IH]; cbn; [reflexivity|]. now rewrite IH, orb_assoc. Qed.

(** A piece [key=value] of unreserved characters adds the value to the key. *)
Lemma parse_piece_pair (m : url.Values) (key value : string) :
  url.unreserved key = true -> url.unreserved value = true ->
  url.parse_piece m (key ++ String "=" value) = url.Add m key value.
Proof.
  intros Hkey Hvalue. unfold url.parse_piece.
  assert (Hsemi : strings.ContainsByte (key ++ String "=" value) ";" = false).
  { rewrite ContainsByte_app. cbn.
    now rewrite !unreserved_without. }
  rewrite Hsemi.
  replace (String.eqb (key ++ String "=" value) EmptyString) with false
    by (destruct key; reflexivity).
  rewrite Cut_app by now apply unreserved_without.
  now rewrite !QueryUnescape_unreserved.
Qed.

Lemma lookup_Add (m : url.Values) (key value key' : string) :
  url.lookup (url.Add m key value) key' =
  if String.eqb key key' then url.lookup m key' ++ [value] else url.lookup m key'.
Proof.
  induction m as [|[k vs] m IH]; cbn.
  - destruct (String.eqb key key'); reflexivity.
  - destruct (String.eqb_spec k key) as [->|Hk]; cbn.
    + destruct (String.eqb key key'); reflexivity.
    + rewrite IH. destruct (String.eqb_spec key key') as [->|_]; [|reflexivity].
      destruct (String.eqb_spec k key'); [contradiction|reflexivity].
Qed.

(** The first value of a key stays the first whatever is parsed after. *)
Lemma Get_parse_pieces (pieces : list string) (m : url.Values) (key first : string) rest :
  url.lookup m key = first :: rest ->
  url.Get (fold_left url.parse_piece pieces m) key = first.
Proof.
  revert m rest. induction pieces as [|piece pieces IH]; intros m rest Hm; cbn.
  - unfold url.Get. now rewrite Hm.
  - assert (Hstep : exists rest', url.lookup (url.parse_piece m piece) key = first :: rest').
    { unfold url.parse_piece.
      destruct (strings.ContainsByte piece ";"); [eauto|].
      destruct (String.eqb piece EmptyString); [eauto|].
      destruct (strings.Cut piece "=") as [[k v] found].
      destruct (url.QueryUnescape k); [|eauto].
      destruct (url.QueryUnescape v); [|eauto].
      rewrite lookup_Add, Hm. destruct (String.eqb s key); cbn; eauto. }
    destruct Hstep as [rest' Hstep]. exact (IH _ _ Hstep).
Qed.

(** What a server reads back from the query string of [List]. *)
Lemma Query_limit_offset (theLimit theOffset tail : string) :
  url.unreserved theLimit = true -> url.unreserved theOffset = true ->
  tail = EmptyString \/ (exists t, tail = String "&" t) ->
  let query := ("_limit=" ++ theLimit ++ "&_offset=" ++ theOffset ++ tail)%string in
  url.Get (url.ParseQuery query) "_limit" = theLimit
  /\ url.Get (url.ParseQuery query) "_offset" = theOffset.
Proof.
  intros Hlimit Hoffset Htail query.
  assert (Hparse : exists pieces,
             url.ParseQuery query
             = fold_left url.parse_piece pieces [("_limit", [theLimit]); ("_offset", [theOffset])]).
  { unfold url.ParseQuery, query.
    replace ("_limit=" ++ theLimit ++ "&_offset=" ++ theOffset ++ tail)%string
      with (("_limit" ++ String "=" theLimit) ++ String "&" ("_offset=" ++ theOffset ++ tail))%string
      by (rewrite !string_app_assoc; reflexivity).
    rewrite Split_app
      by (rewrite ContainsByte_app; cbn; now rewrite unreserved_without).
    cbn [fold_left]. rewrite parse_piece_pair by (reflexivity || assumption).
    destruct Htail as [-> | [t ->]].
    - rewrite string_app_nil_r.
      change ("_offset=" ++ theOffset)%string with ("_offset" ++ String "=" theOffset)%string.
      rewrite Split_whole
        by (rewrite ContainsByte_app; cbn; now rewrite unreserved_without).
      cbn [fold_left]. rewrite parse_piece_pair by (reflexivity || assumption).
      exists []. reflexivity.
    - replace ("_offset=" ++ theOffset ++ String "&" t)%string
        with (("_offset" ++ String "=" theOffset) ++ String "&" t)%string
        by (rewrite !string_app_assoc; reflexivity).
      rewrite Split_app
        by (rewrite ContainsByte_app; cbn; now rewrite unreserved_without).
      cbn [fold_left]. rewrite parse_piece_pair by (reflexivity || assumption).
      eexists. reflexivity. }
  destruct Hparse as [pieces ->].
  split; eapply Get_parse_pieces; reflexivity.
Qed.

(** C6. For options in which the limit, the offset, the sort key and the
    availability zone are all absent, [List] adds no parameter to the query
    values of the request, whatever these are; with a request builder whose
    URL has no query, the request that [List] builds and hands to [Do] has
    the empty query string. *)
Theorem List_omits_absent_options :
  forall {S context Config : Type}
    (NewRequest : Config -> context -> string -> string -> body -> Result (http.Request body))
    (Do : Config -> context -> http.Request body -> S -> Result ImageList * S)
    (s : imageService) (ctx : context) (opts : ImageListOptions)
    (req0 : http.Request body) (w : S),
    Limit opts = None -> Offset opts = None ->
    Sort opts = None -> AvailabilityZone opts = None ->
    newRequest NewRequest (imageService_client s) ctx http.MethodGet "/v1/images" nil_body
      = Ok req0 ->
    url.RawQuery (http.URL req0) = EmptyString ->
    (forall q, List_query q opts = q)
    /\ exists req,
         List_request NewRequest s ctx opts = Ok req
         /\ url.RawQuery (http.URL req) = EmptyString
         /\ url.Query (http.URL req) = []
         /\ List NewRequest Do s ctx opts w = Do (GetConfig (imageService_client s)) ctx req w.
Proof.
  intros S context Config NewRequest Do s ctx opts req0 w
    Hlimit Hoffset Hsort Hzone Hreq Hraw.
  assert (Hquery : forall q, List_query q opts = q).
  { intros q. unfold List_query. now rewrite Hlimit, Hoffset, Hsort, Hzone. }
  split; [exact Hquery|].
  assert (Hbuilt : List_request NewRequest s ctx opts
                   = Ok (http.set_RawQuery req0 EmptyString)).
  { unfold List_request. rewrite Hreq, Hquery. unfold url.Query. rewrite Hraw.
    reflexivity. }
  eexists. split; [exact Hbuilt|]. split; [reflexivity|]. split; [reflexivity|].
  now apply List_runs_request.
Qed.

Lemma List_omits_absent_options_witness :
  let s := VirtualMachineClient_Images (doubles.testClient "127.0.0.1:8080") in
  let opts := {| Limit := None; Offset := None; Sort := None; AvailabilityZone := None |} in
  exists req,
    List_request doubles.testNewRequest s tt opts = Ok req
    /\ url.RawQuery (http.URL req) = EmptyString.
Proof.
  intros s opts.
  destruct (List_omits_absent_options doubles.testNewRequest doubles.failingDo
              s tt opts
              {| http.Method := "GET";
                 http.URL := {| url.Scheme := "http"; url.Host := "127.0.0.1:8080";
                                url.Path := "/compute/v1/images";
                                url.RawQuery := EmptyString |};
                 http.Header := [("Content-Type", "application/json")];
                 http.Body := None |} tt)
    as [_ [req [Hbuilt [Hraw _]]]]; try reflexivity.
  exists req. split; [exact Hbuilt|exact Hraw].
Defined.

(** C7. For every limit and offset, negative and zero included, and with a
    request builder whose URL has no query, [List] builds (it rejects
    nothing) and hands to [Do] a request whose query string is
    [_limit=<limit>&_offset=<offset>], followed by the sort key and the
    availability zone when present, where [<limit>] and [<offset>] are the
    decimal representations of the two integers as they were given: a
    server that parses the query reads these two strings under [_limit] and
    [_offset], and reading their digits back gives the integers themselves. *)
Theorem List_emits_limit_and_offset :
  forall {S context Config : Type}
    (NewRequest : Config -> context -> string -> string -> body -> Result (http.Request body))
    (Do : Config -> context -> http.Request body -> S -> Result ImageList * S)
    (s : imageService) (ctx : context) (theLimit theOffset : Z)
    (sort zone : option string) (req0 : http.Request body) (w : S),
    newRequest NewRequest (imageService_client s) ctx http.MethodGet "/v1/images" nil_body
      = Ok req0 ->
    url.RawQuery (http.URL req0) = EmptyString ->
    let opts := {| Limit := Some theLimit; Offset := Some theOffset;
                   Sort := sort; AvailabilityZone := zone |} in
    exists req,
      List_request NewRequest s ctx opts = Ok req
      /\ url.RawQuery (http.URL req)
         = ("_limit=" ++ strconv.Itoa theLimit ++ "&_offset=" ++ strconv.Itoa theOffset
            ++ match sort with Some v => "&_sort=" ++ url.QueryEscape v | None => "" end
            ++ match zone with
               | Some v => "&availability-zone=" ++ url.QueryEscape v
               | None => ""
               end)%string
      /\ url.Get (url.Query (http.URL req)) "_limit" = strconv.Itoa theLimit
      /\ url.Get (url.Query (http.URL req)) "_offset" = strconv.Itoa theOffset
      /\ List NewRequest Do s ctx opts w = Do (GetConfig (imageService_client s)) ctx req w
      /\ option_map Z.of_int (NilZero.int_of_string (strconv.Itoa theLimit)) = Some theLimit
      /\ option_map Z.of_int (NilZero.int_of_string (strconv.Itoa theOffset)) = Some theOffset.
Proof.
  intros S context Config NewRequest Do s ctx theLimit theOffset sort zone req0 w
    Hreq Hraw opts.
  assert (Hbuilt : List_request NewRequest s ctx opts
                   = Ok (http.set_RawQuery req0 (url.Encode (List_query [] opts)))).
  { unfold List_request. rewrite Hreq. unfold url.Query. rewrite Hraw. reflexivity. }
  assert (Hquery : url.Encode (List_query [] opts)
                   = ("_limit=" ++ strconv.Itoa theLimit
                      ++ "&_offset=" ++ strconv.Itoa theOffset
                      ++ match sort with
                         | Some v => "&_sort=" ++ url.QueryEscape v
                         | None => ""
                         end
                      ++ match zone with
                         | Some v => "&availability-zone=" ++ url.QueryEscape v
                         | None => ""
                         end)%string)
    by exact (Encode_List_query _ _ sort zone
                (QueryEscape_Itoa theLimit) (QueryEscape_Itoa theOffset)).
  assert (Hread : url.Get (url.ParseQuery (url.Encode (List_query [] opts))) "_limit"
                  = strconv.Itoa theLimit
                  /\ url.Get (url.ParseQuery (url.Encode (List_query [] opts))) "_offset"
                     = strconv.Itoa theOffset).
  { rewrite Hquery. apply Query_limit_offset; try apply unreserved_Itoa.
    destruct sort, zone; cbn; eauto. }
  eexists. split; [exact Hbuilt|]. split; [|split; [|split; [|split; [|split]]]].
  - exact Hquery.
  - exact (proj1 Hread).
  - exact (proj2 Hread).
  - now apply List_runs_request.
  - apply Itoa_reads_back.
  - apply Itoa_reads_back.
Qed.

Lemma List_emits_limit_and_offset_witness :
  let s := VirtualMachineClient_Images (doubles.testClient "127.0.0.1:8080") in
  let opts := {| Limit := Some (-1); Offset := Some (-1);
                 Sort := None; AvailabilityZone := None |} in
  exists req,
    List_request doubles.testNewRequest s tt opts = Ok req
    /\ url.RawQuery (http.URL req) = "_limit=-1&_offset=-1"
    /\ url.Get (url.Query (http.URL req)) "_limit" = "-1"
    /\ url.Get (url.Query (http.URL req)) "_offset" = "-1".
Proof.
  intros s opts.
  destruct (List_emits_limit_and_offset doubles.testNewRequest doubles.failingDo
              s tt (-1) (-1) None None
              {| http.Method := "GET";
                 http.URL := {| url.Scheme := "http"; url.Host := "127.0.0.1:8080";
                                url.Path := "/compute/v1/images";
                                url.RawQuery := EmptyString |};
                 http.Header := [("Content-Type", "application/json")];
                 http.Body := None |} tt)
    as [req [Hbuilt [Hraw _]]]; try reflexivity.
  exists req. split; [exact Hbuilt|]. split; [exact Hraw|].
  unfold url.Query. rewrite Hraw. split; reflexivity.
Defined.

(** The scenario of the test "with pagination": limit 1 and offset 1. *)
Example List_with_pagination :
  let s := VirtualMachineClient_Images (doubles.testClient "127.0.0.1:8080") in
  let opts := {| Limit := Some 1; Offset := Some 1; Sort := None; AvailabilityZone := None |} in
  option_map (fun req => (url.RawQuery (http.URL req),
                          url.Get (url.Query (http.URL req)) "_limit",
                          url.Get (url.Query (http.URL req)) "_offset"))
    match List_request doubles.testNewRequest s tt opts with
    | Ok req => Some req
    | Err _ => None
    end
  = Some ("_limit=1&_offset=1", "1", "1").
Proof. reflexivity. Qed.

(** ** Responses without a body *)

(** C4. When the round trip of the request of [List] yields a response
    with a success status code (200, or any code of the 2xx class) whose
    body is absent or empty, [List] returns a [DecodingError] and no
    response value. *)
Theorem List_empty_body_is_decoding_error :
  forall {S context Config : Type} {decoder : mgc_http.Decodable ImageList}
    (NewRequest : Config -> context -> string -> string -> body -> Result (http.Request body))
    (roundTrip : Config -> context -> http.Request body -> S -> (string + http.Response) * S)
    (s : imageService) (ctx : context) (opts : ImageListOptions) (w w' : S)
    (req : http.Request body) (resp : http.Response),
    List_request NewRequest s ctx opts = Ok req ->
    roundTrip (GetConfig (imageService_client s)) ctx req w = (inr resp, w') ->
    200 <= http.StatusCode resp < 300 ->
    http.ResponseBody resp = None \/ http.ResponseBody resp = Some EmptyString ->
    List NewRequest (mgc_http.Do roundTrip) s ctx opts w = (Err DecodingError, w').
Proof.
  intros S context Config decoder NewRequest roundTrip s ctx opts w w' req resp
    Hreq Htrip _ Hbody.
  rewrite (List_runs_request _ _ _ _ _ _ _ Hreq).
  unfold mgc_http.Do. rewrite Htrip. unfold mgc_http.decodeResponse.
  destruct Hbody as [-> | ->]; reflexivity.
Qed.

Lemma List_empty_body_is_decoding_error_witness :
  let s := VirtualMachineClient_Images (doubles.testClient "127.0.0.1:8080") in
  let opts := {| Limit := None; Offset := None; Sort := None; AvailabilityZone := None |} in
  List doubles.testNewRequest
    (mgc_http.Do (decoder := compute_json.Decodable_ImageList)
       (doubles.fixedServer http.StatusOK (Some EmptyString)))
    s tt opts tt
  = (Err DecodingError, tt).
Proof.
  intros s opts.
  eapply (List_empty_body_is_decoding_error (decoder := compute_json.Decodable_ImageList)).
  - reflexivity.
  - reflexivity.
  - unfold http.StatusOK. cbn. lia.
  - right. reflexivity.
Defined.

(** The scenario of the test "response is nil": no body at all. *)
Example List_response_is_nil :
  let s := VirtualMachineClient_Images (doubles.testClient "127.0.0.1:8080") in
  let opts := {| Limit := None; Offset := None; Sort := None; AvailabilityZone := None |} in
  List doubles.testNewRequest
    (mgc_http.Do (decoder := compute_json.Decodable_ImageList)
       (doubles.fixedServer http.StatusOK None))
    s tt opts tt
  = (Err DecodingError, tt).
Proof. reflexivity. Qed.

(** ** Create *)

(** C8. When the round trip of the request of [Create] yields a response of
    the 2xx class whose body decodes to a value with an id, [Create]
    returns this id and the nil error. *)
Theorem Create_returns_decoded_id :
  forall {S context Config : Type} {decoder : mgc_http.Decodable CreateResponse}
    (NewRequest : Config -> context -> string -> string -> body -> Result (http.Request body))
    (roundTrip : Config -> context -> http.Request body -> S -> (string + http.Response) * S)
    (s : customImageService) (ctx : context) (createReq : CreateCustomImageRequest)
    (w w' : S) (req : http.Request body) (resp : http.Response)
    (text : string) (res : CreateResponse),
    newRequest NewRequest (customImageService_client s) ctx http.MethodPost
      "/v1/images/custom" (create_body createReq) = Ok req ->
    roundTrip (GetConfig (customImageService_client s)) ctx req w = (inr resp, w') ->
    200 <= http.StatusCode resp < 300 ->
    http.ResponseBody resp = Some text ->
    text <> EmptyString ->
    mgc_http.decode text = Some res ->
    Create NewRequest (mgc_http.ExecuteSimpleRequestWithRespBody roundTrip)
      s ctx createReq w
    = ((ResponseID res, None), w').
Proof.
  intros S context Config decoder NewRequest roundTrip s ctx createReq w w' req resp
    text res Hreq Htrip Hstatus Hbody Htext Hdecode.
  unfold Create, mgc_http.ExecuteSimpleRequestWithRespBody. rewrite Hreq.
  unfold mgc_http.Do. rewrite Htrip.
  unfold mgc_http.decodeResponse. rewrite Hbody.
  destruct (String.eqb_spec text EmptyString) as [Hempty|_]; [contradiction|].
  replace ((200 <=? http.StatusCode resp) && (http.StatusCode resp <? 300)) with true
    by (symmetry; apply andb_true_iff; split; [apply Z.leb_le|apply Z.ltb_lt]; lia).
  rewrite Hdecode. reflexivity.
Qed.

(** The scenario of the test "successful creation". *)
Lemma Create_returns_decoded_id_witness :
  let s := VirtualMachineClient_CustomImages (doubles.testClient "127.0.0.1:8080") in
  let createReq :=
    {| ReqName := "test-image";
       ReqPlatform := PlatformLinux;
       ReqArchitecture := ArchitectureX86_64;
       ReqLicense := LicenseUnlicensed;
       ReqURL := "https://br-se1.magaluobjects.com/bucket/image.qcow2";
       ReqRequirements := None; ReqVersion := None;
       ReqDescription := None; ReqUEFI := None |} in
  let response := doubles.quoted "{'id': '8cf5c6d9-d5c5-4af9-bd1b-c17d032dc761'}" in
  Create doubles.testNewRequest
    (mgc_http.ExecuteSimpleRequestWithRespBody
       (decoder := compute_json.Decodable_CreateResponse)
       (doubles.fixedServer http.StatusOK (Some response)))
    s tt createReq tt
  = (("8cf5c6d9-d5c5-4af9-bd1b-c17d032dc761", None), tt).
Proof.
  intros s createReq response.
  eapply (Create_returns_decoded_id (decoder := compute_json.Decodable_CreateResponse)
            _ _ _ _ _ _ _ _ _ response
            {| ResponseID := "8cf5c6d9-d5c5-4af9-bd1b-c17d032dc761" |}).
  - reflexivity.
  - reflexivity.
  - unfold http.StatusOK. cbn. lia.
  - reflexivity.
  - discriminate.
  - reflexivity.
Defined.

(** C10. Whatever the request executor returns, a result of [Create] with a
    non-nil error has the empty string as its id. *)
Theorem Create_error_has_empty_id :
  forall {S context Config : Type}
    (NewRequest : Config -> context -> string -> string -> body -> Result (http.Request body))
    (ExecuteSimpleRequestWithRespBody :
       context -> (context -> string -> string -> body -> Result (http.Request body)) ->
       Config -> string -> string -> body -> S -> Result CreateResponse * S)
    (s : customImageService) (ctx : context) (createReq : CreateCustomImageRequest)
    (w w' : S) (id : string) (err : Error),
    Create NewRequest ExecuteSimpleRequestWithRespBody s ctx createReq w
      = ((id, Some err), w') ->
    id = EmptyString.
Proof.
  intros S context Config NewRequest Execute s ctx createReq w w' id err.
  unfold Create.
  destruct (Execute ctx (newRequest NewRequest (customImageService_client s))
              (GetConfig (customImageService_client s)) http.MethodPost
              "/v1/images/custom" (create_body createReq) w) as [[res|failure] w1].
  - discriminate.
  - intros [= <- _ _]. reflexivity.
Qed.

(** The scenario of the test "empty name": status 400. *)
Lemma Create_error_has_empty_id_witness :
  let s := VirtualMachineClient_CustomImages (doubles.testClient "127.0.0.1:8080") in
  let createReq :=
    {| ReqName := EmptyString;
       ReqPlatform := PlatformLinux;
       ReqArchitecture := ArchitectureX86_64;
       ReqLicense := LicenseUnlicensed;
       ReqURL := "https://br-se1.magaluobjects.com/bucket/image.qcow2";
       ReqRequirements := None; ReqVersion := None;
       ReqDescription := None; ReqUEFI := None |} in
  let response := doubles.quoted "{'error': 'name is required'}" in
  let result :=
    Create doubles.testNewRequest
      (mgc_http.ExecuteSimpleRequestWithRespBody
         (decoder := compute_json.Decodable_CreateResponse)
         (doubles.fixedServer 400 (Some response)))
      s tt createReq tt in
  snd (fst result) = Some (HTTPError 400 response) /\ fst (fst result) = EmptyString.
Proof.
  intros s createReq response result. split; [reflexivity|].
  apply (Create_error_has_empty_id doubles.testNewRequest
           (mgc_http.ExecuteSimpleRequestWithRespBody
              (decoder := compute_json.Decodable_CreateResponse)
              (doubles.fixedServer 400 (Some response)))
           s tt createReq tt tt (fst (fst result)) (HTTPError 400 response)).
  reflexivity.
Defined.

(** ** The presigner *)

Import objectstorage.

(** C5. For a method other than GET, HEAD and PUT, [GeneratePresignedURL]
    returns the nil URL and an [InvalidHTTPMethodError] that carries the
    method, and leaves the storage client as it was: no operation of the
    client is called.  For GET, HEAD and PUT it returns what the presign
    operation of the method returns, called once with the arguments of the
    caller. *)
Theorem GeneratePresignedURL_dispatch :
  forall {M context : Type} {minio : minioClientInterface M context}
    (p : presignedService) (ctx : context) (method bucketName objectKey : string)
    (expiry : Duration) (reqParams : url.Values),
    (method <> "GET" -> method <> "HEAD" -> method <> "PUT" ->
     GeneratePresignedURL p ctx method bucketName objectKey expiry reqParams
     = ((None, Some (InvalidHTTPMethodError method)), p))
    /\ (method = "GET" ->
        GeneratePresignedURL p ctx method bucketName objectKey expiry reqParams
        = let '(r, m) := PresignedGetObject ctx bucketName objectKey expiry reqParams
                           (minioClient (presignedService_client p)) in
          (r, with_minioClient p m))
    /\ (method = "HEAD" ->
        GeneratePresignedURL p ctx method bucketName objectKey expiry reqParams
        = let '(r, m) := PresignedHeadObject ctx bucketName objectKey expiry reqParams
                           (minioClient (presignedService_client p)) in
          (r, with_minioClient p m))
    /\ (method = "PUT" ->
        GeneratePresignedURL p ctx method bucketName objectKey expiry reqParams
        = let '(r, m) := PresignedPutObject ctx bucketName objectKey expiry
                           (minioClient (presignedService_client p)) in
          (r, with_minioClient p m)).
Proof.
  intros M context client p ctx method bucketName objectKey expiry reqParams.
  unfold GeneratePresignedURL, http.MethodGet, http.MethodHead, http.MethodPut.
  repeat split.
  - intros Hget Hhead Hput.
    destruct (String.eqb_spec method "GET"); [contradiction|].
    destruct (String.eqb_spec method "HEAD"); [contradiction|].
    destruct (String.eqb_spec method "PUT"); [contradiction|].
    reflexivity.
  - intros ->. reflexivity.
  - intros ->. reflexivity.
  - intros ->. reflexivity.
Qed.

(** The scenario of the test with DELETE, and the three methods that the
    presigner serves, against a client that records its calls. *)
Lemma GeneratePresignedURL_dispatch_witness :
  let call method :=
    GeneratePresignedURL (minio := doubles.recordingClient)
      doubles.testPresigner tt method "test-bucket" "test-key"
      doubles.Minute [("versionId", ["3"])] in
  call "DELETE" = ((None, Some (InvalidHTTPMethodError "DELETE")), doubles.testPresigner)
  /\ minioClient (presignedService_client (snd (call "DELETE"))) = []
  /\ minioClient (presignedService_client (snd (call "GET")))
     = [doubles.GetCall "test-bucket" "test-key" doubles.Minute [("versionId", ["3"])]]
  /\ minioClient (presignedService_client (snd (call "HEAD")))
     = [doubles.HeadCall "test-bucket" "test-key" doubles.Minute [("versionId", ["3"])]]
  /\ minioClient (presignedService_client (snd (call "PUT")))
     = [doubles.PutCall "test-bucket" "test-key" doubles.Minute].
Proof.
  intros call.
  destruct (GeneratePresignedURL_dispatch (minio := doubles.recordingClient)
              doubles.testPresigner tt "DELETE"
              "test-bucket" "test-key" doubles.Minute [("versionId", ["3"])])
    as [Hinvalid _].
  assert (Hdelete : call "DELETE"
                    = ((None, Some (InvalidHTTPMethodError "DELETE")), doubles.testPresigner))
    by (apply Hinvalid; discriminate).
  split; [exact Hdelete|]. split; [rewrite Hdelete; reflexivity|].
  repeat split; reflexivity.
Defined.

(** C9. For PUT the result of [GeneratePresignedURL], the URL, the error and
    the state in which the storage client is left, is the same for any two
    values of the request parameters: they are not handed to
    [PresignedPutObject].  For GET and HEAD they are handed to the
    operation: against the recording client both the URL and the recorded
    call depend on them. *)
Theorem GeneratePresignedURL_put_ignores_reqParams :
  (forall {M context : Type} {minio : minioClientInterface M context}
     (p : presignedService) (ctx : context) (bucketName objectKey : string)
     (expiry : Duration) (reqParams1 reqParams2 : url.Values),
     GeneratePresignedURL p ctx http.MethodPut bucketName objectKey expiry reqParams1
     = GeneratePresignedURL p ctx http.MethodPut bucketName objectKey expiry reqParams2)
  /\ (forall method, method = http.MethodGet \/ method = http.MethodHead ->
        GeneratePresignedURL (minio := doubles.recordingClient)
          doubles.testPresigner tt method "test-bucket" "test-key"
          doubles.Minute [("versionId", ["3"])]
        <> GeneratePresignedURL (minio := doubles.recordingClient)
             doubles.testPresigner tt method "test-bucket" "test-key"
             doubles.Minute []).
Proof.
  split.
  - intros M context client p ctx bucketName objectKey expiry reqParams1 reqParams2.
    reflexivity.
  - intros method [-> | ->]; discriminate.
Qed.

(* ===================================================================== *)
(** * Further properties of the query of List *)
(* ===================================================================== *)

Import images_query.

Lemma upperhex_unreserved (n : nat) : url.shouldEscape (url.upperhex n) = false.
Proof. do 17 (destruct n as [|n]; [reflexivity|]). reflexivity. Qed.

(** The two hexadecimal digits of an escaped byte give the byte back. *)
Lemma escaped_byte (c : ascii) :
  url.ishex (url.upperhex (nat_of_ascii c / 16))
  && url.ishex (url.upperhex (nat_of_ascii c mod 16)) = true
  /\ ascii_of_nat (url.unhex (url.upperhex (nat_of_ascii c / 16)) * 16
                   + url.unhex (url.upperhex (nat_of_ascii c mod 16))) = c.
Proof.
  destruct c as [[] [] [] [] [] [] [] []]; vm_compute; split; reflexivity.
Qed.

(** Unescaping an escaped text gives the text back, whatever its bytes. *)
Lemma QueryUnescape_QueryEscape (s : string) :
  url.QueryUnescape (url.QueryEscape s) = Some s.
Proof.
  induction s as [|c s IH]; [reflexivity|].
  cbn [url.QueryEscape]. destruct (url.shouldEscape c) eqn:Hc.
  - destruct (Ascii.eqb_spec c " ") as [->|_].
    + cbn [url.QueryUnescape]. rewrite IH. reflexivity.
    + cbn [url.QueryUnescape]. rewrite Ascii.eqb_refl.
      destruct (escaped_byte c) as [-> ->]. rewrite IH. reflexivity.
  - cbn [url.QueryUnescape].
    destruct (Ascii.eqb_spec c "%") as [->|_]; [discriminate|].
    destruct (Ascii.eqb_spec c "+") as [->|_]; [discriminate|].
    rewrite IH. reflexivity.
Qed.

(** An escaped text holds unreserved bytes, ['%'] and ['+'] only. *)
Lemma escaped_without (s : string) (c : ascii) :
  url.shouldEscape c = true -> c <> "%"%char -> c <> "+"%char ->
  strings.ContainsByte (url.QueryEscape s) c = false.
Proof.
  intros Hc Hpercent Hplus.
  assert (Hdigit : forall n, Ascii.eqb (url.upperhex n) c = false).
  { intros n. destruct (Ascii.eqb_spec (url.upperhex n) c) as [Heq|]; [|reflexivity].
    rewrite <- Heq, upperhex_unreserved in Hc. discriminate. }
  induction s as [|d s IH]; [reflexivity|].
  cbn [url.QueryEscape]. destruct (url.shouldEscape d) eqn:Hd.
  - destruct (Ascii.eqb d " "); cbn [strings.ContainsByte]; rewrite ?Hdigit, IH.
    + destruct (Ascii.eqb_spec "+" c); [congruence|reflexivity].
    + destruct (Ascii.eqb_spec "%" c); [congruence|reflexivity].
  - cbn [strings.ContainsByte]. rewrite IH.
    destruct (Ascii.eqb_spec d c) as [->|]; [congruence|reflexivity].
Qed.

(** A piece [key=value] with an unreserved key and an escaped value adds
    the value itself to the key. *)
Lemma parse_piece_escaped (m : url.Values) (pair : string * string) :
  url.unreserved (fst pair) = true ->
  url.parse_piece m (pair_text pair) = url.Add m (fst pair) (snd pair).
Proof.
  destruct pair as [key value]. unfold pair_text. cbn [fst snd]. intros Hkey.
  unfold url.parse_piece.
  assert (Hsemi : strings.ContainsByte (key ++ String "=" (url.QueryEscape value)) ";" = false).
  { rewrite ContainsByte_app. cbn [strings.ContainsByte].
    rewrite unreserved_without, escaped_without by (reflexivity || assumption || discriminate).
    reflexivity. }
  rewrite Hsemi.
  replace (String.eqb (key ++ String "=" (url.QueryEscape value)) EmptyString) with false
    by (destruct key; reflexivity).
  rewrite Cut_app by now apply unreserved_without.
  now rewrite QueryUnescape_unreserved, QueryUnescape_QueryEscape.
Qed.

Lemma pair_text_without_amp (pair : string * string) :
  url.unreserved (fst pair) = true ->
  strings.ContainsByte (pair_text pair) "&" = false.
Proof.
  intros Hkey. unfold pair_text. rewrite ContainsByte_app. cbn [strings.ContainsByte].
  rewrite unreserved_without, escaped_without by (reflexivity || assumption || discriminate).
  reflexivity.
Qed.

(** Parsing the joined texts of pairs with unreserved keys adds the pairs
    one after the other. *)
Lemma parse_joined (pairs : list (string * string)) (m : url.Values) :
  Forall (fun pair => url.unreserved (fst pair) = true) pairs ->
  pairs <> [] ->
  fold_left url.parse_piece (strings.Split (join (map pair_text pairs)) "&") m
  = add_all m pairs.
Proof.
  intros Hkeys. revert m. induction Hkeys as [|pair pairs Hkey Hrest IH]; intros m Hne.
  - contradiction.
  - destruct pairs as [|pair' pairs].
    + cbn [map join]. rewrite Split_whole by now apply pair_text_without_amp.
      cbn [fold_left add_all]. now apply parse_piece_escaped.
    + change (join (map pair_text (pair :: pair' :: pairs)))
        with (pair_text pair ++ String "&" (join (map pair_text (pair' :: pairs))))%string.
      rewrite Split_app by now apply pair_text_without_amp.
      cbn [fold_left]. rewrite parse_piece_escaped by exact Hkey.
      rewrite IH by discriminate. reflexivity.
Qed.

Lemma ParseQuery_joined (pairs : list (string * string)) :
  Forall (fun pair => url.unreserved (fst pair) = true) pairs ->
  url.ParseQuery (join (map pair_text pairs)) = add_all [] pairs.
Proof.
  intros Hkeys. destruct pairs as [|pair pairs]; [reflexivity|].
  unfold url.ParseQuery. apply parse_joined; [exact Hkeys|discriminate].
Qed.

(** [List] adds its parameters one after the other. *)
Lemma List_query_add_all (q : url.Values) (opts : ImageListOptions) :
  List_query q opts = add_all q (parameters opts).
Proof.
  unfold List_query, parameters, add_all.
  destruct (Limit opts), (Offset opts), (Sort opts), (AvailabilityZone opts); reflexivity.
Qed.

Lemma parameters_keys (opts : ImageListOptions) :
  Forall (fun pair => url.unreserved (fst pair) = true) (parameters opts).
Proof.
  unfold parameters.
  destruct (Limit opts), (Offset opts), (Sort opts), (AvailabilityZone opts);
    repeat constructor.
Qed.

(** The query string that [List] encodes for its parameters alone: the
    texts of the parameters, joined by ['&']. *)
Lemma Encode_parameters (opts : ImageListOptions) :
  url.Encode (List_query [] opts) = join (map pair_text (parameters opts)).
Proof.
  unfold List_query, parameters.
  destruct (Limit opts) as [theLimit|], (Offset opts) as [theOffset|],
           (Sort opts) as [sort|], (AvailabilityZone opts) as [zone|];
    try generalize (strconv.Itoa theLimit) as limitText;
    try generalize (strconv.Itoa theOffset) as offsetText; intros;
    cbn [url.Add String.eqb Ascii.eqb Bool.eqb app map join]; unfold pair_text, url.Encode;
    cbn [map fst snd];
    try eval_sort_keys; cbn [fold_left url.lookup String.eqb Ascii.eqb Bool.eqb];
    eval_escaped_keys;
    cbn [url.encode_key String.length Nat.ltb Nat.leb String.append];
    repeat (rewrite !string_app_assoc; cbn [String.append]);
    reflexivity.
Qed.

(** X1. For all options, present or absent, and a request builder whose URL
    has no query, a server that parses the query string of the request of
    [List] reads exactly the parameters that [List] added: every option
    that is present with the value of the caller (the decimal digits of an
    integer, the bytes of a string whatever they are), and nothing for an
    option that is absent. *)
Theorem List_query_read_back :
  forall {context Config : Type}
    (NewRequest : Config -> context -> string -> string -> body -> Result (http.Request body))
    (s : imageService) (ctx : context) (opts : ImageListOptions)
    (req0 : http.Request body),
    newRequest NewRequest (imageService_client s) ctx http.MethodGet "/v1/images" nil_body
      = Ok req0 ->
    url.RawQuery (http.URL req0) = EmptyString ->
    exists req,
      List_request NewRequest s ctx opts = Ok req
      /\ url.Query (http.URL req) = List_query [] opts
      /\ url.lookup (url.Query (http.URL req)) "_limit"
         = match Limit opts with Some v => [strconv.Itoa v] | None => [] end
      /\ url.lookup (url.Query (http.URL req)) "_offset"
         = match Offset opts with Some v => [strconv.Itoa v] | None => [] end
      /\ url.lookup (url.Query (http.URL req)) "_sort"
         = match Sort opts with Some v => [v] | None => [] end
      /\ url.lookup (url.Query (http.URL req)) "availability-zone"
         = match AvailabilityZone opts with Some v => [v] | None => [] end.
Proof.
  intros context Config NewRequest s ctx opts req0 Hreq Hraw.
  assert (Hbuilt : List_request NewRequest s ctx opts
                   = Ok (http.set_RawQuery req0 (url.Encode (List_query [] opts)))).
  { unfold List_request. rewrite Hreq. unfold url.Query. rewrite Hraw. reflexivity. }
  assert (Hread : url.ParseQuery (url.Encode (List_query [] opts)) = List_query [] opts).
  { rewrite Encode_parameters, ParseQuery_joined by apply parameters_keys.
    symmetry. apply List_query_add_all. }
  assert (Hquery : url.Query (http.URL (http.set_RawQuery req0
                                          (url.Encode (List_query [] opts))))
                   = List_query [] opts) by exact Hread.
  eexists. split; [exact Hbuilt|]. rewrite !Hquery. split; [reflexivity|].
  unfold List_query.
  destruct (Limit opts), (Offset opts), (Sort opts), (AvailabilityZone opts);
    repeat split; reflexivity.
Qed.

Lemma List_query_read_back_witness :
  let s := VirtualMachineClient_Images (doubles.testClient "127.0.0.1:8080") in
  let opts := {| Limit := Some 10; Offset := None;
                 Sort := Some "name:asc&x=1 +%"; AvailabilityZone := None |} in
  exists req,
    List_request doubles.testNewRequest s tt opts = Ok req
    /\ url.RawQuery (http.URL req) = "_limit=10&_sort=name%3Aasc%26x%3D1+%2B%25"
    /\ url.Query (http.URL req) = [("_limit", ["10"]); ("_sort", ["name:asc&x=1 +%"])].
Proof.
  intros s opts.
  destruct (List_query_read_back doubles.testNewRequest s tt opts
              {| http.Method := "GET";
                 http.URL := {| url.Scheme := "http"; url.Host := "127.0.0.1:8080";
                                url.Path := "/compute/v1/images";
                                url.RawQuery := EmptyString |};
                 http.Header := [("Content-Type", "application/json")];
                 http.Body := None |})
    as [req [Hbuilt [Hquery _]]]; try reflexivity.
  exists req. split; [exact Hbuilt|]. split; [|exact Hquery].
  injection Hbuilt as <-. reflexivity.
Defined.

(** The values of a key after a sequence of [Add]. *)
Lemma lookup_add_all (pairs : list (string * string)) (q : url.Values) (key : string) :
  url.lookup (add_all q pairs) key
  = url.lookup q key
    ++ map snd (filter (fun pair => String.eqb (fst pair) key) pairs).
Proof.
  revert q. induction pairs as [|[k v] pairs IH]; intros q.
  - cbn. now rewrite app_nil_r.
  - change (add_all q ((k, v) :: pairs)) with (add_all (url.Add q k v) pairs).
    rewrite IH, lookup_Add. cbn [filter fst snd].
    destruct (String.eqb k key); cbn [map snd]; [now rewrite <- app_assoc|reflexivity].
Qed.

(** X2. [List] adds to the query values that the URL of the request
    already holds and replaces none of them: for each of its four keys the
    values that were there stay, in their order, and the value of the
    option, when present, comes after them; the values of every other key
    are left as they were. *)
Theorem List_query_appends :
  forall (q : url.Values) (opts : ImageListOptions),
    url.lookup (List_query q opts) "_limit"
      = url.lookup q "_limit"
        ++ match Limit opts with Some v => [strconv.Itoa v] | None => [] end
    /\ url.lookup (List_query q opts) "_offset"
       = url.lookup q "_offset"
         ++ match Offset opts with Some v => [strconv.Itoa v] | None => [] end
    /\ url.lookup (List_query q opts) "_sort"
       = url.lookup q "_sort" ++ match Sort opts with Some v => [v] | None => [] end
    /\ url.lookup (List_query q opts) "availability-zone"
       = url.lookup q "availability-zone"
         ++ match AvailabilityZone opts with Some v => [v] | None => [] end
    /\ (forall key, key <> "_limit" -> key <> "_offset" -> key <> "_sort" ->
                    key <> "availability-zone" ->
                    url.lookup (List_query q opts) key = url.lookup q key).
Proof.
  intros q opts. rewrite List_query_add_all.
  repeat split; try intros key H1 H2 H3 H4; rewrite lookup_add_all; unfold parameters.
  1-4: destruct (Limit opts), (Offset opts), (Sort opts), (AvailabilityZone opts);
    reflexivity.
  assert (Hne : forall k, key <> k -> String.eqb k key = false)
    by (intros k Hk; destruct (String.eqb_spec k key); congruence).
  destruct (Limit opts), (Offset opts), (Sort opts), (AvailabilityZone opts);
    cbn [app filter fst]; rewrite ?Hne by assumption; cbn [map]; now rewrite app_nil_r.
Qed.

(** A URL that already holds a limit: the server reads the limit of the URL
    first, the limit of the caller after it. *)
Example List_query_appends_example :
  let opts := {| Limit := Some 10; Offset := None; Sort := None; AvailabilityZone := None |} in
  let q := List_query (url.ParseQuery "_limit=5&page=2") opts in
  url.Encode q = "_limit=5&_limit=10&page=2" /\ url.Get q "_limit" = "5".
Proof. split; reflexivity. Qed.

(* ===================================================================== *)
(** * Further properties of ListAll *)
(* ===================================================================== *)

Lemma firstn_succ_nth_error {A : Type} (l : list A) (n : nat) (x : A) :
  nth_error l n = Some x -> firstn (Datatypes.S n) l = firstn n l ++ [x].
Proof.
  revert n. induction l as [|y l IH]; intros [|n] Hn; try discriminate.
  - injection Hn as ->. reflexivity.
  - cbn [firstn app]. now rewrite <- (IH n Hn).
Qed.

(** The records of the pages before page [n], when these pages are the
    elements of a list. *)
Lemma records_before_served {S context Config : Type}
  (NewRequest : Config -> context -> string -> string -> body -> Result (http.Request body))
  (Do : Config -> context -> http.Request body -> S -> Result ImageList * S)
  (s : imageService) (ctx : context) (opts : ImageFilterOptions) (w : S)
  (served : list ImageList) (n : nat) :
  (forall i response, nth_error served i = Some response ->
                      page NewRequest Do s ctx opts i w = Ok response) ->
  (n <= List.length served)%nat ->
  records_before NewRequest Do s ctx opts n w
  = List.concat (map Images (firstn n served)).
Proof.
  intros Hserved. induction n as [|n IH]; intros Hn; [reflexivity|].
  cbn [pagination.records_before]. rewrite IH by lia.
  destruct (nth_error served n) as [response|] eqn:Hnth.
  - rewrite (Hserved n response Hnth), (firstn_succ_nth_error _ _ _ Hnth).
    rewrite map_app, concat_app. cbn [records map List.concat]. now rewrite app_nil_r.
  - apply nth_error_None in Hnth. lia.
Qed.

(** X3. Against any service, when the first pages of the listing each hold
    50 records or more (a service may return more records than the limit)
    and the page after them holds fewer than 50, [ListAll] returns, for any
    fuel that reaches this page, all the records of these pages in page
    order, the pages of more than 50 records whole, with no error, and
    leaves the service in the state after exactly one call a page. *)
Theorem ListAll_returns_all_records :
  forall {S context Config : Type}
    (NewRequest : Config -> context -> string -> string -> body -> Result (http.Request body))
    (Do : Config -> context -> http.Request body -> S -> Result ImageList * S)
    (s : imageService) (ctx : context) (opts : ImageFilterOptions) (w : S)
    (served : list ImageList) (last : ImageList) (fuel : nat),
    (forall i response, nth_error served i = Some response ->
       page NewRequest Do s ctx opts i w = Ok response
       /\ 50 <= GoInt.len (Images response)) ->
    page NewRequest Do s ctx opts (List.length served) w = Ok last ->
    GoInt.len (Images last) < 50 ->
    (List.length served < fuel)%nat ->
    ListAll NewRequest Do fuel s ctx opts w
    = Some ((List.concat (map Images served) ++ Images last, None),
            world_before NewRequest Do s ctx opts (Datatypes.S (List.length served)) w).
Proof.
  intros S context Config NewRequest Do s ctx opts w served last fuel
    Hserved Hlast Hshort Hfuel.
  rewrite (ListAll_returns_at_short_page NewRequest Do s ctx opts
             (List.length served) fuel w last); try assumption.
  - cbn [pagination.records_before]. rewrite Hlast. cbn [records].
    rewrite (records_before_served NewRequest Do s ctx opts w served (List.length served))
      by (lia || (intros i response Hi; apply (Hserved i response Hi))).
    now rewrite firstn_all.
  - intros i Hi. destruct (nth_error served i) as [response|] eqn:Hnth.
    + destruct (Hserved i response Hnth) as [-> Hlen].
      cbn [stops]. unfold short, limit. now apply Z.ltb_ge.
    + apply nth_error_None in Hnth. lia.
  - unfold short, limit. now apply Z.ltb_lt.
Qed.

(** A service that returns 70 records on its first page and 3 on the second. *)
Lemma ListAll_returns_all_records_witness :
  let s := VirtualMachineClient_Images (doubles.testClient "127.0.0.1:8080") in
  let opts := {| FilterSort := None; FilterAvailabilityZone := None |} in
  let big := doubles.testPage 0 70 73 in
  let small := doubles.testPage 50 3 73 in
  exists w',
    ListAll doubles.testNewRequest doubles.scriptedDo 2 s tt opts
      {| doubles.pending := [Ok big; Ok small]; doubles.received := [] |}
    = Some ((Images big ++ Images small, None), w')
    /\ List.length (Images big ++ Images small) = 73%nat
    /\ map (fun req => url.RawQuery (http.URL req)) (doubles.received w')
       = ["_limit=50&_offset=0"; "_limit=50&_offset=50"].
Proof.
  intros s opts big small.
  eexists. split; [|split].
  - rewrite (ListAll_returns_all_records doubles.testNewRequest doubles.scriptedDo s tt opts
               {| doubles.pending := [Ok big; Ok small]; doubles.received := [] |}
               [big] small 2).
    + cbn [map List.concat]. rewrite app_nil_r. reflexivity.
    + intros [|[|i]] response Hi; try discriminate.
      injection Hi as <-. split; [reflexivity|]. vm_compute. discriminate.
    + reflexivity.
    + vm_compute. reflexivity.
    + cbn. lia.
  - reflexivity.
  - reflexivity.
Defined.

(** X4. The loop of [ListAll] has no bound of its own: against a service
    whose every page holds 50 records or more, [ListAll] does not return,
    whatever the fuel. *)
Theorem ListAll_runs_forever_on_full_pages :
  forall {S context Config : Type}
    (NewRequest : Config -> context -> string -> string -> body -> Result (http.Request body))
    (Do : Config -> context -> http.Request body -> S -> Result ImageList * S)
    (s : imageService) (ctx : context) (opts : ImageFilterOptions) (w : S),
    (forall n, exists response,
        page NewRequest Do s ctx opts n w = Ok response
        /\ 50 <= GoInt.len (Images response)) ->
    forall fuel, ListAll NewRequest Do fuel s ctx opts w = None.
Proof.
  intros S context Config NewRequest Do s ctx opts w Hfull fuel.
  replace fuel with (fuel + 0)%nat by lia.
  rewrite ListAll_advance; [reflexivity|].
  intros i _. destruct (Hfull i) as [response [-> Hlen]].
  cbn [stops]. unfold short, limit. now apply Z.ltb_ge.
Qed.

Lemma constant_server_pages {context Config : Type}
  (NewRequest : Config -> context -> string -> string -> body -> Result (http.Request body))
  (s : imageService) (ctx : context) (opts : ImageFilterOptions) (req0 : http.Request body)
  (response : ImageList) (calls n : nat) :
  newRequest NewRequest (imageService_client s) ctx http.MethodGet "/v1/images" nil_body
    = Ok req0 ->
  page NewRequest (servers.constantDo response) s ctx opts n calls = Ok response.
Proof.
  intros Hreq. unfold page, call, List.
  rewrite (List_request_of_builder NewRequest s ctx req0 Hreq). reflexivity.
Qed.

(** A service that answers every call with the same 50 records. *)
Lemma ListAll_runs_forever_on_full_pages_witness :
  let s := VirtualMachineClient_Images (doubles.testClient "127.0.0.1:8080") in
  let opts := {| FilterSort := None; FilterAvailabilityZone := None |} in
  ListAll doubles.testNewRequest (servers.constantDo (doubles.testPage 0 50 50))
    1000 s tt opts 0%nat = None.
Proof.
  intros s opts.
  apply (ListAll_runs_forever_on_full_pages doubles.testNewRequest
           (servers.constantDo (doubles.testPage 0 50 50)) s tt opts 0%nat).
  intros n. exists (doubles.testPage 0 50 50). split.
  - eapply constant_server_pages. reflexivity.
  - vm_compute. discriminate.
Defined.



(* ===================================================================== *)
(** * The construction of the object storage client *)
(* ===================================================================== *)

Section ConstructionFacts.

Import objectstorage_client.

Context {M CoreClient Endpoint MinioError : Type}.
Variable UserAgent : CoreClient -> string.
Variable BrSe1 : Endpoint.
Variable Endpoint_String : Endpoint -> string.
Variable ValidateEndpoint : Endpoint -> option string.
Variable minio_New : string -> string -> string -> M + MinioError.
Variable SetAppInfo : string -> string -> M -> M.

Local Abbreviation New :=
  (New UserAgent BrSe1 Endpoint_String ValidateEndpoint minio_New SetAppInfo).
Local Abbreviation NewWithEndpoint :=
  (NewWithEndpoint UserAgent BrSe1 Endpoint_String ValidateEndpoint minio_New SetAppInfo).
Local Abbreviation initial core :=
  {| CoreClient_ := core; minioClient := @None M; endpoint := BrSe1 |}.

(** X6. [New] checks its arguments before anything else and in the order
    core, access key, secret key: a nil core, an empty access key and an
    empty secret key each give a [ValidationError] for the field, whatever
    the options and the endpoint are.  In every case [New] returns either a
    client and no error or an error and no client. *)
Theorem New_validates_arguments :
  forall (core : option CoreClient) (accessKey secretKey : string)
    (opts : list (ClientOption (M := M))),
    (core = None ->
     New core accessKey secretKey opts
     = (None, Some (ValidationError "core" "core client cannot be nil")))
    /\ (core <> None -> accessKey = EmptyString ->
        New core accessKey secretKey opts
        = (None, Some (ValidationError "accessKey" "access key cannot be empty")))
    /\ (core <> None -> accessKey <> EmptyString -> secretKey = EmptyString ->
        New core accessKey secretKey opts
        = (None, Some (ValidationError "secretKey" "secret key cannot be empty")))
    /\ (fst (New core accessKey secretKey opts) = None
        <-> snd (New core accessKey secretKey opts) <> None).
Proof.
  intros core accessKey secretKey opts. unfold objectstorage_client.New.
  repeat split.
  - intros ->. reflexivity.
  - intros Hcore ->. destruct core; [reflexivity|contradiction].
  - intros Hcore Haccess ->. destruct core; [|contradiction].
    destruct (String.eqb_spec accessKey EmptyString); [contradiction|reflexivity].
  - destruct core; [|discriminate].
    destruct (String.eqb accessKey EmptyString); [discriminate|].
    destruct (String.eqb secretKey EmptyString); [discriminate|].
    destruct (ValidateEndpoint _); [discriminate|].
    destruct (minioClient _); [discriminate|].
    destruct (minio_New _ _ _); discriminate.
  - destruct core; [|reflexivity].
    destruct (String.eqb accessKey EmptyString); [reflexivity|].
    destruct (String.eqb secretKey EmptyString); [reflexivity|].
    destruct (ValidateEndpoint _); [reflexivity|].
    destruct (minioClient _); [intros H; now contradiction H|].
    destruct (minio_New _ _ _); [intros H; now contradiction H|reflexivity].
Qed.

(** X7. When the options leave a storage client in place, [New] uses it:
    for valid arguments and a valid endpoint the client of the result is
    the given one after one [SetAppInfo] with the name [wrapper] and the
    user agent of the core client, and [minio.New] has no part in the
    result. *)
Theorem New_uses_given_client :
  forall (core : CoreClient) (accessKey secretKey : string)
    (opts : list (ClientOption (M := M))) (m : M),
    accessKey <> EmptyString -> secretKey <> EmptyString ->
    minioClient (apply_options (initial core) opts) = Some m ->
    ValidateEndpoint (endpoint (apply_options (initial core) opts)) = None ->
    New (Some core) accessKey secretKey opts
    = (Some {| CoreClient_ := CoreClient_ (apply_options (initial core) opts);
               minioClient := Some (SetAppInfo "wrapper" (UserAgent core) m);
               endpoint := endpoint (apply_options (initial core) opts) |}, None).
Proof.
  intros core accessKey secretKey opts m Haccess Hsecret Hclient Hvalid.
  unfold objectstorage_client.New.
  destruct (String.eqb_spec accessKey EmptyString); [contradiction|].
  destruct (String.eqb_spec secretKey EmptyString); [contradiction|].
  rewrite Hvalid, Hclient. reflexivity.
Qed.

(** X8. When the options leave no storage client, [New] makes one with
    [minio.New], for the host of the endpoint (its text without the scheme)
    and the two keys: the error of [minio.New] is returned as it is, with no
    client; the client that it makes is used after one [SetAppInfo]. *)
Theorem New_makes_client :
  forall (core : CoreClient) (accessKey secretKey : string)
    (opts : list (ClientOption (M := M))),
    accessKey <> EmptyString -> secretKey <> EmptyString ->
    minioClient (apply_options (initial core) opts) = None ->
    ValidateEndpoint (endpoint (apply_options (initial core) opts)) = None ->
    New (Some core) accessKey secretKey opts
    = match minio_New (parseEndpoint Endpoint_String
                         (endpoint (apply_options (initial core) opts)))
              accessKey secretKey with
      | inr err => (None, Some (FromMinio err))
      | inl m =>
          (Some {| CoreClient_ := CoreClient_ (apply_options (initial core) opts);
                   minioClient := Some (SetAppInfo "wrapper" (UserAgent core) m);
                   endpoint := endpoint (apply_options (initial core) opts) |}, None)
      end.
Proof.
  intros core accessKey secretKey opts Haccess Hsecret Hclient Hvalid.
  unfold objectstorage_client.New.
  destruct (String.eqb_spec accessKey EmptyString); [contradiction|].
  destruct (String.eqb_spec secretKey EmptyString); [contradiction|].
  rewrite Hvalid, Hclient.
  destruct (minio_New _ _ _); reflexivity.
Qed.

Lemma apply_options_snoc (c : @ObjectStorageClient M CoreClient Endpoint)
  (opts : list ClientOption)
  (opt : ClientOption) :
  apply_options c (opts ++ [opt]) = opt (apply_options c opts).
Proof. unfold apply_options. now rewrite fold_left_app. Qed.

(** X9. The endpoint of [NewWithEndpoint] wins over the options: whatever
    the options do to the endpoint, the endpoint that is validated, whose
    host is handed to [minio.New] and that the client keeps is the one
    given to [NewWithEndpoint]; when it is not valid the result is a
    [ValidationError] for the field [endpoint] with the message of the
    validation.  With no option at all [New] takes the default endpoint. *)
Theorem NewWithEndpoint_endpoint_wins :
  forall (core : CoreClient) (e : Endpoint) (accessKey secretKey : string)
    (opts : list (ClientOption (M := M))),
    accessKey <> EmptyString -> secretKey <> EmptyString ->
    (forall message, ValidateEndpoint e = Some message ->
       NewWithEndpoint (Some core) e accessKey secretKey opts
       = (None, Some (ValidationError "endpoint" message)))
    /\ (ValidateEndpoint e = None ->
        forall c, fst (NewWithEndpoint (Some core) e accessKey secretKey opts) = Some c ->
                  endpoint c = e)
    /\ (ValidateEndpoint e = None ->
        minioClient (apply_options (initial core) opts) = None ->
        forall err, minio_New (parseEndpoint Endpoint_String e) accessKey secretKey = inr err ->
          NewWithEndpoint (Some core) e accessKey secretKey opts = (None, Some (FromMinio err)))
    /\ (ValidateEndpoint BrSe1 = None ->
        forall c, fst (New (Some core) accessKey secretKey []) = Some c -> endpoint c = BrSe1).
Proof.
  intros core e accessKey secretKey opts Haccess Hsecret.
  unfold objectstorage_client.NewWithEndpoint, objectstorage_client.New.
  destruct (String.eqb_spec accessKey EmptyString); [contradiction|].
  destruct (String.eqb_spec secretKey EmptyString); [contradiction|].
  rewrite apply_options_snoc.
  cbn [WithEndpoint endpoint minioClient CoreClient_].
  repeat split.
  - intros message ->. reflexivity.
  - intros -> c.
    destruct (minioClient (apply_options (initial core) opts)).
    + intros [= <-]. reflexivity.
    + destruct (minio_New _ _ _); [|discriminate]. intros [= <-]. reflexivity.
  - intros -> -> err ->. reflexivity.
  - cbn [apply_options fold_left endpoint minioClient]. intros -> c.
    destruct (minio_New _ _ _); [|discriminate]. intros [= <-]. reflexivity.
Qed.

End ConstructionFacts.

(** ** The host of an endpoint *)

Lemma CutPrefix_app (prefix rest : string) :
  objectstorage_client.CutPrefix (prefix ++ rest) prefix = Some rest.
Proof.
  induction prefix as [|c prefix IH]; cbn; [now destruct rest|].
  now rewrite Ascii.eqb_refl.
Qed.

Lemma CutPrefix_is_prefix (s prefix rest : string) :
  objectstorage_client.CutPrefix s prefix = Some rest -> s = (prefix ++ rest)%string.
Proof.
  revert s. induction prefix as [|c prefix IH]; intros [|d s]; cbn; try discriminate.
  - intros [= <-]. reflexivity.
  - intros [= <-]. reflexivity.
  - destruct (Ascii.eqb c d) eqn:Hcd; [|discriminate].
    apply Ascii.eqb_eq in Hcd as ->.
    intros Hcut. now rewrite (IH s Hcut).
Qed.

(** X10. [parseEndpoint] takes the scheme off the text of an endpoint: the
    host of [https://h] is [h] (when [h] does not itself start with
    [http://]), the host of [http://h] is [h], and a text without scheme is
    its own host; the host is in every case the end of the text.  One
    scheme of each kind at most is taken off: the host of
    [https://https://h] still starts with [https://]. *)
Theorem parseEndpoint_strips_scheme :
  forall {Endpoint : Type} (Endpoint_String : Endpoint -> string) (e : Endpoint) (h : string),
    (Endpoint_String e = ("https://" ++ h)%string ->
     objectstorage_client.CutPrefix h "http://" = None ->
     objectstorage_client.parseEndpoint Endpoint_String e = h)
    /\ (Endpoint_String e = ("http://" ++ h)%string ->
        objectstorage_client.parseEndpoint Endpoint_String e = h)
    /\ (Endpoint_String e = h ->
        objectstorage_client.CutPrefix h "https://" = None ->
        objectstorage_client.CutPrefix h "http://" = None ->
        objectstorage_client.parseEndpoint Endpoint_String e = h)
    /\ (exists scheme,
          Endpoint_String e
          = (scheme ++ objectstorage_client.parseEndpoint Endpoint_String e)%string)
    /\ (Endpoint_String e = ("https://https://" ++ h)%string ->
        objectstorage_client.parseEndpoint Endpoint_String e = ("https://" ++ h)%string).
Proof.
  assert (Hnot : forall t, objectstorage_client.CutPrefix ("https://" ++ t) "http://" = None)
    by reflexivity.
  assert (Hnot' : forall t, objectstorage_client.CutPrefix ("http://" ++ t) "https://" = None)
    by reflexivity.
  intros Endpoint Endpoint_String e h.
  unfold objectstorage_client.parseEndpoint, objectstorage_client.TrimPrefix.
  repeat split.
  - intros -> Hh. rewrite (CutPrefix_app "https://" h), Hh. reflexivity.
  - intros ->. rewrite Hnot', (CutPrefix_app "http://" h). reflexivity.
  - intros -> Hs Hh. destruct (String.eqb_spec h EmptyString) as [->|_]; [reflexivity|].
    now rewrite Hs, Hh.
  - destruct (String.eqb_spec (Endpoint_String e) EmptyString) as [->|_].
    + exists EmptyString. reflexivity.
    + destruct (objectstorage_client.CutPrefix (Endpoint_String e) "https://")
        as [rest|] eqn:Hs.
      * apply CutPrefix_is_prefix in Hs.
        destruct (objectstorage_client.CutPrefix rest "http://") as [rest'|] eqn:Hh.
        -- apply CutPrefix_is_prefix in Hh. exists "https://http://".
           rewrite Hs, Hh. reflexivity.
        -- exists "https://". exact Hs.
      * destruct (objectstorage_client.CutPrefix (Endpoint_String e) "http://")
          as [rest|] eqn:Hh.
        -- apply CutPrefix_is_prefix in Hh. exists "http://". exact Hh.
        -- exists EmptyString. reflexivity.
  - intros ->.
    change ("https://https://" ++ h)%string with ("https://" ++ ("https://" ++ h))%string.
    rewrite (CutPrefix_app "https://" ("https://" ++ h)), Hnot. reflexivity.
Qed.

Lemma parseEndpoint_strips_scheme_witness :
  objectstorage_client.parseEndpoint (fun e : string => e) "https://br-se1.magaluobjects.com"
  = "br-se1.magaluobjects.com".
Proof.
  apply (proj1 (parseEndpoint_strips_scheme (fun e : string => e)
                  "https://br-se1.magaluobjects.com" "br-se1.magaluobjects.com"));
    reflexivity.
Defined.

(** ** Witnesses of the construction *)

Import objectstorage_client.

Lemma New_validates_arguments_witness :
  New (fun agent : string => agent) "https://br-se1.magaluobjects.com" (fun e => e)
    knownEndpoint connect recordAppInfo (Some "mgc-sdk-go") "" "" []
  = (None, Some (ValidationError "accessKey" "access key cannot be empty")).
Proof.
  apply (New_validates_arguments (fun agent : string => agent)
           "https://br-se1.magaluobjects.com" (fun e => e)
           knownEndpoint connect recordAppInfo (Some "mgc-sdk-go") "" "" []).
  - discriminate.
  - reflexivity.
Defined.

Lemma New_uses_given_client_witness :
  New (fun agent : string => agent) "https://br-se1.magaluobjects.com" (fun e => e)
    knownEndpoint connect recordAppInfo (Some "mgc-sdk-go") "minioadmin" "minioadmin"
    [WithMinioClientInterface (Some [("tests", "1.0")])]
  = (Some {| CoreClient_ := "mgc-sdk-go";
             minioClient := Some [("tests", "1.0"); ("wrapper", "mgc-sdk-go")];
             endpoint := "https://br-se1.magaluobjects.com" |}, None).
Proof.
  apply (New_uses_given_client (fun agent : string => agent)
           "https://br-se1.magaluobjects.com" (fun e => e)
           knownEndpoint connect recordAppInfo "mgc-sdk-go" "minioadmin" "minioadmin"
           [WithMinioClientInterface (Some [("tests", "1.0")])] [("tests", "1.0")]);
    (discriminate || reflexivity).
Defined.

Lemma New_makes_client_witness :
  New (fun agent : string => agent) "https://br-se1.magaluobjects.com" (fun e => e)
    knownEndpoint connect recordAppInfo (Some "mgc-sdk-go") "minioadmin" "minioadmin"
    [WithEndpoint "https://br-ne1.magaluobjects.com"]
  = (Some {| CoreClient_ := "mgc-sdk-go";
             minioClient := Some [("wrapper", "mgc-sdk-go")];
             endpoint := "https://br-ne1.magaluobjects.com" |}, None).
Proof.
  rewrite (New_makes_client (fun agent : string => agent)
             "https://br-se1.magaluobjects.com" (fun e => e)
             knownEndpoint connect recordAppInfo "mgc-sdk-go" "minioadmin" "minioadmin"
             [WithEndpoint "https://br-ne1.magaluobjects.com"]);
    (discriminate || reflexivity).
Defined.

Lemma NewWithEndpoint_endpoint_wins_witness :
  NewWithEndpoint (fun agent : string => agent) "https://br-se1.magaluobjects.com"
    (fun e => e) knownEndpoint connect recordAppInfo (Some "mgc-sdk-go")
    "ftp://elsewhere" "minioadmin" "minioadmin"
    [WithEndpoint "https://br-ne1.magaluobjects.com"]
  = (None, Some (ValidationError "endpoint" "invalid endpoint: ftp://elsewhere")).
Proof.
  apply (NewWithEndpoint_endpoint_wins (fun agent : string => agent)
           "https://br-se1.magaluobjects.com" (fun e => e)
           knownEndpoint connect recordAppInfo "mgc-sdk-go" "ftp://elsewhere"
           "minioadmin" "minioadmin" [WithEndpoint "https://br-ne1.magaluobjects.com"]);
    (discriminate || reflexivity).
Defined.

(* ===================================================================== *)
(** * The messages of the errors of package objectstorage *)
(* ===================================================================== *)

(** X11. The text of [Error()] tells the error types of errors.go apart:
    two errors with the same text are of the same type, and for the types
    with one field (invalid bucket name, object key, object data, policy
    and HTTP method) they are the same error. *)
Theorem Error_string_identifies :
  forall e1 e2 : objectstorage.Error,
    errors_go.error_type e1 <> None -> errors_go.error_type e2 <> None ->
    objectstorage.Error_string e1 = objectstorage.Error_string e2 ->
    errors_go.error_type e1 = errors_go.error_type e2
    /\ (errors_go.error_type e1 <> Some 5%nat -> errors_go.error_type e1 <> Some 6%nat -> e1 = e2).
Proof.
  intros e1 e2 H1 H2 Htext.
  destruct e1, e2; cbn [errors_go.error_type] in *; try contradiction;
    cbn [objectstorage.Error_string String.append] in Htext;
    try discriminate Htext;
    (split; [reflexivity|]); intros H5 H6; try contradiction;
    injection Htext as ->; reflexivity.
Qed.

Lemma Error_string_identifies_witness :
  objectstorage.Error_string (objectstorage.InvalidHTTPMethodError "DELETE")
  = "invalid HTTP method: DELETE"
  /\ forall e, errors_go.error_type e <> None ->
       objectstorage.Error_string e = "invalid HTTP method: DELETE" ->
       e = objectstorage.InvalidHTTPMethodError "DELETE".
Proof.
  split; [reflexivity|]. intros e He Htext. symmetry.
  apply (Error_string_identifies (objectstorage.InvalidHTTPMethodError "DELETE") e);
    (discriminate || assumption || (symmetry; exact Htext) || idtac).
Defined.

(* ===================================================================== *)
(** * The in-memory storage client of the tests (mock_minio_test.go) *)
(* ===================================================================== *)

From stdpp Require Import gmap strings.

Module mock.

(** [minio.RetentionMode] and [minio.ValidityUnit] are strings. *)
Definition RetentionMode : Type := string.
Definition ValidityUnit : Type := string.

(** The field of [minio.BucketVersioningConfiguration] that the client
    writes; the others keep their zero value. *)
Record BucketVersioningConfiguration : Type := {
  Status : string
}.

(** The fields of [minio.UploadInfo] that the client fills. *)
Record UploadInfo : Type := {
  UploadBucket : string;
  UploadKey : string;
  UploadETag : string;
  UploadSize : Z
}.

(** The field of [minio.PutObjectOptions] that the client reads. *)
Record PutObjectOptions : Type := {
  ContentType : string
}.

Section Client.

(** Instants of time with the zero value of [time.Time]; the CORS
    configurations, the readers, the contexts and the options of the storage
    library that the client only passes on. *)
Context {Time CorsConfig context Reader : Type}.
Context {MakeBucketOptions RemoveObjectOptions StatObjectOptions : Type}.
Variable zeroTime : Time.

(** The fields of [minio.BucketInfo] and [minio.ObjectInfo] that the client
    fills. *)
Record BucketInfo : Type := {
  Name : string;
  CreationDate : Time
}.

Record ObjectInfo : Type := {
  Key : string;
  Size : Z;
  LastModified : Time;
  ETag : string;
  InfoContentType : string
}.

(** The fields of [minio.PutObjectRetentionOptions] that the client reads. *)
Record PutObjectRetentionOptions : Type := {
  Mode : option RetentionMode;
  RetainUntilDate : option Time
}.

Record mockLockConfig : Type := {
  objectLock : string;
  mode : option RetentionMode;
  validity : option N;
  unit : option ValidityUnit
}.

(** The field [mode] of the source is [retention_mode] here. *)
Record mockObjectRetention : Type := {
  retention_mode : option RetentionMode;
  retainUntilDate : option Time
}.

Record mockObject : Type := {
  key : string;
  size : Z;
  lastModified : Time;
  etag : string;
  contentType : string;
  data : list Byte.byte;
  retention : option mockObjectRetention
}.

Record mockBucket : Type := {
  name : string;
  creationDate : Time;
  policy : string;
  corsConfig : option CorsConfig;
  versioning : BucketVersioningConfiguration;
  lockConfig : option mockLockConfig;
  objects : gmap string mockObject
}.

(** The results of the operations, Go's tuples with the error last.  An
    error is a text; the client itself returns none. *)
Definition error : Type := string.

(** [mockMinioClient]: the store, the functions that replace an operation
    when they are set (a function is taken as a pure function of its
    arguments), and the record of [SetAppInfo].  The map of buckets is the
    one that [newMockMinioClient] makes, it is never nil.  The functions for
    [GetObject], [ListObjects] and the signed addresses are left out with
    these operations. *)
Record mockMinioClient : Type := {
  endpoint : string;
  buckets : gmap string mockBucket;
  listBucketsFunc : option (context -> list BucketInfo * option error);
  makeBucketFunc : option (context -> string -> MakeBucketOptions -> option error);
  bucketExistsFunc : option (context -> string -> bool * option error);
  removeBucketFunc : option (context -> string -> option error);
  getBucketPolicyFunc : option (context -> string -> string * option error);
  setBucketPolicyFunc : option (context -> string -> string -> option error);
  getLockConfigFunc :
    option (context -> string ->
            string * option RetentionMode * option N * option ValidityUnit * option error);
  setLockConfigFunc :
    option (context -> string -> option RetentionMode -> option N -> option ValidityUnit ->
            option error);
  getCorsFunc : option (context -> string -> option CorsConfig * option error);
  setCorsFunc : option (context -> string -> option CorsConfig -> option error);
  getVersioningFunc :
    option (context -> string -> BucketVersioningConfiguration * option error);
  enableVersioningFunc : option (context -> string -> option error);
  suspendVersioningFunc : option (context -> string -> option error);
  putObjectFunc :
    option (context -> string -> string -> Reader -> Z -> PutObjectOptions ->
            UploadInfo * option error);
  removeObjectFunc :
    option (context -> string -> string -> RemoveObjectOptions -> option error);
  statObjectFunc :
    option (context -> string -> string -> StatObjectOptions -> ObjectInfo * option error);
  putObjectRetentionFunc :
    option (context -> string -> string -> PutObjectRetentionOptions -> option error);
  getObjectRetentionFunc :
    option (context -> string -> string -> string ->
            option RetentionMode * option Time * option error);
  setAppInfoCalls : Z;
  lastAppName : string;
  lastAppVersion : string
}.

(** The client with another store, the rest as it is. *)
Definition with_buckets (m : mockMinioClient) (bs : gmap string mockBucket)
  : mockMinioClient :=
  {| endpoint := endpoint m; buckets := bs;
     listBucketsFunc := listBucketsFunc m; makeBucketFunc := makeBucketFunc m;
     bucketExistsFunc := bucketExistsFunc m; removeBucketFunc := removeBucketFunc m;
     getBucketPolicyFunc := getBucketPolicyFunc m;
     setBucketPolicyFunc := setBucketPolicyFunc m;
     getLockConfigFunc := getLockConfigFunc m; setLockConfigFunc := setLockConfigFunc m;
     getCorsFunc := getCorsFunc m; setCorsFunc := setCorsFunc m;
     getVersioningFunc := getVersioningFunc m;
     enableVersioningFunc := enableVersioningFunc m;
     suspendVersioningFunc := suspendVersioningFunc m;
     putObjectFunc := putObjectFunc m; removeObjectFunc := removeObjectFunc m;
     statObjectFunc := statObjectFunc m;
     putObjectRetentionFunc := putObjectRetentionFunc m;
     getObjectRetentionFunc := getObjectRetentionFunc m;
     setAppInfoCalls := setAppInfoCalls m;
     lastAppName := lastAppName m; lastAppVersion := lastAppVersion m |}.

(** A bucket with one field assigned: the writes through the pointer that
    the map holds. *)
Definition set_policy (b : mockBucket) (p : string) : mockBucket :=
  {| name := name b; creationDate := creationDate b; policy := p;
     corsConfig := corsConfig b; versioning := versioning b;
     lockConfig := lockConfig b; objects := objects b |}.

Definition set_corsConfig (b : mockBucket) (c : option CorsConfig) : mockBucket :=
  {| name := name b; creationDate := creationDate b; policy := policy b;
     corsConfig := c; versioning := versioning b;
     lockConfig := lockConfig b; objects := objects b |}.

Definition set_versioning_Status (b : mockBucket) (status : string) : mockBucket :=
  {| name := name b; creationDate := creationDate b; policy := policy b;
     corsConfig := corsConfig b; versioning := {| Status := status |};
     lockConfig := lockConfig b; objects := objects b |}.

Definition set_lockConfig (b : mockBucket) (l : option mockLockConfig) : mockBucket :=
  {| name := name b; creationDate := creationDate b; policy := policy b;
     corsConfig := corsConfig b; versioning := versioning b;
     lockConfig := l; objects := objects b |}.

Definition set_objects (b : mockBucket) (os : gmap string mockObject) : mockBucket :=
  {| name := name b; creationDate := creationDate b; policy := policy b;
     corsConfig := corsConfig b; versioning := versioning b;
     lockConfig := lockConfig b; objects := os |}.

Definition set_retention (o : mockObject) (r : option mockObjectRetention) : mockObject :=
  {| key := key o; size := size o; lastModified := lastModified o; etag := etag o;
     contentType := contentType o; data := data o; retention := r |}.

(** [newMockMinioClient] *)
Definition newMockMinioClient : mockMinioClient :=
  {| endpoint := "br-se1.magaluobjects.com"; buckets := ∅;
     listBucketsFunc := None; makeBucketFunc := None; bucketExistsFunc := None;
     removeBucketFunc := None; getBucketPolicyFunc := None; setBucketPolicyFunc := None;
     getLockConfigFunc := None; setLockConfigFunc := None;
     getCorsFunc := None; setCorsFunc := None; getVersioningFunc := None;
     enableVersioningFunc := None; suspendVersioningFunc := None;
     putObjectFunc := None; removeObjectFunc := None; statObjectFunc := None;
     putObjectRetentionFunc := None; getObjectRetentionFunc := None;
     setAppInfoCalls := 0; lastAppName := EmptyString; lastAppVersion := EmptyString |}.

(** [ListBuckets].  Go leaves the order of the iteration over a map open;
    the buckets are taken in the order of [map_to_list]. *)
Definition ListBuckets (ctx : context) (m : mockMinioClient)
  : (list BucketInfo * option error) * mockMinioClient :=
  match listBucketsFunc m with
  | Some f => (f ctx, m)
  | None =>
      ((map (fun entry => {| Name := name (snd entry);
                             CreationDate := creationDate (snd entry) |})
            (map_to_list (buckets m)), None), m)
  end.

(** [MakeBucket]; [now] is the reading of the clock. *)
Definition MakeBucket (now : Time) (ctx : context) (bucketName : string)
  (opts : MakeBucketOptions) (m : mockMinioClient) : option error * mockMinioClient :=
  match makeBucketFunc m with
  | Some f => (f ctx bucketName opts, m)
  | None =>
      (None,
       with_buckets m
         (<[bucketName := {| name := bucketName; creationDate := now; policy := EmptyString;
                             corsConfig := None; versioning := {| Status := EmptyString |};
                             lockConfig := None; objects := ∅ |}]> (buckets m)))
  end.

(** [BucketExists] *)
Definition BucketExists (ctx : context) (bucketName : string) (m : mockMinioClient)
  : (bool * option error) * mockMinioClient :=
  match bucketExistsFunc m with
  | Some f => (f ctx bucketName, m)
  | None =>
      match buckets m !! bucketName with
      | Some _ => ((true, None), m)
      | None => ((false, None), m)
      end
  end.

(** [RemoveBucket] *)
Definition RemoveBucket (ctx : context) (bucketName : string) (m : mockMinioClient)
  : option error * mockMinioClient :=
  match removeBucketFunc m with
  | Some f => (f ctx bucketName, m)
  | None => (None, with_buckets m (delete bucketName (buckets m)))
  end.

(** [GetBucketPolicy] *)
Definition GetBucketPolicy (ctx : context) (bucketName : string) (m : mockMinioClient)
  : (string * option error) * mockMinioClient :=
  match getBucketPolicyFunc m with
  | Some f => (f ctx bucketName, m)
  | None =>
      match buckets m !! bucketName with
      | None => ((EmptyString, None), m)
      | Some bucket => ((policy bucket, None), m)
      end
  end.

(** [SetBucketPolicy] *)
Definition SetBucketPolicy (ctx : context) (bucketName policy : string)
  (m : mockMinioClient) : option error * mockMinioClient :=
  match setBucketPolicyFunc m with
  | Some f => (f ctx bucketName policy, m)
  | None =>
      match buckets m !! bucketName with
      | None => (None, m)
      | Some bucket =>
          (None, with_buckets m (<[bucketName := set_policy bucket policy]> (buckets m)))
      end
  end.

(** [GetObjectLockConfig] *)
Definition GetObjectLockConfig (ctx : context) (bucketName : string) (m : mockMinioClient)
  : (string * option RetentionMode * option N * option ValidityUnit * option error)
    * mockMinioClient :=
  match getLockConfigFunc m with
  | Some f => (f ctx bucketName, m)
  | None =>
      match buckets m !! bucketName with
      | None => ((EmptyString, None, None, None, None), m)
      | Some bucket =>
          match lockConfig bucket with
          | None => ((EmptyString, None, None, None, None), m)
          | Some l => ((objectLock l, mode l, validity l, unit l, None), m)
          end
      end
  end.

(** [SetObjectLockConfig] *)
Definition SetObjectLockConfig (ctx : context) (bucketName : string)
  (mode : option RetentionMode) (validity : option N) (unit : option ValidityUnit)
  (m : mockMinioClient) : option error * mockMinioClient :=
  match setLockConfigFunc m with
  | Some f => (f ctx bucketName mode validity unit, m)
  | None =>
      match buckets m !! bucketName with
      | None => (None, m)
      | Some bucket =>
          let l :=
            match mode, validity, unit with
            | None, None, None => None
            | _, _, _ => Some {| objectLock := "Enabled"; mode := mode;
                                 validity := validity; unit := unit |}
            end in
          (None, with_buckets m (<[bucketName := set_lockConfig bucket l]> (buckets m)))
      end
  end.

(** [GetBucketCors] *)
Definition GetBucketCors (ctx : context) (bucketName : string) (m : mockMinioClient)
  : (option CorsConfig * option error) * mockMinioClient :=
  match getCorsFunc m with
  | Some f => (f ctx bucketName, m)
  | None =>
      match buckets m !! bucketName with
      | None => ((None, None), m)
      | Some bucket => ((corsConfig bucket, None), m)
      end
  end.

(** [SetBucketCors] *)
Definition SetBucketCors (ctx : context) (bucketName : string)
  (corsConfig : option CorsConfig) (m : mockMinioClient)
  : option error * mockMinioClient :=
  match setCorsFunc m with
  | Some f => (f ctx bucketName corsConfig, m)
  | None =>
      match buckets m !! bucketName with
      | None => (None, m)
      | Some bucket =>
          (None,
           with_buckets m (<[bucketName := set_corsConfig bucket corsConfig]> (buckets m)))
      end
  end.

(** [GetBucketVersioning] *)
Definition GetBucketVersioning (ctx : context) (bucketName : string) (m : mockMinioClient)
  : (BucketVersioningConfiguration * option error) * mockMinioClient :=
  match getVersioningFunc m with
  | Some f => (f ctx bucketName, m)
  | None =>
      match buckets m !! bucketName with
      | None => (({| Status := EmptyString |}, None), m)
      | Some bucket => ((versioning bucket, None), m)
      end
  end.

(** [EnableVersioning] *)
Definition EnableVersioning (ctx : context) (bucketName : string) (m : mockMinioClient)
  : option error * mockMinioClient :=
  match enableVersioningFunc m with
  | Some f => (f ctx bucketName, m)
  | None =>
      match buckets m !! bucketName with
      | None => (None, m)
      | Some bucket =>
          (None,
           with_buckets m
             (<[bucketName := set_versioning_Status bucket "Enabled"]> (buckets m)))
      end
  end.

(** [SuspendVersioning] *)
Definition SuspendVersioning (ctx : context) (bucketName : string) (m : mockMinioClient)
  : option error * mockMinioClient :=
  match suspendVersioningFunc m with
  | Some f => (f ctx bucketName, m)
  | None =>
      match buckets m !! bucketName with
      | None => (None, m)
      | Some bucket =>
          (None,
           with_buckets m
             (<[bucketName := set_versioning_Status bucket "Suspended"]> (buckets m)))
      end
  end.

Definition zeroUploadInfo : UploadInfo :=
  {| UploadBucket := EmptyString; UploadKey := EmptyString; UploadETag := EmptyString;
     UploadSize := 0 |}.

Definition zeroObjectInfo : ObjectInfo :=
  {| Key := EmptyString; Size := 0; LastModified := zeroTime; ETag := EmptyString;
     InfoContentType := EmptyString |}.

(** [PutObject]; the reader is not read, and [now] is the reading of the
    clock. *)
Definition PutObject (now : Time) (ctx : context) (bucketName objectName : string)
  (reader : Reader) (objectSize : Z) (opts : PutObjectOptions) (m : mockMinioClient)
  : (UploadInfo * option error) * mockMinioClient :=
  match putObjectFunc m with
  | Some f => (f ctx bucketName objectName reader objectSize opts, m)
  | None =>
      match buckets m !! bucketName with
      | None => ((zeroUploadInfo, None), m)
      | Some bucket =>
          let object :=
            {| key := objectName; size := objectSize; lastModified := now;
               etag := "mock-etag"; contentType := ContentType opts;
               data := []; retention := None |} in
          (({| UploadBucket := bucketName; UploadKey := objectName;
               UploadETag := "mock-etag"; UploadSize := objectSize |}, None),
           with_buckets m
             (<[bucketName := set_objects bucket (<[objectName := object]> (objects bucket))]>
                (buckets m)))
      end
  end.

(** [RemoveObject] *)
Definition RemoveObject (ctx : context) (bucketName objectName : string)
  (opts : RemoveObjectOptions) (m : mockMinioClient) : option error * mockMinioClient :=
  match removeObjectFunc m with
  | Some f => (f ctx bucketName objectName opts, m)
  | None =>
      match buckets m !! bucketName with
      | None => (None, m)
      | Some bucket =>
          (None,
           with_buckets m
             (<[bucketName := set_objects bucket (delete objectName (objects bucket))]>
                (buckets m)))
      end
  end.

(** [StatObject] *)
Definition StatObject (ctx : context) (bucketName objectName : string)
  (opts : StatObjectOptions) (m : mockMinioClient)
  : (ObjectInfo * option error) * mockMinioClient :=
  match statObjectFunc m with
  | Some f => (f ctx bucketName objectName opts, m)
  | None =>
      match buckets m !! bucketName with
      | None => ((zeroObjectInfo, None), m)
      | Some bucket =>
          match objects bucket !! objectName with
          | None => ((zeroObjectInfo, None), m)
          | Some obj =>
              (({| Key := key obj; Size := size obj; LastModified := lastModified obj;
                   ETag := etag obj; InfoContentType := contentType obj |}, None), m)
          end
      end
  end.

(** [PutObjectRetention] *)
Definition PutObjectRetention (ctx : context) (bucketName objectName : string)
  (opts : PutObjectRetentionOptions) (m : mockMinioClient)
  : option error * mockMinioClient :=
  match putObjectRetentionFunc m with
  | Some f => (f ctx bucketName objectName opts, m)
  | None =>
      match buckets m !! bucketName with
      | None => (None, m)
      | Some bucket =>
          match objects bucket !! objectName with
          | None => (None, m)
          | Some obj =>
              let r := {| retention_mode := Mode opts;
                          retainUntilDate := RetainUntilDate opts |} in
              (None,
               with_buckets m
                 (<[bucketName :=
                      set_objects bucket
                        (<[objectName := set_retention obj (Some r)]> (objects bucket))]>
                    (buckets m)))
          end
      end
  end.

(** [GetObjectRetention] *)
Definition GetObjectRetention (ctx : context) (bucketName objectName versionID : string)
  (m : mockMinioClient)
  : (option RetentionMode * option Time * option error) * mockMinioClient :=
  match getObjectRetentionFunc m with
  | Some f => (f ctx bucketName objectName versionID, m)
  | None =>
      match buckets m !! bucketName with
      | None => ((None, None, None), m)
      | Some bucket =>
          match objects bucket !! objectName with
          | None => ((None, None, None), m)
          | Some obj =>
              match retention obj with
              | None => ((None, None, None), m)
              | Some r => ((retention_mode r, retainUntilDate r, None), m)
              end
          end
      end
  end.

(** [SetAppInfo] *)
Definition SetAppInfo (appName appVersion : string) (m : mockMinioClient)
  : mockMinioClient :=
  {| endpoint := endpoint m; buckets := buckets m;
     listBucketsFunc := listBucketsFunc m; makeBucketFunc := makeBucketFunc m;
     bucketExistsFunc := bucketExistsFunc m; removeBucketFunc := removeBucketFunc m;
     getBucketPolicyFunc := getBucketPolicyFunc m;
     setBucketPolicyFunc := setBucketPolicyFunc m;
     getLockConfigFunc := getLockConfigFunc m; setLockConfigFunc := setLockConfigFunc m;
     getCorsFunc := getCorsFunc m; setCorsFunc := setCorsFunc m;
     getVersioningFunc := getVersioningFunc m;
     enableVersioningFunc := enableVersioningFunc m;
     suspendVersioningFunc := suspendVersioningFunc m;
     putObjectFunc := putObjectFunc m; removeObjectFunc := removeObjectFunc m;
     statObjectFunc := statObjectFunc m;
     putObjectRetentionFunc := putObjectRetentionFunc m;
     getObjectRetentionFunc := getObjectRetentionFunc m;
     setAppInfoCalls := GoInt.wrap (setAppInfoCalls m + 1);
     lastAppName := appName; lastAppVersion := appVersion |}.

(** No operation is replaced by a function, as in a client that
    [newMockMinioClient] made. *)
Definition plain (m : mockMinioClient) : Prop :=
  listBucketsFunc m = None /\ makeBucketFunc m = None /\ bucketExistsFunc m = None
  /\ removeBucketFunc m = None /\ getBucketPolicyFunc m = None
  /\ setBucketPolicyFunc m = None /\ getLockConfigFunc m = None
  /\ setLockConfigFunc m = None /\ getCorsFunc m = None /\ setCorsFunc m = None
  /\ getVersioningFunc m = None /\ enableVersioningFunc m = None
  /\ suspendVersioningFunc m = None /\ putObjectFunc m = None
  /\ removeObjectFunc m = None /\ statObjectFunc m = None
  /\ putObjectRetentionFunc m = None /\ getObjectRetentionFunc m = None.

(** Every bucket is stored under its own name and every object under its
    own key. *)
Definition named_by_key (m : mockMinioClient) : Prop :=
  forall bucketName bucket,
    buckets m !! bucketName = Some bucket ->
    name bucket = bucketName
    /\ forall objectName obj, objects bucket !! objectName = Some obj -> key obj = objectName.


End Client.

End mock.

(** Clients for the examples: times are numbers, the other parameters carry
    nothing.  The second client has one bucket, the third one object in
    it. *)
Module mock_examples.

Import mock.

Local Open Scope Z_scope.

Definition example_client : Type :=
  @mockMinioClient Z string Datatypes.unit Datatypes.unit Datatypes.unit Datatypes.unit
    Datatypes.unit.

Definition emptyClient : example_client :=
  newMockMinioClient.

Definition withBucket : example_client :=
  snd (MakeBucket 5 tt "photos" tt emptyClient).

Definition stocked : example_client :=
  snd (PutObject 7 tt "photos" "cat.png" tt 3 {| ContentType := "image/png" |} withBucket).

End mock_examples.

(* ===================================================================== *)
(** * Properties of the in-memory storage client *)
(* ===================================================================== *)

Section MockFacts.

Import mock.

Context {Time CorsConfig context Reader : Type}.
Context {MakeBucketOptions RemoveObjectOptions StatObjectOptions : Type}.
Variable zeroTime : Time.

Local Abbreviation client :=
  (@mockMinioClient Time CorsConfig context Reader
     MakeBucketOptions RemoveObjectOptions StatObjectOptions).

Local Abbreviation bucket_of := (@mockBucket Time CorsConfig).

Implicit Types (m : client) (ctx : context) (now : Time).

Lemma buckets_with_buckets m (bs : gmap string bucket_of) :
  buckets (with_buckets m bs) = bs.
Proof. reflexivity. Qed.

Lemma plain_with_buckets m (bs : gmap string bucket_of) :
  plain m -> plain (with_buckets m bs).
Proof. intros H. exact H. Qed.

Ltac use_plain H :=
  let H' := fresh in
  pose proof H as H';
  unfold plain in H';
  destruct H' as (?&?&?&?&?&?&?&?&?&?&?&?&?&?&?&?&?&?).

Ltac run_mock :=
  unfold MakeBucket, BucketExists, RemoveBucket, GetBucketPolicy, SetBucketPolicy,
    GetObjectLockConfig, SetObjectLockConfig, GetBucketCors, SetBucketCors,
    GetBucketVersioning, EnableVersioning, SuspendVersioning, PutObject, RemoveObject,
    StatObject, PutObjectRetention, GetObjectRetention, ListBuckets;
  repeat
    (cbn [listBucketsFunc makeBucketFunc bucketExistsFunc removeBucketFunc
          getBucketPolicyFunc setBucketPolicyFunc getLockConfigFunc setLockConfigFunc
          getCorsFunc setCorsFunc getVersioningFunc enableVersioningFunc
          suspendVersioningFunc putObjectFunc removeObjectFunc statObjectFunc
          putObjectRetentionFunc getObjectRetentionFunc with_buckets buckets fst snd]
     || match goal with H : _ = None |- _ => rewrite H end).

(** X12. In a client without replacement functions a bucket exists after
    [MakeBucket] and does not exist after [RemoveBucket], whatever was there
    before; both leave the existence of every other bucket as it was, and
    neither reports an error. *)
Theorem MakeBucket_RemoveBucket_BucketExists m ctx now opts (b : string) :
  plain m ->
  fst (MakeBucket now ctx b opts m) = None
  /\ fst (RemoveBucket ctx b m) = None
  /\ fst (BucketExists ctx b (snd (MakeBucket now ctx b opts m))) = (true, None)
  /\ fst (BucketExists ctx b (snd (RemoveBucket ctx b m))) = (false, None)
  /\ forall b', b' <> b ->
       fst (BucketExists ctx b' (snd (MakeBucket now ctx b opts m)))
         = fst (BucketExists ctx b' m)
       /\ fst (BucketExists ctx b' (snd (RemoveBucket ctx b m)))
         = fst (BucketExists ctx b' m).
Proof.
  intros Hp. use_plain Hp.
  run_mock. repeat split.
  - rewrite lookup_insert_eq. reflexivity.
  - rewrite lookup_delete_eq. reflexivity.
  - rewrite lookup_insert_ne by congruence. destruct (buckets m !! b'); reflexivity.
  - rewrite lookup_delete_ne by congruence. destruct (buckets m !! b'); reflexivity.
Qed.


(** X13. Without replacement functions, and with every bucket stored under
    its own name, [ListBuckets] reports no error, leaves the client as it
    is, and names each existing bucket once and no other. *)
Theorem ListBuckets_lists_existing_buckets m ctx :
  plain m -> named_by_key m ->
  snd (fst (ListBuckets ctx m)) = None
  /\ snd (ListBuckets ctx m) = m
  /\ NoDup (map Name (fst (fst (ListBuckets ctx m))))
  /\ forall b, In b (map Name (fst (fst (ListBuckets ctx m))))
               <-> fst (BucketExists ctx b m) = (true, None).
Proof.
  intros Hp Hn. use_plain Hp. run_mock.
  assert (Hnames :
    map Name (map (fun entry : string * bucket_of =>
                     {| Name := name entry.2; CreationDate := creationDate entry.2 |})
                  (map_to_list (buckets m)))
    = (map_to_list (buckets m)).*1).
  { rewrite List.map_map. apply List.map_ext_in. intros [k bk] Hin. cbn.
    apply list_elem_of_In, elem_of_map_to_list in Hin.
    apply Hn in Hin. apply Hin. }
  rewrite Hnames. repeat split.
  - apply NoDup_fst_map_to_list.
  - intros Hin. apply list_elem_of_In, list_elem_of_fmap in Hin.
    destruct Hin as ([k bk] & -> & Hin). apply elem_of_map_to_list in Hin.
    cbn. rewrite Hin. reflexivity.
  - intros Hex. destruct (buckets m !! b) as [bk|] eqn:Hb; [|discriminate].
    apply list_elem_of_In, list_elem_of_fmap. exists (b, bk). split; [reflexivity|].
    apply elem_of_map_to_list. exact Hb.
Qed.


Lemma named_by_key_insert m (b : string) (bucket : bucket_of) :
  named_by_key m -> name bucket = b ->
  (forall o obj, objects bucket !! o = Some obj -> key obj = o) ->
  named_by_key (with_buckets m (<[b := bucket]> (buckets m))).
Proof.
  intros Hn Hname Hobjs b' bucket'. cbn [with_buckets buckets].
  destruct (decide (b = b')) as [<-|Hne].
  - rewrite lookup_insert_eq. intros [= <-]. split; assumption.
  - rewrite lookup_insert_ne by exact Hne. apply Hn.
Qed.



(** X15. In a client without replacement functions [StatObject] returns the
    zero value or a description whose key is the name that was asked for,
    when every bucket is stored under its name and every object under its
    key. *)
Theorem StatObject_reports_requested_key m ctx (b o : string) opts :
  plain m -> named_by_key m ->
  fst (StatObject zeroTime ctx b o opts m) = (zeroObjectInfo zeroTime, None)
  \/ Key (fst (fst (StatObject zeroTime ctx b o opts m))) = o.
Proof.
  intros Hp Hn. use_plain Hp. run_mock.
  destruct (buckets m !! b) as [bucket|] eqn:Hb; [|left; reflexivity].
  destruct (objects bucket !! o) as [obj|] eqn:Ho; [|left; reflexivity].
  right. cbn. destruct (Hn _ _ Hb) as [_ Hobjs]. apply (Hobjs _ _ Ho).
Qed.

(** X16. [MakeBucket] on a name, in use or not, leaves a bucket without
    policy, CORS configuration, versioning status, lock configuration and
    objects: an existing bucket of that name is replaced by an empty one. *)
Theorem MakeBucket_replaces_bucket m ctx now opts (b : string) :
  plain m ->
  let m' := snd (MakeBucket now ctx b opts m) in
  fst (GetBucketPolicy ctx b m') = (EmptyString, None)
  /\ fst (GetBucketCors ctx b m') = (None, None)
  /\ fst (GetBucketVersioning ctx b m') = ({| Status := EmptyString |}, None)
  /\ fst (GetObjectLockConfig ctx b m') = (EmptyString, None, None, None, None)
  /\ (forall o sopts,
        fst (StatObject zeroTime ctx b o sopts m') = (zeroObjectInfo zeroTime, None))
  /\ (forall o version,
        fst (GetObjectRetention ctx b o version m') = (None, None, None)).
Proof.
  intros Hp m'. subst m'. use_plain Hp. run_mock.
  rewrite lookup_insert_eq. cbn [objects policy corsConfig versioning lockConfig fst].
  repeat split; intros; rewrite ?lookup_empty; reflexivity.
Qed.

(** X17. On an existing bucket, without replacement functions, the policy
    and the CORS configuration read back as they were set, and setting one
    leaves the other and the objects as they were. *)
Theorem policy_and_cors_read_back m ctx (b p : string) (c : option CorsConfig) :
  plain m -> is_Some (buckets m !! b) ->
  fst (GetBucketPolicy ctx b (snd (SetBucketPolicy ctx b p m))) = (p, None)
  /\ fst (GetBucketCors ctx b (snd (SetBucketCors ctx b c m))) = (c, None)
  /\ fst (GetBucketCors ctx b (snd (SetBucketPolicy ctx b p m)))
     = fst (GetBucketCors ctx b m)
  /\ fst (GetBucketPolicy ctx b (snd (SetBucketCors ctx b c m)))
     = fst (GetBucketPolicy ctx b m)
  /\ forall o sopts,
       fst (StatObject zeroTime ctx b o sopts (snd (SetBucketPolicy ctx b p m)))
       = fst (StatObject zeroTime ctx b o sopts m)
       /\ fst (StatObject zeroTime ctx b o sopts (snd (SetBucketCors ctx b c m)))
          = fst (StatObject zeroTime ctx b o sopts m).
Proof.
  intros Hp [bucket Hb]. use_plain Hp. run_mock. rewrite Hb. run_mock.
  rewrite !lookup_insert_eq. cbn.
  repeat split; destruct (objects bucket !! _); reflexivity.
Qed.

(** X18. On an existing bucket, without replacement functions, the
    versioning status is Enabled after [EnableVersioning] and Suspended
    after [SuspendVersioning], whatever it was, so the later of two calls
    decides. *)
Theorem versioning_follows_last_call m ctx (b : string) :
  plain m -> is_Some (buckets m !! b) ->
  fst (GetBucketVersioning ctx b (snd (EnableVersioning ctx b m)))
  = ({| Status := "Enabled" |}, None)
  /\ fst (GetBucketVersioning ctx b (snd (SuspendVersioning ctx b m)))
     = ({| Status := "Suspended" |}, None)
  /\ fst (GetBucketVersioning ctx b
            (snd (SuspendVersioning ctx b (snd (EnableVersioning ctx b m)))))
     = ({| Status := "Suspended" |}, None)
  /\ fst (GetBucketVersioning ctx b
            (snd (EnableVersioning ctx b (snd (SuspendVersioning ctx b m)))))
     = ({| Status := "Enabled" |}, None).
Proof.
  intros Hp [bucket Hb]. use_plain Hp. run_mock. rewrite Hb. run_mock.
  rewrite !lookup_insert_eq. run_mock. rewrite !lookup_insert_eq. cbn. repeat split.
Qed.

(** X19. On an existing bucket, without replacement functions, a lock
    configuration with at least one part set reads back with the text
    Enabled and the parts as given; with no part set it reads back as for a
    bucket that never had one. *)
Theorem lock_config_reads_back m ctx (b : string)
  (mode : option RetentionMode) (validity : option N) (unit : option ValidityUnit) :
  plain m -> is_Some (buckets m !! b) ->
  fst (GetObjectLockConfig ctx b (snd (SetObjectLockConfig ctx b mode validity unit m)))
  = (if (bool_decide (mode = None) && bool_decide (validity = None)
         && bool_decide (unit = None))%bool
     then (EmptyString, None, None, None, None)
     else ("Enabled", mode, validity, unit, None)).
Proof.
  intros Hp [bucket Hb]. use_plain Hp. run_mock. rewrite Hb. run_mock.
  rewrite !lookup_insert_eq.
  destruct mode, validity, unit; reflexivity.
Qed.






(** X21. On an existing bucket, without replacement functions, [PutObject]
    reports the bucket, the name, the fixed tag and the given size, and
    [StatObject] then describes the object with that size, the clock's
    reading and the content type of the options; the object has no
    retention, and the other objects of the bucket are as they were. *)
Theorem PutObject_then_StatObject m ctx now (b o : string) reader size opts sopts :
  plain m -> is_Some (buckets m !! b) ->
  let m' := snd (PutObject now ctx b o reader size opts m) in
  fst (PutObject now ctx b o reader size opts m)
  = ({| UploadBucket := b; UploadKey := o; UploadETag := "mock-etag";
        UploadSize := size |}, None)
  /\ fst (StatObject zeroTime ctx b o sopts m')
     = ({| Key := o; Size := size; LastModified := now; ETag := "mock-etag";
           InfoContentType := ContentType opts |}, None)
  /\ (forall version, fst (GetObjectRetention ctx b o version m') = (None, None, None))
  /\ forall o', o' <> o ->
       fst (StatObject zeroTime ctx b o' sopts m')
       = fst (StatObject zeroTime ctx b o' sopts m)
       /\ forall version,
            fst (GetObjectRetention ctx b o' version m')
            = fst (GetObjectRetention ctx b o' version m).
Proof.
  intros Hp [bucket Hb] m'. subst m'. use_plain Hp. run_mock. rewrite Hb. run_mock.
  rewrite !lookup_insert_eq. cbn [set_objects objects].
  rewrite !lookup_insert_eq. cbn.
  repeat match goal with |- _ /\ _ => split end; try reflexivity.
  intros o' Hne. rewrite lookup_insert_ne by congruence.
  split; [|intros version]; destruct (objects bucket !! o') as [obj|]; try reflexivity.
  destruct (retention obj); reflexivity.
Qed.

(** X22. Without replacement functions, [PutObject] into a bucket that does
    not exist stores nothing and still reports no error: it returns the
    zero value, the client is as before, and [StatObject] finds no object. *)
Theorem PutObject_without_bucket m ctx now (b o : string) reader size opts sopts :
  plain m -> buckets m !! b = None ->
  PutObject now ctx b o reader size opts m = ((zeroUploadInfo, None), m)
  /\ fst (StatObject zeroTime ctx b o sopts
            (snd (PutObject now ctx b o reader size opts m)))
     = (zeroObjectInfo zeroTime, None).
Proof.
  intros Hp Hb. use_plain Hp. run_mock. split; reflexivity.
Qed.

(** X23. Without replacement functions, after [RemoveObject] the object is
    not found, whether it or its bucket existed or not; no error is
    reported and the other objects of the bucket are as they were. *)
Theorem RemoveObject_then_StatObject m ctx (b o : string) ropts sopts :
  plain m ->
  let m' := snd (RemoveObject ctx b o ropts m) in
  fst (RemoveObject ctx b o ropts m) = None
  /\ fst (StatObject zeroTime ctx b o sopts m') = (zeroObjectInfo zeroTime, None)
  /\ (forall version, fst (GetObjectRetention ctx b o version m') = (None, None, None))
  /\ forall o', o' <> o ->
       fst (StatObject zeroTime ctx b o' sopts m')
       = fst (StatObject zeroTime ctx b o' sopts m).
Proof.
  intros Hp m'. subst m'. use_plain Hp. run_mock.
  destruct (buckets m !! b) as [bucket|] eqn:Hb; run_mock.
  - rewrite !lookup_insert_eq. cbn [set_objects objects].
    rewrite !lookup_delete_eq.
    repeat match goal with |- _ /\ _ => split end; try reflexivity.
    intros o' Hne. rewrite lookup_delete_ne by congruence.
    destruct (objects bucket !! o'); reflexivity.
  - repeat match goal with |- _ /\ _ => split end; reflexivity.
Qed.

(** X24. Without replacement functions, the retention put on an existing
    object reads back as given and leaves the description of the object as
    it was; a later [PutObject] of the same name drops it. *)
Theorem PutObjectRetention_reads_back m ctx (b o : string) (bucket : bucket_of)
  (obj : mockObject) ropts version sopts :
  plain m -> buckets m !! b = Some bucket -> objects bucket !! o = Some obj ->
  let m' := snd (PutObjectRetention ctx b o ropts m) in
  fst (PutObjectRetention ctx b o ropts m) = None
  /\ fst (GetObjectRetention ctx b o version m')
     = (Mode ropts, RetainUntilDate ropts, None)
  /\ fst (StatObject zeroTime ctx b o sopts m') = fst (StatObject zeroTime ctx b o sopts m)
  /\ forall now reader size opts,
       fst (GetObjectRetention ctx b o version
              (snd (PutObject now ctx b o reader size opts m')))
       = (None, None, None).
Proof.
  intros Hp Hb Ho m'. subst m'. use_plain Hp.
  repeat match goal with |- _ /\ _ => split end; intros;
    run_mock; rewrite ?Hb, ?Ho;
    repeat first
      [ progress run_mock
      | rewrite lookup_insert_eq
      | progress cbn [set_objects objects set_retention retention] ];
    reflexivity.
Qed.


End MockFacts.

Section MockExamples.

Import mock mock_examples.

Local Open Scope Z_scope.

Lemma plain_stocked : plain stocked.
Proof. repeat split. Qed.

Lemma named_by_key_stocked : named_by_key stocked.
Proof.
  apply named_by_key_insert.
  - apply named_by_key_insert; [|reflexivity|].
    + intros b bucket Hb. cbn in Hb. rewrite lookup_empty in Hb. discriminate.
    + intros o obj Ho. cbn in Ho. rewrite lookup_empty in Ho. discriminate.
  - reflexivity.
  - intros o obj. cbn [set_objects objects].
    destruct (decide (o = "cat.png")) as [->|Hne].
    + rewrite lookup_insert_eq. intros [= <-]. reflexivity.
    + rewrite lookup_insert_ne by congruence. cbn. rewrite lookup_empty. discriminate.
Qed.

Lemma photos_in_stocked : is_Some (buckets stocked !! "photos").
Proof. vm_compute. eauto. Qed.


Lemma MakeBucket_RemoveBucket_BucketExists_witness :
  plain stocked
  /\ fst (BucketExists tt "photos" (snd (RemoveBucket tt "photos" stocked)))
     = (false, None).
Proof.
  split; [repeat split|].
  apply (MakeBucket_RemoveBucket_BucketExists stocked tt 9 tt "photos").
  repeat split.
Defined.

Lemma ListBuckets_lists_existing_buckets_witness :
  plain stocked /\ named_by_key stocked
  /\ (In "photos" (map Name (fst (fst (ListBuckets tt stocked))))
      <-> fst (BucketExists tt "photos" stocked) = (true, None)).
Proof.
  split; [repeat split|]. split; [exact named_by_key_stocked|].
  apply (ListBuckets_lists_existing_buckets stocked tt);
    [repeat split|exact named_by_key_stocked].
Defined.

Lemma StatObject_reports_requested_key_witness :
  plain stocked /\ named_by_key stocked
  /\ (fst (StatObject 0 tt "photos" "cat.png" tt stocked) = (zeroObjectInfo 0, None)
      \/ Key (fst (fst (StatObject 0 tt "photos" "cat.png" tt stocked))) = "cat.png").
Proof.
  split; [repeat split|]. split; [exact named_by_key_stocked|].
  apply (StatObject_reports_requested_key 0 stocked tt "photos" "cat.png" tt);
    [repeat split|exact named_by_key_stocked].
Defined.

Lemma MakeBucket_replaces_bucket_witness :
  plain stocked
  /\ fst (StatObject 0 tt "photos" "cat.png" tt stocked)
     = ({| Key := "cat.png"; Size := 3; LastModified := 7; ETag := "mock-etag";
           InfoContentType := "image/png" |}, None)
  /\ fst (StatObject 0 tt "photos" "cat.png" tt
            (snd (MakeBucket 9 tt "photos" tt stocked)))
     = (zeroObjectInfo 0, None).
Proof.
  split; [repeat split|]. split; [reflexivity|].
  apply (MakeBucket_replaces_bucket 0 stocked tt 9 tt "photos").
  repeat split.
Defined.

Lemma policy_and_cors_read_back_witness :
  plain stocked /\ is_Some (buckets stocked !! "photos")
  /\ fst (GetBucketPolicy tt "photos" (snd (SetBucketPolicy tt "photos" "public" stocked)))
     = ("public", None).
Proof.
  split; [repeat split|]. split; [vm_compute; eauto|].
  apply (policy_and_cors_read_back 0 stocked tt "photos" "public" None);
    [repeat split|vm_compute; eauto].
Defined.

Lemma versioning_follows_last_call_witness :
  plain stocked /\ is_Some (buckets stocked !! "photos")
  /\ fst (GetBucketVersioning tt "photos"
            (snd (SuspendVersioning tt "photos"
                    (snd (EnableVersioning tt "photos" stocked)))))
     = ({| Status := "Suspended" |}, None).
Proof.
  split; [repeat split|]. split; [vm_compute; eauto|].
  apply (versioning_follows_last_call stocked tt "photos");
    [repeat split|vm_compute; eauto].
Defined.

Lemma lock_config_reads_back_witness :
  plain stocked /\ is_Some (buckets stocked !! "photos")
  /\ fst (GetObjectLockConfig tt "photos"
            (snd (SetObjectLockConfig tt "photos" (Some "COMPLIANCE") (Some 30%N)
                    (Some "DAYS") stocked)))
     = ("Enabled", Some "COMPLIANCE", Some 30%N, Some "DAYS", None).
Proof.
  split; [repeat split|]. split; [vm_compute; eauto|].
  apply (lock_config_reads_back stocked tt "photos" (Some "COMPLIANCE") (Some 30%N)
           (Some "DAYS"));
    [repeat split|vm_compute; eauto].
Defined.

Lemma PutObject_then_StatObject_witness :
  plain withBucket /\ is_Some (buckets withBucket !! "photos")
  /\ fst (StatObject 0 tt "photos" "cat.png" tt stocked)
     = ({| Key := "cat.png"; Size := 3; LastModified := 7; ETag := "mock-etag";
           InfoContentType := "image/png" |}, None).
Proof.
  split; [repeat split|]. split; [vm_compute; eauto|].
  apply (PutObject_then_StatObject 0 withBucket tt 7 "photos" "cat.png" tt 3
           {| ContentType := "image/png" |} tt);
    [repeat split|vm_compute; eauto].
Defined.

Lemma PutObject_without_bucket_witness :
  plain emptyClient /\ buckets emptyClient !! "photos" = None
  /\ PutObject 7 tt "photos" "cat.png" tt 3 {| ContentType := "image/png" |} emptyClient
     = ((zeroUploadInfo, None), emptyClient).
Proof.
  split; [repeat split|]. split; [reflexivity|].
  apply (PutObject_without_bucket 0 emptyClient tt 7 "photos" "cat.png" tt 3
           {| ContentType := "image/png" |} tt);
    [repeat split|reflexivity].
Defined.

Lemma RemoveObject_then_StatObject_witness :
  plain stocked
  /\ fst (StatObject 0 tt "photos" "cat.png" tt
            (snd (RemoveObject tt "photos" "cat.png" tt stocked)))
     = (zeroObjectInfo 0, None).
Proof.
  split; [repeat split|].
  apply (RemoveObject_then_StatObject 0 stocked tt "photos" "cat.png" tt tt).
  repeat split.
Defined.

Lemma PutObjectRetention_reads_back_witness :
  let obj :=
    {| key := "cat.png"; size := 3; lastModified := 7; etag := "mock-etag";
       contentType := "image/png"; data := []; retention := None |} in
  let bucket :=
    {| name := "photos"; creationDate := 5; policy := EmptyString;
       corsConfig := @None string; versioning := {| Status := EmptyString |};
       lockConfig := None; objects := <["cat.png" := obj]> ∅ |} in
  let ropts := {| Mode := Some "GOVERNANCE"; RetainUntilDate := Some 100 |} in
  plain stocked /\ buckets stocked !! "photos" = Some bucket
  /\ objects bucket !! "cat.png" = Some obj
  /\ fst (GetObjectRetention tt "photos" "cat.png" EmptyString
            (snd (PutObjectRetention tt "photos" "cat.png" ropts stocked)))
     = (Some "GOVERNANCE", Some 100, None).
Proof.
  intros obj bucket ropts.
  split; [repeat split|]. split; [vm_compute; reflexivity|].
  split; [vm_compute; reflexivity|].
  assert (Hb : buckets stocked !! "photos" = Some bucket) by (vm_compute; reflexivity).
  assert (Ho : objects bucket !! "cat.png" = Some obj) by (vm_compute; reflexivity).
  exact (proj1 (proj2 (PutObjectRetention_reads_back 0 stocked tt "photos" "cat.png"
                         bucket obj ropts EmptyString tt plain_stocked Hb Ho))).
Defined.

End MockExamples.

Section ConstructionWithMock.

Import objectstorage_client.

Context {Time CorsConfig context Reader : Type}.
Context {MakeBucketOptions RemoveObjectOptions StatObjectOptions : Type}.
Context {CoreClient Endpoint MinioError : Type}.

Local Abbreviation mock_client :=
  (@mock.mockMinioClient Time CorsConfig context Reader
     MakeBucketOptions RemoveObjectOptions StatObjectOptions).

Variable UserAgent : CoreClient -> string.
Variable BrSe1 : Endpoint.
Variable Endpoint_String : Endpoint -> string.
Variable ValidateEndpoint : Endpoint -> option string.
Variable minio_New : string -> string -> string -> mock_client + MinioError.


End ConstructionWithMock.

